(** * html5ads-validator: the report renderer of [static/app.js]

    A shallow embedding of the browser script [static/app.js] and of the
    part of the JavaScript run time it relies on, followed by the
    properties of the formatter ([esc], [bytes], [short]), of the bar chart
    ([drawBars]), of the four report sections ([renderAll]), of the upload
    controller ([upload]) and of the listeners that start an upload.

    Conventions of the embedding.
    - A JavaScript number is an IEEE 754 binary64 value, [spec_float] with
      precision 53 and maximal exponent 1024, and the arithmetic is the
      correctly rounded one of [SpecFloat].
    - A JavaScript string is a [string]; one [ascii] stands for one code
      unit, so the model covers the strings whose code units are below 256.
      The two folder and file glyphs of the archive table are written as
      their UTF-8 bytes.
    - A value received from the server is a [value], the tree [JSON.parse]
      builds; an object is an association list read by its first binding.
    - An abrupt completion (a thrown [TypeError]) is the [Throw] result;
      the page keeps what was written to it before the throw.
    - The host page has the six mount points of the script, the four
      section containers in the order meta, archive, matrix, network, and
      no element of its own whose id is [netChart]: such an element comes
      from markup the script assigns. What the HTML parser of the browser
      finds in a markup is a parameter, as the URL parser is. *)

From Stdlib Require Import ZArith List String Ascii Bool Lia.
From Stdlib Require Import Floats.SpecFloat DecimalString.
Import ListNotations.

#[local] Open Scope string_scope.
#[local] Open Scope Z_scope.

(* ===================================================================== *)
(** * JavaScript numbers *)
(* ===================================================================== *)

Module Num.

Definition prec : Z := 53.
Definition emax : Z := 1024.

Definition num : Type := spec_float.

(** The well-formed binary64 values: a finite one has its canonical
    mantissa and exponent. *)
Definition valid (x : num) : Prop := valid_binary prec emax x = true.

Definition NaN : num := S754_nan.
Definition pInf : num := S754_infinity false.
Definition nInf : num := S754_infinity true.
Definition zero : num := S754_zero false.

(** The number an integer literal denotes. *)
Definition of_Z (z : Z) : num := binary_normalize prec emax z 0 false.

(** The number nearest to [p / q] (ties to even), negated when [s]. *)
Definition of_ratio (s : bool) (p q : positive) : num :=
  SFdiv prec emax (S754_finite s p 0) (S754_finite false q 0).

Definition div : num -> num -> num := SFdiv prec emax.
Definition mul : num -> num -> num := SFmul prec emax.

(** [x >= y], false as soon as one side is NaN. *)
Definition ge (x y : num) : bool := SFleb y x.
Definition lt (x y : num) : bool := SFltb x y.
Definition eqb (x y : num) : bool := SFeqb x y.

Definition is_nan (x : num) : bool :=
  match x with S754_nan => true | _ => false end.

Definition is_zero (x : num) : bool :=
  match x with S754_zero _ => true | _ => false end.

(** [Math.max]: NaN as soon as one argument is NaN, otherwise the largest
    argument starting from -Infinity, with +0 above -0. *)
Definition max_step (highest x : num) : num :=
  match highest, x with
  | S754_zero true, S754_zero false => x
  | _, _ => if lt highest x then x else highest
  end.

Definition Math_max (l : list num) : num :=
  if existsb is_nan l then NaN else fold_left max_step l nInf.

(** The integer part of a number, rounded toward zero (0 for NaN and the
    infinities, as [ToInt32] wants it). *)
Definition trunc (x : num) : Z :=
  match x with
  | S754_finite s m e =>
      let a := match e with
               | Zneg k => Z.shiftr (Zpos m) (Zpos k)
               | _ => Z.shiftl (Zpos m) e
               end in
      if s then - a else a
  | _ => 0
  end.

(** [ToInt32], the conversion behind [n|0]. *)
Definition ToInt32 (x : num) : Z :=
  let i := (trunc x) mod 2 ^ 32 in
  if 2 ^ 31 <=? i then i - 2 ^ 32 else i.

(** Decimal digits of an integer. *)
Definition dec (z : Z) : string := NilZero.string_of_int (Z.to_int z).

Fixpoint zeros (n : nat) : string :=
  match n with O => "" | S k => String "0" (zeros k) end.

(** ** [Number::toString]: the shortest decimal that reads back *)

(** A positive finite value [m * 2^e] as a fraction [a / b]. *)
Definition ratio_of (m : positive) (e : Z) : Z * Z :=
  match e with
  | Zneg k => (Zpos m, 2 ^ Zpos k)
  | _ => (Zpos m * 2 ^ e, 1)
  end.

(** [a / b < 10^n]. *)
Definition lt_pow10 (a b n : Z) : bool :=
  if 0 <=? n then a <? 10 ^ n * b else a * 10 ^ (- n) <? b.

Fixpoint first_pow10_above (fuel : nat) (a b n : Z) : Z :=
  match fuel with
  | O => n
  | S f => if lt_pow10 a b n then n else first_pow10_above f a b (n + 1)
  end.

(** The [n] with [10^(n-1) <= a/b < 10^n], searched from an estimate taken
    from the binary length of the value. *)
Definition decimal_exponent (m : positive) (e : Z) : Z :=
  let '(a, b) := ratio_of m e in
  let bits := Zpos (digits2_pos m) + e in
  first_pow10_above 8 a b ((bits - 1) * 30103 / 100000 - 2).

(** The number nearest to [c * 10^p], for [c > 0]. *)
Definition of_decimal (s : bool) (c p : Z) : num :=
  match c with
  | Zpos c' =>
      if 0 <=? p then of_ratio s (c' * Z.to_pos (10 ^ p)) 1
      else of_ratio s c' (Z.to_pos (10 ^ (- p)))
  | _ => S754_zero s
  end.

(** The digits [s], their number [k] and the exponent [n] of
    [Number::toString]: [k] is the least number of digits for which
    [s * 10^(n-k)] reads back as the value; of two such [s] the nearer one is
    taken, the even one on a tie. *)
Fixpoint shortest (fuel : nat) (m : positive) (e : Z) (n0 k : Z) : Z * Z * Z :=
  let '(a, b) := ratio_of m e in
  let p := n0 - k in
  let A := if 0 <=? p then a else a * 10 ^ (- p) in
  let B := if 0 <=? p then b * 10 ^ p else b in
  let lo := A / B in
  let hi := lo + 1 in
  let x := S754_finite false m e in
  let ok_lo := eqb (of_decimal false lo p) x in
  let ok_hi := eqb (of_decimal false hi p) x in
  let pick_hi := if hi =? 10 ^ k then (10 ^ (k - 1), k, n0 + 1) else (hi, k, n0) in
  let pick_lo := (lo, k, n0) in
  match ok_lo, ok_hi with
  | true, true =>
      match (A - lo * B) ?= (hi * B - A) with
      | Lt => pick_lo
      | Gt => pick_hi
      | Eq => if Z.even lo then pick_lo else pick_hi
      end
  | true, false => pick_lo
  | false, true => pick_hi
  | false, false =>
      match fuel with
      | O => pick_lo
      | S f => shortest f m e n0 (k + 1)
      end
  end.

Definition format_digits (s k n : Z) : string :=
  let ds := dec s in
  if (k <=? n) && (n <=? 21) then ds ++ zeros (Z.to_nat (n - k))
  else if (0 <? n) && (n <=? 21) then
    substring 0 (Z.to_nat n) ds ++ "." ++ substring (Z.to_nat n) (Z.to_nat (k - n)) ds
  else if (-6 <? n) && (n <=? 0) then "0." ++ zeros (Z.to_nat (- n)) ++ ds
  else
    let ex := (if n - 1 <? 0 then "-" else "+") ++ dec (Z.abs (n - 1)) in
    if k =? 1 then ds ++ "e" ++ ex
    else substring 0 1 ds ++ "." ++ substring 1 (Z.to_nat (k - 1)) ds ++ "e" ++ ex.

Definition toString (x : num) : string :=
  match x with
  | S754_nan => "NaN"
  | S754_zero _ => "0"
  | S754_infinity s => if s then "-Infinity" else "Infinity"
  | S754_finite s m e =>
      let '(d, k, n) := shortest 17 m e (decimal_exponent m e) 1 in
      (if s then "-" else "") ++ format_digits d k n
  end.

(** ** [Number.prototype.toFixed] *)

(** [10^21 <= |x|]. *)
Definition ge_1e21 (x : num) : bool :=
  match x with
  | S754_infinity _ => true
  | S754_finite _ m e => let '(a, b) := ratio_of m e in 10 ^ 21 * b <=? a
  | _ => false
  end.

(** The integer nearest to [|x| * 10^fd], the larger one on a tie. *)
Definition scaled_round (fd : Z) (x : num) : Z :=
  match x with
  | S754_finite _ m e =>
      let '(a, b) := ratio_of m e in (2 * a * 10 ^ fd + b) / (2 * b)
  | _ => 0
  end.

Definition is_neg (x : num) : bool :=
  match x with
  | S754_finite s _ _ => s
  | S754_infinity s => s
  | _ => false
  end.

Definition toFixed (fd : Z) (x : num) : string :=
  if is_nan x then "NaN"
  else if ge_1e21 x then toString x
  else
    let n := scaled_round fd x in
    let ds := dec n in
    let k := Z.of_nat (String.length ds) in
    let ds := if k <=? fd then zeros (Z.to_nat (fd + 1 - k)) ++ ds else ds in
    let k := Z.of_nat (String.length ds) in
    (if is_neg x then "-" else "") ++
    (if fd =? 0 then ds
     else substring 0 (Z.to_nat (k - fd)) ds ++ "." ++
          substring (Z.to_nat (k - fd)) (Z.to_nat fd) ds).

End Num.

(* ===================================================================== *)
(** * Strings *)
(* ===================================================================== *)

Module Str.

Definition code (c : ascii) : N := N_of_ascii c.

(** The double quote, which the markup of the script uses for every
    attribute. *)
Definition dquote : ascii := ascii_of_N 34.

(** The markup literals of the script are written with a backquote where
    the script has a double quote; [html] puts the double quotes back. *)
Fixpoint html (s : string) : string :=
  match s with
  | EmptyString => EmptyString
  | String c r => String (if Ascii.eqb c "`" then dquote else c) (html r)
  end.

(** [s.slice(0, n)] for a string. *)
Definition slice0 (n : nat) (s : string) : string := substring 0 n s.

(** [parts.join('')]. *)
Definition join (l : list string) : string := String.concat "" l.

(** Whether [p] occurs in [s]. *)
Fixpoint contains (p s : string) : bool :=
  prefix p s || match s with
                | EmptyString => false
                | String _ r => contains p r
                end.

(** White space and line terminators, the code units [StringToNumber]
    strips from both ends. *)
Definition is_space (c : ascii) : bool :=
  let n := code c in
  ((9 <=? n) && (n <=? 13) || (n =? 32) || (n =? 160))%N.

Fixpoint trim_left (s : string) : string :=
  match s with
  | String c r => if is_space c then trim_left r else s
  | EmptyString => EmptyString
  end.

Fixpoint rev_acc (s acc : string) : string :=
  match s with
  | EmptyString => acc
  | String c r => rev_acc r (String c acc)
  end.

Definition rev (s : string) : string := rev_acc s EmptyString.

Definition trim (s : string) : string := rev (trim_left (rev (trim_left s))).

End Str.

(* ===================================================================== *)
(** * [StringToNumber] *)
(* ===================================================================== *)

Module Parse.
Import Num Str.

Definition digit_val (base : N) (c : ascii) : option Z :=
  let n := code c in
  let v := if ((48 <=? n) && (n <=? 57))%N then Some (n - 48)%N
           else if ((97 <=? n) && (n <=? 102))%N then Some (n - 87)%N
           else if ((65 <=? n) && (n <=? 70))%N then Some (n - 55)%N
           else None in
  match v with
  | Some d => if (d <? base)%N then Some (Z.of_N d) else None
  | None => None
  end.

(** Reads the longest run of digits in [base]: the value read so far, the
    number of digits read and what is left. *)
Fixpoint digits (base : N) (s : string) (acc : Z) (cnt : Z) : Z * Z * string :=
  match s with
  | String c r =>
      match digit_val base c with
      | Some d => digits base r (acc * Z.of_N base + d) (cnt + 1)
      | None => (acc, cnt, s)
      end
  | EmptyString => (acc, cnt, s)
  end.

(** An integer literal in base 2, 8 or 16, after its prefix. *)
Definition radix_literal (base : N) (s : string) : num :=
  let '(v, cnt, rest) := digits base s 0 0 in
  if (0 <? cnt) && String.eqb rest "" then of_Z v else NaN.

(** The exponent part: [e] or [E], an optional sign, at least one digit.
    [None] when what is left is not an exponent part. *)
Definition exponent_part (s : string) : option Z :=
  match s with
  | EmptyString => Some 0
  | String c r =>
      if Ascii.eqb c "e" || Ascii.eqb c "E" then
        let '(neg, r') :=
          match r with
          | String "-" t => (true, t)
          | String "+" t => (false, t)
          | _ => (false, r)
          end in
        let '(v, cnt, rest) := digits 10 r' 0 0 in
        if (0 <? cnt) && String.eqb rest "" then Some (if neg then - v else v)
        else None
      else None
  end.

(** The number nearest to [d * 10^p], where [d >= 0]; an exponent far
    outside the range of the doubles is settled without computing the
    power. *)
Definition decimal_value (neg : bool) (d p : Z) : num :=
  if d =? 0 then S754_zero neg
  else
    let nd := Z.of_nat (String.length (dec d)) in
    if 400 <? nd + p then S754_infinity neg
    else if nd + p <? -400 then S754_zero neg
    else of_decimal neg d p.

(** An unsigned decimal literal: digits, an optional fraction, an optional
    exponent, with at least one digit before or after the point. *)
Definition decimal_literal (neg : bool) (s : string) : num :=
  let '(ip, ic, r1) := digits 10 s 0 0 in
  let '(fp, fc, r2) :=
    match r1 with
    | String "." t => digits 10 t ip 0
    | _ => (ip, 0, r1)
    end in
  if (ic + fc =? 0) then NaN
  else
    match exponent_part r2 with
    | Some ex => decimal_value neg fp (ex - fc)
    | None => NaN
    end.

Definition signed_literal (neg : bool) (s : string) : num :=
  if String.eqb s "Infinity" then S754_infinity neg
  else decimal_literal neg s.

Definition StringToNumber (s : string) : num :=
  match trim s with
  | EmptyString => zero
  | String "0" (String "x" r) | String "0" (String "X" r) => radix_literal 16 r
  | String "0" (String "o" r) | String "0" (String "O" r) => radix_literal 8 r
  | String "0" (String "b" r) | String "0" (String "B" r) => radix_literal 2 r
  | String "-" r => signed_literal true r
  | String "+" r => signed_literal false r
  | t => signed_literal false t
  end.

End Parse.

(* ===================================================================== *)
(** * Values, completions and conversions *)
(* ===================================================================== *)

(** What [JSON.parse] builds, and [undefined], which reading an absent
    property gives. *)
#[warnings="-register-all"]
Inductive value : Type :=
  | Undefined
  | Null
  | Bool (b : bool)
  | Number (x : Num.num)
  | Str (s : string)
  | Arr (l : list value)
  | Obj (o : list (string * value)).

Inductive error : Type := TypeError | SyntaxError.

(** The outcome of evaluating an expression: a value, or a throw. *)
Inductive completion (A : Type) : Type :=
  | Ok (a : A)
  | Throw (e : error).

Arguments Ok {A} a.
Arguments Throw {A} e.

Definition cbind {A B} (c : completion A) (k : A -> completion B) : completion B :=
  match c with
  | Ok a => k a
  | Throw e => Throw e
  end.

Declare Scope js_scope.
Delimit Scope js_scope with js.
Notation "x <- c ;; k" := (cbind c (fun x => k))
  (at level 61, c at next level, right associativity) : js_scope.
#[local] Open Scope js_scope.

(** [xs.map(f)] when [f] may throw: left to right, stopping at the first
    throw. *)
Fixpoint cmap {A B} (f : A -> completion B) (l : list A) : completion (list B) :=
  match l with
  | [] => Ok []
  | a :: r => b <- f a ;; bs <- cmap f r ;; Ok (b :: bs)
  end.

Module JS.
Import Num Str Parse.

Fixpoint lookup (k : string) (o : list (string * value)) : option value :=
  match o with
  | [] => None
  | (k', v) :: r => if String.eqb k k' then Some v else lookup k r
  end.

Definition has_key (k : string) (o : list (string * value)) : bool :=
  match lookup k o with Some _ => true | None => false end.

Definition nullish (v : value) : bool :=
  match v with Undefined | Null => true | _ => false end.

(** [ToBoolean]. *)
Definition truthy (v : value) : bool :=
  match v with
  | Undefined | Null => false
  | Bool b => b
  | Number x => negb (is_zero x || is_nan x)
  | Str s => negb (String.eqb s "")
  | Arr _ | Obj _ => true
  end.

(** [a || b], [a && b] and [a ?? b] on evaluated operands (the right
    operands of the script are literals or property reads of a value
    already tested, so evaluating them eagerly changes nothing). *)
Definition or (a b : value) : value := if truthy a then a else b.
Definition and (a b : value) : value := if truthy a then b else a.
Definition coalesce (a b : value) : value := if nullish a then b else a.

(** [v.k] for the property names the script reads, none of which is a
    method or an accessor of a prototype: reading a property of [null] or
    [undefined] throws; an object gives its own binding; a string and an
    array have their [length]; everything else is [undefined]. *)
Definition get (v : value) (k : string) : completion value :=
  match v with
  | Undefined | Null => Throw TypeError
  | Obj o => Ok match lookup k o with Some x => x | None => Undefined end
  | Arr l => Ok (if String.eqb k "length" then Number (of_Z (Z.of_nat (List.length l)))
                 else Undefined)
  | Str s => Ok (if String.eqb k "length" then Number (of_Z (Z.of_nat (String.length s)))
                 else Undefined)
  | Bool _ | Number _ => Ok Undefined
  end.

(** [ToString]. An array joins its elements with commas, [null] and
    [undefined] elements giving nothing. A parsed object has the inherited
    [toString], which answers [[object Object]], unless a binding named
    [toString] hides it: that binding is no function and the conversion
    throws. *)
Fixpoint ToString (v : value) : completion string :=
  match v with
  | Undefined => Ok "undefined"
  | Null => Ok "null"
  | Bool b => Ok (if b then "true" else "false")
  | Number x => Ok (Num.toString x)
  | Str s => Ok s
  | Arr l =>
      (fix elems (l : list value) : completion string :=
         match l with
         | [] => Ok ""
         | e :: r =>
             s <- (if nullish e then Ok "" else ToString e) ;;
             match r with
             | [] => Ok s
             | _ => t <- elems r ;; Ok (s ++ "," ++ t)
             end
         end) l
  | Obj o => if has_key "toString" o then Throw TypeError else Ok "[object Object]"
  end.

(** [ToNumber], the conversion [Number(v)] applies. *)
Definition ToNumber (v : value) : completion num :=
  match v with
  | Undefined => Ok NaN
  | Null => Ok zero
  | Bool b => Ok (if b then of_Z 1 else zero)
  | Number x => Ok x
  | Str s => Ok (StringToNumber s)
  | Arr _ | Obj _ => s <- ToString v ;; Ok (StringToNumber s)
  end.

(** [v.map(f)]: only an array has [map]. *)
Definition map_method {B} (v : value) (f : value -> completion B) : completion (list B) :=
  match v with
  | Arr l => cmap f l
  | _ => Throw TypeError
  end.

(** [v.slice(0, n)]: strings and arrays have [slice]. *)
Definition slice_method (v : value) (n : nat) : completion value :=
  match v with
  | Str s => Ok (Str (slice0 n s))
  | Arr l => Ok (Arr (firstn n l))
  | _ => Throw TypeError
  end.

(** [Object.assign({}, src)] followed by reads of the fresh object. The
    copy goes through ordinary assignment, so a binding named [__proto__]
    is not copied: it sets the prototype of the fresh object when it holds
    an object or [null]. *)
Inductive proto : Type :=
  | ObjectPrototype
  | NoPrototype
  | ProtoObj (o : list (string * value))
  | ProtoArr (l : list value).

Record fresh_object : Type := {
  own : list (string * value);
  prototype : proto
}.

Definition is_proto_key (kv : string * value) : bool := String.eqb (fst kv) "__proto__".

Definition Object_assign (src : value) : fresh_object :=
  match src with
  | Obj o =>
      {| own := filter (fun kv => negb (is_proto_key kv)) o;
         prototype := match lookup "__proto__" o with
                      | Some (Obj p) => ProtoObj p
                      | Some (Arr l) => ProtoArr l
                      | Some Null => NoPrototype
                      | _ => ObjectPrototype
                      end |}
  | _ => {| own := []; prototype := ObjectPrototype |}
  end.

Definition get_fresh (f : fresh_object) (k : string) : value :=
  match lookup k (own f) with
  | Some v => v
  | None =>
      match prototype f with
      | ProtoObj p => match lookup k p with Some v => v | None => Undefined end
      | ProtoArr l => if String.eqb k "length" then Number (of_Z (Z.of_nat (List.length l)))
                      else Undefined
      | _ => Undefined
      end
  end.

End JS.

(* ===================================================================== *)
(** * The page *)
(* ===================================================================== *)

(** What the script sees of an element: its [style.display], the markup
    last assigned to its [innerHTML], and, when that markup declares an
    element whose id is [netChart], the content of the first such
    element. *)
Record element : Type := {
  display : string;
  innerHTML : string;
  holder : option string
}.

(** The six mount points the script fetches when it starts, and the element
    [document.getElementById('netChart')] finds. *)
Inductive node : Type := drop | file | meta | archive | matrix | network | netChart.

(** The host page: the mount points and the messages shown by [alert]. *)
Record page : Type := {
  p_drop : element;
  p_file : element;
  p_meta : element;
  p_archive : element;
  p_matrix : element;
  p_network : element;
  alerts : list string
}.

(** The section container that holds the first element of the page whose
    id is [netChart]. *)
Definition chart_owner (p : page) : option node :=
  match holder (p_meta p), holder (p_archive p), holder (p_matrix p),
        holder (p_network p) with
  | Some _, _, _, _ => Some meta
  | None, Some _, _, _ => Some archive
  | None, None, Some _, _ => Some matrix
  | None, None, None, Some _ => Some network
  | None, None, None, None => None
  end.

(** The content of the first element of the page whose id is [netChart],
    when the page has one. *)
Definition p_netChart (p : page) : option string :=
  match chart_owner p with
  | Some meta => holder (p_meta p)
  | Some archive => holder (p_archive p)
  | Some matrix => holder (p_matrix p)
  | Some network => holder (p_network p)
  | _ => None
  end.

(** A statement of the script: it may change the page and may throw. *)
Definition M (A : Type) : Type := page -> completion A * page.

Definition ret {A} (a : A) : M A := fun p => (Ok a, p).

Definition bind {A B} (c : M A) (k : A -> M B) : M B :=
  fun p => match c p with
           | (Ok a, p') => k a p'
           | (Throw e, p') => (Throw e, p')
           end.

Definition lift {A} (c : completion A) : M A := fun p => (c, p).

Notation "x <<- c ;; k" := (bind c (fun x => k))
  (at level 61, c at next level, right associativity) : js_scope.
Notation "c ;;; k" := (bind c (fun _ => k))
  (at level 61, right associativity) : js_scope.

Module Dom.
Import Str.

(** The opening of the markup of the network section, up to the chart
    holder it declares. *)
Definition network_head : string :=
  html "<h2>Network Requests</h2>
      <div id=`netChart` style=`height:260px;margin:8px 0 12px 0`></div>".

(** [document.getElementById] for the ids the script asks for: the mount
    points, and [netChart], which is the first element of that id in the
    page. *)
Definition getElementById (id : string) : M (option node) :=
  fun p =>
    (Ok (if String.eqb id "drop" then Some drop
         else if String.eqb id "file" then Some file
         else if String.eqb id "meta" then Some meta
         else if String.eqb id "archive" then Some archive
         else if String.eqb id "matrix" then Some matrix
         else if String.eqb id "network" then Some network
         else if String.eqb id "netChart" then
           match p_netChart p with Some _ => Some netChart | None => None end
         else None), p).

Definition with_display (e : element) (d : string) : element :=
  {| display := d; innerHTML := innerHTML e; holder := holder e |}.

Definition with_holder (e : element) (c : option string) : element :=
  {| display := display e; innerHTML := innerHTML e; holder := c |}.

Definition update (n : node) (f : element -> element) (p : page) : page :=
  match n with
  | drop => {| p_drop := f (p_drop p); p_file := p_file p; p_meta := p_meta p;
               p_archive := p_archive p; p_matrix := p_matrix p;
               p_network := p_network p; alerts := alerts p |}
  | file => {| p_drop := p_drop p; p_file := f (p_file p); p_meta := p_meta p;
               p_archive := p_archive p; p_matrix := p_matrix p;
               p_network := p_network p; alerts := alerts p |}
  | meta => {| p_drop := p_drop p; p_file := p_file p; p_meta := f (p_meta p);
               p_archive := p_archive p; p_matrix := p_matrix p;
               p_network := p_network p; alerts := alerts p |}
  | archive => {| p_drop := p_drop p; p_file := p_file p; p_meta := p_meta p;
                  p_archive := f (p_archive p); p_matrix := p_matrix p;
                  p_network := p_network p; alerts := alerts p |}
  | matrix => {| p_drop := p_drop p; p_file := p_file p; p_meta := p_meta p;
                 p_archive := p_archive p; p_matrix := f (p_matrix p);
                 p_network := p_network p; alerts := alerts p |}
  | network => {| p_drop := p_drop p; p_file := p_file p; p_meta := p_meta p;
                  p_archive := p_archive p; p_matrix := p_matrix p;
                  p_network := f (p_network p); alerts := alerts p |}
  | netChart => p
  end.

(** The page in which the content of the first element whose id is
    [netChart] is replaced by [c]. *)
Definition set_chart (c : option string) (p : page) : page :=
  match chart_owner p with
  | Some n => update n (fun e => with_holder e c) p
  | None => p
  end.

(** [el.style.display = d]. *)
Definition set_display (n : node) (d : string) : M unit :=
  fun p => (Ok tt, update n (fun e => with_display e d) p).

Section Parser.

(** The HTML parser of the browser, as far as the script depends on it:
    the content of the first element whose id is [netChart] among the
    elements a markup declares, [None] when it declares none. *)
Variable parseHTML : string -> option string.

(** What is known of the parser without running it: the empty markup
    declares no element, and in a markup that opens as the network section
    does the first element whose id is [netChart] is the empty holder of
    that section. *)
Definition holder_in (h : string) : option string :=
  if String.eqb h "" then None
  else if prefix network_head h then Some ""
  else parseHTML h.

Definition with_innerHTML (e : element) (h : string) : element :=
  {| display := display e; innerHTML := h; holder := holder_in h |}.

(** [el.innerHTML = h]. Markup assigned to a mount point replaces its
    children, and with them the element whose id is [netChart] it may have
    held. Markup assigned to the element [netChart] is its content. *)
Definition set_innerHTML (n : node) (h : string) : M unit :=
  fun p =>
    match n with
    | netChart =>
        match p_netChart p with
        | Some _ => (Ok tt, set_chart (Some h) p)
        | None => (Throw TypeError, p)
        end
    | _ => (Ok tt, update n (fun e => with_innerHTML e h) p)
    end.

End Parser.

(** [alert(v)]: the message is converted to a string and shown. *)
Definition alert (v : value) : M unit :=
  fun p =>
    match JS.ToString v with
    | Ok s => (Ok tt,
               {| p_drop := p_drop p; p_file := p_file p; p_meta := p_meta p;
                  p_archive := p_archive p; p_matrix := p_matrix p;
                  p_network := p_network p; alerts := alerts p ++ [s] |})
    | Throw e => (Throw e, p)
    end.

(** [els.forEach(f)]. *)
Fixpoint forEach {A} (f : A -> M unit) (l : list A) : M unit :=
  match l with
  | [] => ret tt
  | a :: r => f a ;;; forEach f r
  end.

End Dom.

(* ===================================================================== *)
(** * The script *)
(* ===================================================================== *)

(** The record [new URL(u)] builds, as far as the script reads it. *)
Record URL : Type := {
  hostname : string;
  pathname : string
}.

(** An entry of the chart, [{name, size}]. *)
Record bar : Type := {
  name : value;
  size : Num.num
}.

(** What comes back from [fetch('/analyze')] and [res.json()]: the request
    fails, or a response arrives with its [ok] flag and a body that is JSON
    or not. *)
Inductive response : Type :=
  | NetworkFailure
  | NotJson (ok : bool)
  | Json (ok : bool) (data : value).

Module App.
Import Num Str JS Dom.

(** ** The formatter *)

(** The replacement function of [esc]. *)
Definition entity (c : ascii) : string :=
  if Ascii.eqb c "&" then "&amp;"
  else if Ascii.eqb c "<" then "&lt;"
  else if Ascii.eqb c ">" then "&gt;"
  else if Ascii.eqb c dquote then "&quot;"
  else if Ascii.eqb c "'" then "&#39;"
  else String c EmptyString.

(** The global replacement of the five special characters. *)
Fixpoint replace_special (s : string) : string :=
  match s with
  | EmptyString => EmptyString
  | String c r => entity c ++ replace_special r
  end.

(** [function esc(s)]. *)
Definition esc (s : value) : completion string :=
  t <- ToString (coalesce s (Str "")) ;;
  Ok (replace_special t).

Definition u : list string := ["B"; "KB"; "MB"; "GB"].

(** The loop of [bytes]: [room] is [u.length - 1 - i], the number of larger
    units left. *)
Fixpoint scale (room : nat) (n : num) (i : nat) : num * nat :=
  match room with
  | O => (n, i)
  | S r => if ge n (of_Z 1024) then scale r (div n (of_Z 1024)) (S i) else (n, i)
  end.

(** [function bytes(n)]. An int32 prints as its decimal digits. *)
Definition bytes (n : value) : completion string :=
  if nullish n || match n with Str EmptyString => true | _ => false end then Ok ""
  else
    x <- ToNumber n ;;
    let '(y, i) := scale (List.length u - 1) x 0 in
    Ok ((match i with O => dec (ToInt32 y) | _ => toFixed 1 y end)
        ++ " " ++ nth i u "undefined").

Section Script.

(** The URL parser of the browser: [None] when [new URL(s)] throws. *)
Variable parseURL : string -> option URL.

(** The HTML parser of the browser, see [Dom.holder_in]. *)
Variable parseHTML : string -> option string.

(** [function short(u)]. *)
Definition short (u : value) : completion value :=
  match (s <- ToString u ;;
         match parseURL s with Some x => Ok x | None => Throw TypeError end) with
  | Ok x =>
      Ok (Str (slice0 60 (hostname x ++
                          (if String.eqb (pathname x) "" then "" else pathname x))))
  | Throw _ => slice_method (or u (Str "")) 60
  end.

(** ** The chart *)

(** The markup of one bar: the escaped label, the width in percent and the
    formatted size. *)
Definition bar_markup (label width amount : string) : string :=
  html "
    <div style=`display:flex;align-items:center;gap:8px;margin:4px 0`>
      <div class=`list` style=`flex:1;white-space:nowrap;overflow:hidden;text-overflow:ellipsis`>" ++ label ++
  html "</div>
      <div style=`width:260px;background:#1b1b1f;border:1px solid #2a2a30;border-radius:6px;height:16px;position:relative`>
        <div style=`position:absolute;left:0;top:0;bottom:0;width:" ++ width ++
  html "%;background:#22c55e;border-radius:6px`></div>
      </div>
      <div style=`width:80px;text-align:right`>" ++ amount ++
  html "</div>
    </div>".

(** The width of a bar, [(d.size/max*100).toFixed(1)]. *)
Definition bar_width (max : num) (d : bar) : string :=
  toFixed 1 (mul (div (size d) max) (of_Z 100)).

(** The row of one bar. *)
Definition bar_row (max : num) (d : bar) : completion string :=
  n <- esc (name d) ;;
  b <- bytes (Number (size d)) ;;
  Ok (bar_markup n (bar_width max d) b).

(** [function drawBars(elId, data)]. *)
Definition drawBars (elId : string) (data : list bar) : M unit :=
  el <<- getElementById elId ;;
  let max := Math_max (map size data ++ [of_Z 1]) in
  rows <<- lift (cmap (bar_row max) data) ;;
  match el with
  | Some n => set_innerHTML parseHTML n (join rows)
  | None => lift (Throw TypeError)
  end.

(** ** The four sections *)

Definition previewBtn_markup (run : value) : completion string :=
  r <- ToString run ;;
  Ok (html "<a class=`btn` href=`/runs/" ++ r ++ html "/view` target=`_blank`>Open Creative Preview</a>").

Definition meta_markup (previewBtn : string) (md : fresh_object) (name : string)
  : completion string :=
  scan_type <- esc (or (get_fresh md "scan_type") (Str "Web scan")) ;;
  api_version <- esc (or (get_fresh md "api_version") (Str "v1")) ;;
  unix_timestamp <- (s <- ToString (or (get_fresh md "unix_timestamp") (Str "")) ;; esc (Str s)) ;;
  scan_duration <- (s <- ToString (or (get_fresh md "scan_duration") (Str "")) ;; esc (Str s)) ;;
  creative_type <- esc (or (get_fresh md "creative_type") (Str "HTML5 Zip")) ;;
  original_name <- esc (or (or (get_fresh md "original_name") (Str name)) (Str "")) ;;
  device <- esc (or (get_fresh md "device") (Str "Desktop")) ;;
  language <- esc (or (get_fresh md "language") (Str "en-US")) ;;
  user_agent <- esc (or (get_fresh md "user_agent") (Str "")) ;;
  Ok (html "
    <h2>Metadata</h2>
    " ++ previewBtn ++
      html "
    <div class=`kv` style=`margin-top:12px`>
      <div>Scan Type</div><div>" ++ scan_type ++
      html "</div>
      <div>API Version</div><div>" ++ api_version ++
      html "</div>
      <div>Unix Timestamp</div><div>" ++ unix_timestamp ++
      html "</div>
      <div>Scan Duration</div><div>" ++ scan_duration ++
      html " seconds</div>
      <div>Creative Type</div><div>" ++ creative_type ++
      html "</div>
      <div>Original Name</div><div>" ++ original_name ++
      html "</div>
      <div>Device</div><div>" ++ device ++
      html "</div>
      <div>Language</div><div>" ++ language ++
      html "</div>
      <div>User-Agent</div><div class=`list`>" ++ user_agent ++
      html "</div>
    </div>").

(** The row of one archive entry. *)
Definition archive_row (e : value) : completion string :=
  is_dir <- get e "is_dir" ;;
  nm <- (x <- get e "name" ;; esc x) ;;
  sz <- (x <- get e "size" ;; bytes x) ;;
  cz <- (x <- get e "compressed" ;; bytes x) ;;
  Ok (html "
    <tr><td>" ++ (if truthy is_dir then "📁" else "📄") ++
      html "</td>
        <td>" ++ nm ++
      html "</td>
        <td class=`ta-r`>" ++ sz ++
      html "</td>
        <td class=`ta-r`>" ++ cz ++
      html "</td></tr>").

Definition archive_markup (rows : string) : string :=
  html "
    <h2>ZIP Archive</h2>
    <table class=`table`><thead>
      <tr><th></th><th>Filename</th><th class=`ta-r`>File Size</th><th class=`ta-r`>Compressed</th></tr>
    </thead><tbody>" ++ rows ++ html "</tbody></table>".

(** The figure of one thumbnail. *)
Definition thumb_figure (run : value) (t : value) : completion string :=
  run <- ToString run ;;
  t1 <- (x <- get t "t_sec" ;; ToString x) ;;
  t2 <- (x <- get t "t_sec" ;; ToString x) ;;
  png <- (x <- get t "png_b64" ;; ToString x) ;;
  t3 <- (x <- get t "t_sec" ;; ToString x) ;;
  t4 <- (x <- get t "t_sec" ;; ToString x) ;;
  Ok (html "<figure style=`margin:0`>
        <a href=`/runs/" ++ run ++
      html "/backup.png?t=" ++ t1 ++
      html "` download=`backup_" ++ t2 ++
      html ".png` title=`Download as Backup`>
          <img src=`" ++ png ++
      html "` alt=`" ++ t3 ++
      html "s` style=`height:84px;border-radius:6px;border:1px solid #2a2a30`>
        </a>
        <figcaption class=`meta` style=`text-align:center`>" ++ t4 ++
      html " sec</figcaption>
      </figure>").

Definition thumbRow_markup (run : value) (thumbs : value) : completion string :=
  len <- get thumbs "length" ;;
  if truthy len then
    figs <- map_method thumbs (thumb_figure run) ;;
    Ok (html "
    <div style=`display:flex;gap:8px;flex-wrap:wrap;margin:8px 0 16px 0`>
      " ++ join figs ++ html "
    </div>")
  else Ok "".

(** The row of one check. *)
Definition check_row (r : value) : completion string :=
  category <- (x <- get r "category" ;; esc (or x (Str "-"))) ;;
  label <- (x <- get r "label" ;; esc x) ;;
  status <- (x <- get r "status" ;; ToString x) ;;
  val <- (x <- get r "value" ;; esc x) ;;
  help <- (h <- get r "help" ;;
           if truthy h then
             h' <- (x <- get r "help" ;; esc x) ;;
             Ok (html "<div class=`help`>" ++ h' ++ html "</div>")
           else Ok "") ;;
  Ok (html "
    <tr>
      <td>" ++ category ++
      html "</td>
      <td>" ++ label ++
      html "</td>
      <td class=`ta-r`><span class=`badge " ++ status ++
      html "`>" ++ val ++
      html "</span>
        " ++ help ++
      html "</td>
    </tr>").

Definition matrix_markup (thumbRow tests : string) : string :=
  html "<h2>Checks</h2>" ++ thumbRow ++ html "
    <table class=`table`><thead><tr><th>Category</th><th>Test</th><th class=`ta-r`>Result</th></tr></thead>
    <tbody>" ++ tests ++ html "</tbody></table>".

(** The table row of one network request. *)
Definition net_row (n : value) : completion string :=
  url <- (x <- get n "url" ;; s <- short x ;; esc s) ;;
  status <- (x <- get n "status" ;; ToString (coalesce x (Str ""))) ;;
  protocol <- (x <- get n "protocol" ;; esc (or x (Str ""))) ;;
  enc <- (x <- get n "enc" ;; esc (or x (Str ""))) ;;
  size <- (x <- get n "bytes" ;;
           if truthy x then y <- get n "bytes" ;; bytes y else Ok "") ;;
  type <- (x <- get n "type" ;; esc (or x (Str ""))) ;;
  Ok (html "
      <tr>
        <td>" ++ url ++
      html "</td>
        <td>" ++ status ++
      html "</td>
        <td>" ++ protocol ++
      html "</td>
        <td>" ++ enc ++
      html "</td>
        <td class=`ta-r`>" ++ size ++
      html "</td>
        <td>" ++ type ++
      html "</td>
      </tr>").

Definition network_markup (nrows : string) : string :=
  html "<h2>Network Requests</h2>
      <div id=`netChart` style=`height:260px;margin:8px 0 12px 0`></div>
      <table class=`table`><thead>
        <tr><th>Resource URL</th><th>Status</th><th>Protocol</th><th>Enc</th><th class=`ta-r`>Bytes</th><th>Type</th></tr>
      </thead><tbody>" ++ nrows ++ html "</tbody></table>".

(** The chart entry of one network request,
    [{name: short(n.url), size: Number(n.bytes||0)}]. *)
Definition chart_entry (n : value) : completion bar :=
  nm <- (x <- get n "url" ;; short x) ;;
  sz <- (x <- get n "bytes" ;; ToNumber (or x (Number zero))) ;;
  Ok {| name := nm; size := sz |}.

(** [data.runtime && data.runtime.network_requests
      ? data.runtime.network_requests : []]. *)
Definition network_requests (data : value) : completion value :=
  runtime <- get data "runtime" ;;
  c <- (if truthy runtime then r <- get data "runtime" ;; get r "network_requests"
        else Ok runtime) ;;
  if truthy c then r <- get data "runtime" ;; get r "network_requests"
  else Ok (Arr []).

(** The four blocks of [renderAll]. *)
Definition render_meta (previewBtn : string) (data : value) (name : string) : M unit :=
  md <<- lift (m <- get data "metadata" ;; Ok (Object_assign (or m (Obj [])))) ;;
  h <<- lift (meta_markup previewBtn md name) ;;
  set_innerHTML parseHTML meta h ;;;
  set_display meta "block".

Definition render_archive (data : value) : M unit :=
  rows <<- lift (a <- get data "archive" ;; map_method (or a (Arr [])) archive_row) ;;
  set_innerHTML parseHTML archive (archive_markup (join rows)) ;;;
  set_display archive "block".

Definition render_checks (run : value) (data : value) : M unit :=
  thumbs <<- lift (t <- get data "thumbnails" ;; Ok (or t (Arr []))) ;;
  thumbRow <<- lift (thumbRow_markup run thumbs) ;;
  tests <<- lift (r <- get data "results" ;; map_method (or r (Arr [])) check_row) ;;
  set_innerHTML parseHTML matrix (matrix_markup thumbRow (join tests)) ;;;
  set_display matrix "block".

Definition render_network (data : value) : M unit :=
  net <<- lift (network_requests data) ;;
  len <<- lift (get net "length") ;;
  if truthy len then
    nrows <<- lift (map_method net net_row) ;;
    set_innerHTML parseHTML network (network_markup (join nrows)) ;;;
    set_display network "block" ;;;
    entries <<- lift (map_method net chart_entry) ;;
    drawBars "netChart" (firstn 12 entries)
  else ret tt.

(** [function renderAll(data, name)]. *)
Definition renderAll (data : value) (name : string) : M unit :=
  run <<- lift (get data "run_id") ;;
  previewBtn <<- lift (previewBtn_markup run) ;;
  render_meta previewBtn data name ;;;
  render_archive data ;;;
  render_checks run data ;;;
  render_network data.

(** ** The upload controller *)

(** [async function upload(f)], given the name of the file and what the
    server answers. *)
Definition upload (f_name : string) (r : response) : M unit :=
  forEach (fun el => set_display el "none" ;;; set_innerHTML parseHTML el "")
          [meta; archive; matrix; network] ;;;
  match r with
  | NetworkFailure => lift (Throw TypeError)
  | NotJson _ => lift (Throw SyntaxError)
  | Json ok data =>
      failed <<- lift (if negb ok then Ok true
                       else e <- get data "error" ;; Ok (truthy e)) ;;
      if failed then
        e <<- lift (get data "error") ;;
        alert (or e (Str "Upload failed"))
      else renderAll data f_name
  end.

End Script.

End App.

(* ===================================================================== *)
(** * The listeners *)
(* ===================================================================== *)

Module Events.
Import Str JS Dom App.

(** [s.endsWith(t)]. *)
Definition endsWith (s t : string) : bool :=
  let n := String.length s in
  let k := String.length t in
  if (n <? k)%nat then false else String.eqb (substring (n - k) k s) t.

(** [classList.add(t)] and [classList.remove(t)] on the tokens of a class
    attribute. *)
Definition add (t : string) (l : list string) : list string :=
  if existsb (String.eqb t) l then l else l ++ [t].

Definition remove (t : string) (l : list string) : list string :=
  filter (fun c => negb (String.eqb t c)) l.

Definition node_eqb (a b : node) : bool :=
  match a, b with
  | drop, drop | file, file | meta, meta | archive, archive | matrix, matrix
  | network, network | netChart, netChart => true
  | _, _ => false
  end.

(** What the listeners read and change: the class list of the drop zone,
    whether a listener called [preventDefault] on the event being handled,
    and the page. *)
Record ui : Type := {
  classList : list string;
  prevented : bool;
  doc : page
}.

(** An event: the element whose listeners it reaches, its type, and the
    names of the files it comes with ([e.dataTransfer.files] of a drop,
    [file.files] of a change). *)
Record event : Type := {
  target : node;
  type : string;
  files : list string
}.

Section Listeners.
Variable parseURL : string -> option URL.
Variable parseHTML : string -> option string.

(** A listener, given the event and what the server answers to the upload
    it may start. *)
Definition listener : Type := event -> response -> ui -> ui.

(** [e => {e.preventDefault(); drop.classList.add('drag')}]. *)
Definition drag_on : listener :=
  fun _ _ s =>
    {| classList := add "drag" (classList s); prevented := true; doc := doc s |}.

(** [e => {e.preventDefault(); drop.classList.remove('drag')}]. *)
Definition drag_off : listener :=
  fun _ _ s =>
    {| classList := remove "drag" (classList s); prevented := true; doc := doc s |}.

(** The listener of line 11: the first dropped file whose name ends with
    [.zip] is uploaded. The upload is asynchronous: what it throws rejects
    its promise and does not reach the listener. *)
Definition drop_zip : listener :=
  fun e r s =>
    match find (fun x => endsWith x ".zip") (files e) with
    | Some f => {| classList := classList s; prevented := prevented s;
                   doc := snd (upload parseURL parseHTML f r (doc s)) |}
    | None => s
    end.

(** The listener of line 14: the first chosen file is uploaded. *)
Definition choose_file : listener :=
  fun e r s =>
    match files e with
    | f :: _ => {| classList := classList s; prevented := prevented s;
                   doc := snd (upload parseURL parseHTML f r (doc s)) |}
    | [] => s
    end.

(** The calls of [addEventListener], in the order of the script. *)
Definition listeners : list (node * string * listener) :=
  map (fun ev => (drop, ev, drag_on)) ["dragenter"; "dragover"] ++
  map (fun ev => (drop, ev, drag_off)) ["dragleave"; "drop"] ++
  [(drop, "drop", drop_zip); (file, "change", choose_file)].

(** The listeners of the target for the type of the event run in the order
    they were added. *)
Definition dispatch (e : event) (r : response) (s : ui) : ui :=
  fold_left (fun s '(n, t, h) =>
               if node_eqb n (target e) && String.eqb t (type e) then h e r s else s)
            listeners
            {| classList := classList s; prevented := false; doc := doc s |}.

(** A succession of events, each with the answer of the server to the
    upload it may start. *)
Definition run (es : list (event * response)) (s : ui) : ui :=
  fold_left (fun s er => dispatch (fst er) (snd er) s) es s.

End Listeners.

(** The events that switch the highlight of the drop zone on and off. *)
Definition drag_in (e : event) : bool :=
  node_eqb (target e) drop && (String.eqb (type e) "dragenter" || String.eqb (type e) "dragover").

Definition drag_out (e : event) : bool :=
  node_eqb (target e) drop && (String.eqb (type e) "dragleave" || String.eqb (type e) "drop").

(** A name that ends with [.zip]. *)
Definition ends_zip (x : string) : Prop := exists stem, x = stem ++ ".zip".

End Events.

(* ===================================================================== *)
(** * Sample inputs *)
(* ===================================================================== *)

Module Sample.
Import Num Str JS Dom App.

Fixpoint all_chars (f : ascii -> bool) (s : string) : bool :=
  match s with
  | EmptyString => true
  | String c r => f c && all_chars f r
  end.

Definition lower (c : ascii) : bool := ((97 <=? code c) && (code c <=? 122))%N.
Definition upper (c : ascii) : bool := ((65 <=? code c) && (code c <=? 90))%N.
Definition digit (c : ascii) : bool := ((48 <=? code c) && (code c <=? 57))%N.

Definition path_char (c : ascii) : bool :=
  lower c || upper c || digit c || Ascii.eqb c "/" || Ascii.eqb c "_" || Ascii.eqb c "-".

(** Splits at the first slash. *)
Fixpoint split_host (s : string) : string * string :=
  match s with
  | EmptyString => (EmptyString, EmptyString)
  | String c r =>
      if Ascii.eqb c "/" then (EmptyString, s)
      else let '(h, p) := split_host r in (String c h, p)
  end.

(** Lower-case letters separated by single dots. *)
Fixpoint plain_host (after_letter : bool) (s : string) : bool :=
  match s with
  | EmptyString => after_letter
  | String c r =>
      if lower c then plain_host true r
      else Ascii.eqb c "." && after_letter && plain_host false r
  end.

Definition strip_prefix (p s : string) : option string :=
  if prefix p s then Some (substring (String.length p) (String.length s - String.length p) s)
  else None.

(** A URL parser for the examples. It accepts the [http] and [https]
    addresses that are already in the form the browser serialises them in
    (a host of lower-case letters and dots, a path of letters, digits,
    slashes, underscores and hyphens), for which the host name and the path
    name are the two pieces of the text, and it rejects the rest; the
    browser also rejects every text without a scheme. *)
Definition plainURL (s : string) : option URL :=
  match (match strip_prefix "https://" s with
         | Some r => Some r
         | None => strip_prefix "http://" s
         end) with
  | Some rest =>
      let '(h, p) := split_host rest in
      if plain_host false h && all_chars path_char p then
        Some {| hostname := h; pathname := if String.eqb p "" then "/" else p |}
      else None
  | None => None
  end.

(** The heading of the metadata section, a link closed at once and an
    empty element whose id is [netChart]. *)
Definition chart_opening : string :=
  html "
    <h2>Metadata</h2>
    <a class=`btn` href=`/runs/`></a><div id=`netChart`></div>".

(** An HTML parser for the examples. A markup that opens with
    [chart_opening] has the empty element first among those whose id is
    [netChart]; the parser finds it, and it takes every other markup to
    declare no such element, which is the case of the other examples. *)
Definition plainHTML (h : string) : option string :=
  if prefix chart_opening h then Some "" else None.

Definition blank : element := {| display := ""; innerHTML := ""; holder := None |}.

(** The host page before the first upload. *)
Definition start_page : page :=
  {| p_drop := blank; p_file := blank; p_meta := blank; p_archive := blank;
     p_matrix := blank; p_network := blank; alerts := [] |}.

(** A text that closes an attribute and opens a script element. *)
Definition payload : string := html "`><script>alert(1)</script>".

(** Documents that carry [payload] in one field each. *)
Definition doc_run_id : value := Obj [("run_id", Str payload)].

Definition doc_status : value :=
  Obj [("run_id", Str "r1");
       ("results", Arr [Obj [("label", Str "SSL"); ("value", Str "Pass");
                             ("status", Str payload)]])].

Definition doc_label : value :=
  Obj [("run_id", Str "r1");
       ("results", Arr [Obj [("label", Str payload); ("value", Str "Pass");
                             ("status", Str "ok")]])].

Definition doc_thumbnail : value :=
  Obj [("run_id", Str "r1");
       ("thumbnails", Arr [Obj [("t_sec", Number (of_Z 2)); ("png_b64", Str payload)]])].

Definition doc_request_status : value :=
  Obj [("run_id", Str "r1");
       ("runtime", Obj [("network_requests",
                         Arr [Obj [("url", Str "https://cdn.example.com/ad");
                                   ("status", Str payload)]])])].

(** A request whose size is not a number. *)
Definition request_abc : value :=
  Obj [("url", Str "https://cdn.example.com/ad"); ("bytes", Str "abc")].

Definition doc_request_abc : value :=
  Obj [("run_id", Str "r1"); ("runtime", Obj [("network_requests", Arr [request_abc])])].

(** A response whose [error] field is the empty string. *)
Definition body_empty_error : value := Obj [("run_id", Str "r1"); ("error", Str "")].

(** An object with a binding named [toString], which JSON can carry. *)
Definition unprintable : value := Obj [("toString", Str "x")].

(** A document without [runtime] whose archive holds [null]. *)
Definition doc_archive_null : value := Obj [("run_id", Str "r1"); ("archive", Arr [Null])].

(** The archive entry and the check of the examples of the
    specification. *)
Definition entry_index : value :=
  Obj [("name", Str "index.html"); ("is_dir", Bool false);
       ("size", Number (of_Z 2048)); ("compressed", Number (of_Z 512))].

Definition check_ssl : value :=
  Obj [("label", Str "SSL"); ("value", Str "Pass"); ("status", Str "ok")].

Definition doc_tables : value :=
  Obj [("run_id", Str "r1"); ("archive", Arr [entry_index]); ("results", Arr [check_ssl])].

(** Thirteen requests of 1 KB to 13 KB. *)
Definition request_of (kb : Z) : value :=
  Obj [("url", Str "https://cdn.example.com/ad"); ("bytes", Number (of_Z (1024 * kb)))].

Definition thirteen : list value := map request_of [1; 2; 3; 4; 5; 6; 7; 8; 9; 10; 11; 12; 13].

Definition doc_thirteen : value :=
  Obj [("run_id", Str "r1"); ("runtime", Obj [("network_requests", Arr thirteen)])].

(** A [run_id] that closes the link of the metadata section and declares
    an element whose id is [netChart], in a document with one request. *)
Definition chart_id : string := html "`></a><div id=`netChart`></div><a href=`".

Definition doc_chart_id : value :=
  Obj [("run_id", Str chart_id);
       ("runtime", Obj [("network_requests", Arr [request_of 1])])].

End Sample.

(* ===================================================================== *)
(** * Vocabulary of the properties *)
(* ===================================================================== *)

Module Props.
Import Num Str JS Dom App.

(** The five characters [esc] replaces. *)
Definition special (c : ascii) : bool :=
  Ascii.eqb c "&" || Ascii.eqb c "<" || Ascii.eqb c ">" || Ascii.eqb c dquote
  || Ascii.eqb c "'".

(** A text in which the five characters occur only inside the five
    entities: no [<], [>], double quote or apostrophe at all, and every
    ampersand starts an entity. *)
Fixpoint well_escaped (s : string) : bool :=
  match s with
  | EmptyString => true
  | String c r =>
      (if Ascii.eqb c "&" then
         prefix "amp;" r || prefix "lt;" r || prefix "gt;" r || prefix "quot;" r
         || prefix "#39;" r
       else negb (special c))
      && well_escaped r
  end.

(** A mantissa of full length, 53 bits. *)
Definition normal (m : positive) : Prop := digits2_pos m = 53%positive.

(** The index in [u] of the unit [bytes] ends on. *)
Definition unit_index (x : num) : nat := snd (scale (List.length u - 1) x 0).

Definition is_digit (c : ascii) : bool := ((48 <=? code c) && (code c <=? 57))%N.

Fixpoint all_digits (s : string) : bool :=
  match s with
  | EmptyString => true
  | String c r => is_digit c && all_digits r
  end.

(** Digits, a point, one digit. *)
Fixpoint one_decimal (s : string) : bool :=
  match s with
  | EmptyString => false
  | String c r =>
      is_digit c &&
      match r with
      | String "." (String d EmptyString) => is_digit d
      | _ => one_decimal r
      end
  end.

(** The mantissa of 2^52: the powers of 1024 are this mantissa with the
    exponents -42, -32 and -22. *)
Definition two52 : positive := 4503599627370496.

(** The mantissa of 100, whose exponent is -46. *)
Definition hundred : positive := Eval vm_compute in Pos.shiftl 100 46.

(** A number that is neither NaN nor an infinity. *)
Definition finite (x : num) : bool :=
  match x with
  | S754_nan | S754_infinity _ => false
  | _ => true
  end.

(** The unit a positive number ends on, read off its exponent. *)
Definition index_of_exponent (e : Z) : nat :=
  if e <? -42 then 0 else if e <? -32 then 1 else if e <? -22 then 2 else 3.

(** [x / 1024^i] without rounding: the same mantissa, the exponent
    lowered by [10 * i]. *)
Definition shift_exponent (x : num) (i : nat) : num :=
  match x with
  | S754_finite s m e => S754_finite s m (e - 10 * Z.of_nat i)
  | _ => x
  end.

(** [z] is the integer part of the number [x >= 0]. *)
Definition is_floor (x : num) (z : Z) : Prop :=
  match x with
  | S754_zero _ => z = 0
  | S754_finite false m e => let '(a, b) := ratio_of m e in z * b <= a < (z + 1) * b
  | _ => False
  end.

(** The first number from which the size in GB reaches 10^21, and its
    mantissa. *)
Definition gb_limit : num := of_Z (2 ^ 30 * 10 ^ 21).
Definition gb_mantissa : positive := 7629394531250000.

(** What [bytes] prints for a number. *)
Definition bytes_of (x : num) : string :=
  match bytes (Number x) with Ok s => s | Throw _ => "" end.

(** ** Pages *)

(** A section container as [upload] leaves it before the request. *)
Definition hidden : element := {| display := "none"; innerHTML := ""; holder := None |}.

(** A section container showing the markup [h], read by the parser
    [parseHTML]. *)
Definition shown (parseHTML : string -> option string) (h : string) : element :=
  {| display := "block"; innerHTML := h; holder := holder_in parseHTML h |}.

(** The page once the four section containers are cleared and hidden. *)
Definition clear_sections (p : page) : page :=
  {| p_drop := p_drop p; p_file := p_file p;
     p_meta := hidden; p_archive := hidden; p_matrix := hidden; p_network := hidden;
     alerts := alerts p |}.

(** The page after one more notification. *)
Definition notify (msg : string) (p : page) : page :=
  {| p_drop := p_drop p; p_file := p_file p;
     p_meta := p_meta p; p_archive := p_archive p; p_matrix := p_matrix p;
     p_network := p_network p; alerts := alerts p ++ [msg] |}.

(** The page with the container [n] showing [h]. *)
Definition show (parseHTML : string -> option string) (n : node) (h : string) (p : page)
  : page :=
  update n (fun _ => shown parseHTML h) p.

(** A computation that does not throw. *)
Definition returns {A} (c : completion A) : Prop := exists a, c = Ok a.

(** ** Documents *)

(** A value whose conversion to a string does not throw: every scalar,
    and every array or object without a binding named [toString] inside. *)
Definition printable (v : value) : bool :=
  match ToString v with Ok _ => true | Throw _ => false end.

(** [data.k], [undefined] when it cannot be read. *)
Definition field (data : value) (k : string) : value :=
  match get data k with Ok v => v | Throw _ => Undefined end.

(** The entry [e] can be read and its field [k] is printable. *)
Definition field_ok (e : value) (k : string) : bool :=
  negb (nullish e) && printable (field e k).

(** An optional list of entries: absent (or an empty value), or an array
    whose entries have printable fields [keys]. *)
Definition entries_ok (keys : list string) (v : value) : bool :=
  match v with
  | Arr l => forallb (fun e => negb (nullish e) && forallb (field_ok e) keys) l
  | _ => negb (truthy v)
  end.

Definition metadata_keys : list string :=
  ["scan_type"; "api_version"; "unix_timestamp"; "scan_duration"; "creative_type";
   "original_name"; "device"; "language"; "user_agent"].

(** The shape of an analysis document as far as the metadata, archive and
    checks sections read it: an object whose [run_id] and metadata fields
    are printable and whose [archive], [thumbnails] and [results] are
    optional lists of entries with printable fields. *)
Definition document_ok (data : value) : bool :=
  match data with
  | Obj _ =>
      printable (field data "run_id")
      && forallb (fun k => printable
                             (get_fresh (Object_assign (or (field data "metadata") (Obj []))) k))
                 metadata_keys
      && entries_ok ["name"; "size"; "compressed"] (field data "archive")
      && entries_ok ["t_sec"; "png_b64"] (field data "thumbnails")
      && entries_ok ["category"; "label"; "status"; "value"; "help"] (field data "results")
  | _ => false
  end.

(** The document has no network request: its [runtime] is absent or is
    not an object, so that it has no [network_requests], or it is an object
    whose [network_requests] is absent, [null] or an empty list. *)
Definition no_requests (data : value) : bool :=
  match data with
  | Obj o =>
      match lookup "runtime" o with
      | Some (Obj r) =>
          match lookup "network_requests" r with
          | None | Some Null | Some (Arr []) => true
          | _ => false
          end
      | _ => true
      end
  | _ => false
  end.

(** The magnitude the chart gives to the [bytes] field of a request,
    [Number(n.bytes||0)]. *)
Definition magnitude (b : value) : num :=
  match ToNumber (or b (Number zero)) with Ok x => x | Throw _ => NaN end.

(** The row [drawBars] writes for a bar. *)
Definition bar_text (max : num) (d : bar) : string :=
  match bar_row max d with Ok s => s | Throw _ => "" end.

(** A network request the table and the chart can read: its [url] is a
    string or is absent, its other fields are printable. *)
Definition request_ok (n : value) : bool :=
  negb (nullish n)
  && match field n "url" with Str _ | Undefined | Null => true | _ => false end
  && forallb (field_ok n) ["status"; "protocol"; "enc"; "bytes"; "type"].

(** The document has the non-empty list [l] of network requests (an
    array has fewer than 2^32 entries). *)
Definition has_requests (data : value) (l : list value) : Prop :=
  exists r, get data "runtime" = Ok (Obj r) /\
            lookup "network_requests" r = Some (Arr l) /\
            l <> [] /\ Z.of_nat (List.length l) < 2 ^ 32.

End Props.

(* ===================================================================== *)
(** * Vocabulary of the further properties *)
(* ===================================================================== *)

Module Terms.
Import Num Str JS Dom App Props.

(** A text without any of the five special characters. *)
Fixpoint plain (s : string) : bool :=
  match s with
  | EmptyString => true
  | String c r => negb (special c) && plain r
  end.

(** A shifted mantissa that lost no bit: neither the round bit nor the
    sticky bit is set. *)
Definition lossless (r : shr_record) : Prop := shr_r r = false /\ shr_s r = false.

(** The metadata the section shows when the document has none. *)
Definition default_metadata (name : string) : value :=
  Obj [("scan_type", Str "Web scan"); ("api_version", Str "v1");
       ("creative_type", Str "HTML5 Zip"); ("original_name", Str name);
       ("device", Str "Desktop"); ("language", Str "en-US")].

(** ** The tables, as the page shows them *)

(** What [esc], [bytes] and the conversion to a string print for a value;
    nothing when they throw. *)
Definition escaped (v : value) : string :=
  match esc v with Ok s => s | Throw _ => "" end.

Definition size_text (v : value) : string :=
  match bytes v with Ok s => s | Throw _ => "" end.

Definition text_of (v : value) : string :=
  match ToString v with Ok s => s | Throw _ => "" end.

(** The row of the archive table for an entry: the glyph of a folder or of
    a file, the escaped name and the two sizes. *)
Definition archive_row_text (e : value) : string :=
  html "
    <tr><td>" ++ (if truthy (field e "is_dir") then "📁" else "📄") ++
  html "</td>
        <td>" ++ escaped (field e "name") ++
  html "</td>
        <td class=`ta-r`>" ++ size_text (field e "size") ++
  html "</td>
        <td class=`ta-r`>" ++ size_text (field e "compressed") ++
  html "</td></tr>".

(** The archive section for the entries [l]. *)
Definition archive_text (l : list value) : string :=
  html "
    <h2>ZIP Archive</h2>
    <table class=`table`><thead>
      <tr><th></th><th>Filename</th><th class=`ta-r`>File Size</th><th class=`ta-r`>Compressed</th></tr>
    </thead><tbody>" ++ join (map archive_row_text l) ++ html "</tbody></table>".

(** The row of the checks table for a result: the escaped category, a
    dash when there is none, the escaped label, the escaped value in a
    badge whose class is the status as it is, and the escaped help when
    there is one. *)
Definition check_row_text (r : value) : string :=
  html "
    <tr>
      <td>" ++ escaped (or (field r "category") (Str "-")) ++
  html "</td>
      <td>" ++ escaped (field r "label") ++
  html "</td>
      <td class=`ta-r`><span class=`badge " ++ text_of (field r "status") ++
  html "`>" ++ escaped (field r "value") ++
  html "</span>
        " ++ (if truthy (field r "help")
              then html "<div class=`help`>" ++ escaped (field r "help") ++ html "</div>"
              else "") ++
  html "</td>
    </tr>".

(** The checks section for the results [l], below the row of thumbnails
    [thumbRow]. *)
Definition checks_text (thumbRow : string) (l : list value) : string :=
  html "<h2>Checks</h2>" ++ thumbRow ++ html "
    <table class=`table`><thead><tr><th>Category</th><th>Test</th><th class=`ta-r`>Result</th></tr></thead>
    <tbody>" ++ join (map check_row_text l) ++ html "</tbody></table>".

(** The entries of an optional list: none when the field is absent or
    falsy. *)
Definition entries_of (v : value) : list value :=
  match v with Arr l => l | _ => [] end.

(** The opening of the metadata section, up to the address of the preview
    link. *)
Definition meta_opening : string :=
  html "
    <h2>Metadata</h2>
    <a class=`btn` href=`/runs/".

(** The opening of a row of the network table: its first cell, which
    holds the URL. *)
Definition net_row_opening (url : string) : string :=
  html "
      <tr>
        <td>" ++ url ++ html "</td>".

(** The network section around the rows [nrows]. *)
Definition network_text (nrows : list string) : string :=
  html "<h2>Network Requests</h2>
      <div id=`netChart` style=`height:260px;margin:8px 0 12px 0`></div>
      <table class=`table`><thead>
        <tr><th>Resource URL</th><th>Status</th><th>Protocol</th><th>Enc</th><th class=`ta-r`>Bytes</th><th>Type</th></tr>
      </thead><tbody>" ++ join nrows ++ html "</tbody></table>".

(** The pages [renderAll] can leave when it starts from [p]: the sections
    are written in the order meta, archive, matrix, network, each one
    whole, and a throw stops between two of them. *)
Inductive stage (parseHTML : string -> option string) (p : page)
  : completion unit -> page -> Prop :=
  | stopped_at_meta e : stage parseHTML p (Throw e) p
  | stopped_at_archive e hm : stage parseHTML p (Throw e) (show parseHTML meta hm p)
  | stopped_at_matrix e hm ha :
      stage parseHTML p (Throw e)
        (show parseHTML archive ha (show parseHTML meta hm p))
  | stopped_at_network e hm ha hx :
      stage parseHTML p (Throw e)
        (show parseHTML matrix hx (show parseHTML archive ha (show parseHTML meta hm p)))
  | done_without_network hm ha hx :
      stage parseHTML p (Ok tt)
        (show parseHTML matrix hx (show parseHTML archive ha (show parseHTML meta hm p)))
  | done_with_network hm ha hx hn c :
      prefix network_head hn = true ->
      stage parseHTML p (Ok tt)
        (set_chart (Some c)
           (show parseHTML network hn
              (show parseHTML matrix hx
                 (show parseHTML archive ha (show parseHTML meta hm p))))).

End Terms.

(* ===================================================================== *)
(** * Facts on numbers *)
(* ===================================================================== *)

Module NumFacts.
Import Num Str JS App Props.

Lemma digits2_pos_bounds (m : positive) :
  2 ^ (Zpos (digits2_pos m) - 1) <= Zpos m < 2 ^ Zpos (digits2_pos m).
Proof.
  induction m as [m IH|m IH|]; cbn [digits2_pos].
  - rewrite Pos2Z.inj_succ. replace (Z.succ (Zpos (digits2_pos m)) - 1) with (Z.succ (Zpos (digits2_pos m) - 1)) by lia.
    rewrite !Z.pow_succ_r by lia. lia.
  - rewrite Pos2Z.inj_succ. replace (Z.succ (Zpos (digits2_pos m)) - 1) with (Z.succ (Zpos (digits2_pos m) - 1)) by lia.
    rewrite !Z.pow_succ_r by lia. lia.
  - cbn. lia.
Qed.

Lemma normal_bounds m : normal m -> 2 ^ 52 <= Zpos m < 2 ^ 53.
Proof. intros H. pose proof (digits2_pos_bounds m) as B. unfold normal in H. rewrite H in B. exact B. Qed.

Lemma valid_finite s m e :
  valid (S754_finite s m e) ->
  -1074 <= e <= 971 /\ Zpos (digits2_pos m) <= 53 /\ (-1074 < e -> normal m).
Proof.
  unfold valid, valid_binary, bounded, canonical_mantissa, fexp, emin, prec, emax, normal.
  intros H. apply andb_true_iff in H as [H1 H2].
  apply Z.eqb_eq in H1. apply Z.leb_le in H2.
  repeat split; lia.
Qed.

(** Comparison of a normal positive number with a power of two. *)
Lemma ge_two52 m e t :
  normal m -> ge (S754_finite false m e) (S754_finite false two52 t) = (t <=? e).
Proof.
  intros Hm. apply normal_bounds in Hm.
  unfold ge, SFleb, SFcompare.
  destruct (Z.compare_spec t e) as [E|E|E].
  - subst. change (Pos.compare_cont Eq two52 m) with (Z.compare (Zpos two52) (Zpos m)).
    change (Zpos two52) with (2 ^ 52).
    destruct (Z.compare_spec (2 ^ 52) (Zpos m)) as [E'|E'|E'];
      try (symmetry; apply Z.leb_le; lia). lia.
  - symmetry; apply Z.leb_le; lia.
  - symmetry; apply Z.leb_gt; lia.
Qed.

Lemma ge_1024_small s m e :
  e < -42 -> ge (S754_finite s m e) (of_Z 1024) = false.
Proof.
  intros He. change (of_Z 1024) with (S754_finite false two52 (-42)).
  unfold ge, SFleb, SFcompare. destruct s; [reflexivity|].
  destruct (Z.compare_spec (-42) e); try lia; reflexivity.
Qed.

Lemma div_1024_exact (m : positive) (e : Z) :
  normal m -> -42 <= e <= 971 ->
  div (S754_finite false m e) (of_Z 1024) = S754_finite false m (e - 10).
Proof.
  intros Hm He. unfold normal in Hm.
  change (of_Z 1024) with (S754_finite false two52 (-42)).
  unfold div, SFdiv, SFdiv_core_binary.
  cbn [Zdigits2]. rewrite Hm.
  change (Zpos (digits2_pos two52)) with 53.
  unfold fexp, emin, prec, emax.
  replace (Z.min _ _) with (e - 11) by lia.
  replace (e - -42 - (e - 11)) with 53 by lia.
  assert (Hd : IntDef.Z.div_eucl (IntDef.Z.shiftl (Z.pos m) 53) (Z.pos two52) = (Z.pos m~0, 0)).
  { change (IntDef.Z.shiftl (Z.pos m) 53) with (Z.shiftl (Z.pos m) 53).
    rewrite Z.shiftl_mul_pow2 by lia.
    change IntDef.Z.div_eucl with Z.div_eucl.
    pose proof (Z.div_eucl_eq (Z.pos m * 2 ^ 53) (Z.pos two52) ltac:(lia)) as E.
    pose proof (Z.mod_pos_bound (Z.pos m * 2 ^ 53) (Z.pos two52) ltac:(lia)) as B.
    unfold Z.modulo, Z.div in *.
    destruct (Z.div_eucl (Z.pos m * 2 ^ 53) (Z.pos two52)) as [q r].
    cbn [fst snd] in *.
    change (2 ^ 53) with (2 * 2 ^ 52) in E.
    change (Z.pos two52) with (2 ^ 52) in *.
    assert (r = 0) by lia.
    assert (q = 2 * Z.pos m) by lia.
    subst. reflexivity. }
  rewrite Hd.
  change (new_location (Z.pos two52) 0) with loc_Exact.
  cbn [xorb].
  unfold binary_round_aux, shr_fexp.
  cbn [Zdigits2 digits2_pos shr_record_of_loc]. rewrite Hm.
  unfold fexp, emin.
  change (Z.pos (PosDef.Pos.succ 53)) with 54.
  replace (Z.max (54 + (e - 11) - 53) (3 - 1024 - 53) - (e - 11)) with 1 by lia.
  cbn [shr iter_pos shr_1 shr_m loc_of_shr_record round_nearest_even shr_record_of_loc Zdigits2 orb].
  rewrite Hm.
  replace (Z.max (53 + (e - 11 + 1) - 53) (3 - 1024 - 53) - (e - 11 + 1)) with 0 by lia.
  cbn [shr shr_m].
  replace (e - 11 + 1) with (e - 10) by lia.
  destruct (Z.leb_spec (e - 10) (1024 - 53)); [reflexivity | lia].
Qed.


Lemma scale_step m e r i :
  normal m -> -42 <= e <= 971 ->
  scale (S r) (S754_finite false m e) i = scale r (S754_finite false m (e - 10)) (S i).
Proof.
  intros Hm He. cbn [scale].
  change (of_Z 1024) with (S754_finite false two52 (-42)) at 1.
  rewrite ge_two52 by assumption.
  destruct (Z.leb_spec (-42) e); [|lia].
  now rewrite div_1024_exact.
Qed.

Lemma scale_stop s m e r i :
  e < -42 -> scale r (S754_finite s m e) i = (S754_finite s m e, i).
Proof.
  intros He. destruct r; [reflexivity|]. cbn [scale].
  now rewrite ge_1024_small.
Qed.

Lemma scale_finite m e :
  valid (S754_finite false m e) ->
  scale 3 (S754_finite false m e) 0 =
    (S754_finite false m (e - 10 * Z.of_nat (index_of_exponent e)), index_of_exponent e).
Proof.
  intros Hv. apply valid_finite in Hv as (He & _ & Hn).
  unfold index_of_exponent.
  destruct (Z.ltb_spec e (-42)).
  { rewrite scale_stop by assumption. f_equal. f_equal. lia. }
  assert (Hm : normal m) by (apply Hn; lia).
  rewrite scale_step by (assumption || lia).
  destruct (Z.ltb_spec e (-32)).
  { rewrite scale_stop by lia. reflexivity. }
  rewrite scale_step by (assumption || lia).
  destruct (Z.ltb_spec e (-22)).
  { rewrite scale_stop by lia. f_equal. f_equal. lia. }
  rewrite scale_step by (assumption || lia).
  cbn [scale]. f_equal. f_equal. lia.
Qed.

Lemma all_digits_uint (d : Decimal.uint) :
  all_digits (NilEmpty.string_of_uint d) = true.
Proof. induction d; cbn; auto. Qed.

Lemma dec_digits (n : Z) :
  0 <= n -> all_digits (dec n) = true /\ dec n <> "".
Proof.
  intros Hn. unfold dec.
  destruct n as [|p|p]; [split; [reflexivity | discriminate] | | lia].
  cbn [Z.to_int NilZero.string_of_int]. unfold NilZero.string_of_uint.
  destruct (Pos.to_uint p) eqn:E; cbn; rewrite ?all_digits_uint;
    (split; [reflexivity | discriminate]).
Qed.

(** Cutting a text before its last character. *)
Lemma split_last (s : string) (c : ascii) :
  exists a d, substring 0 (String.length s) (String c s) = a /\
              substring (String.length s) 1 (String c s) = String d "" /\
              String c s = a ++ String d "".
Proof.
  revert c. induction s as [|c' s IH]; intro c.
  - exists "", c. repeat split.
  - destruct (IH c') as (a & d & H1 & H2 & H3).
    exists (String c a), d. cbn [String.length].
    change (substring 0 (S (String.length s)) (String c (String c' s)))
      with (String c (substring 0 (String.length s) (String c' s))).
    change (substring (S (String.length s)) 1 (String c (String c' s)))
      with (substring (String.length s) 1 (String c' s)).
    rewrite H1. repeat split.
    + exact H2.
    + cbn [append]. now rewrite <- H3.
Qed.

Lemma one_decimal_app (a : string) (d : ascii) :
  a <> "" -> all_digits a = true -> is_digit d = true ->
  one_decimal (a ++ String "." (String d "")) = true.
Proof.
  induction a as [|c r IH]; [congruence|].
  intros _ Ha Hd. cbn in Ha. apply andb_true_iff in Ha as [Hc Hr].
  cbn [append one_decimal]. rewrite Hc. cbn [andb].
  destruct r as [|c2 r2].
  - cbn. exact Hd.
  - assert (IH' := IH ltac:(discriminate) Hr Hd).
    cbn [append] in *. 
    destruct (Ascii.eqb_spec c2 "."%char) as [->|Hne]; [discriminate Hr|].
    destruct c2 as [[] [] [] [] [] [] [] []]; try exact IH'; try (exfalso; apply Hne; reflexivity).
    all: destruct (r2 ++ String "." (String d "")); try exact IH'.
Qed.

Lemma ratio_of_pos m e : 0 < fst (ratio_of m e) /\ 0 < snd (ratio_of m e).
Proof.
  unfold ratio_of. destruct e; cbn [fst snd]; split; try lia;
    try (apply Z.pow_pos_nonneg; lia);
    try (apply Z.mul_pos_pos; [lia | apply Z.pow_pos_nonneg; lia]).
Qed.

Lemma scaled_round_nonneg fd x : 0 <= fd -> 0 <= scaled_round fd x.
Proof.
  intros Hfd. destruct x; unfold scaled_round; try lia.
  pose proof (ratio_of_pos m e) as [Ha Hb].
  destruct (ratio_of m e) as [a b]. cbn [fst snd] in *.
  apply Z.div_pos; [|lia].
  assert (0 < 10 ^ fd) by (apply Z.pow_pos_nonneg; lia). nia.
Qed.

Lemma all_digits_app a b :
  all_digits (a ++ b) = all_digits a && all_digits b.
Proof.
  induction a as [|c a IH]; [reflexivity|]. cbn. now rewrite IH, andb_assoc.
Qed.

(** A text of at least two digits, cut before the last one, reads as a
    decimal with one place. *)
Lemma point_before_last (ds : string) :
  all_digits ds = true -> (2 <= String.length ds)%nat ->
  let k := Z.of_nat (String.length ds) in
  one_decimal (substring 0 (Z.to_nat (k - 1)) ds ++ "." ++
               substring (Z.to_nat (k - 1)) (Z.to_nat 1) ds) = true.
Proof.
  intros Hd Hl k. subst k.
  destruct ds as [|c s]; [cbn in Hl; lia|].
  cbn [String.length] in *.
  replace (Z.to_nat (Z.of_nat (S (String.length s)) - 1)) with (String.length s) by lia.
  change (Z.to_nat 1) with 1%nat.
  destruct (split_last s c) as (a & d & H1 & H2 & H3).
  rewrite H1, H2. rewrite H3, all_digits_app in Hd.
  apply andb_true_iff in Hd as [Ha Hd']. cbn in Hd'. rewrite andb_true_r in Hd'.
  apply one_decimal_app; auto.
  intros ->. cbn in H3. injection H3 as _ E. subst s. cbn in Hl. lia.
Qed.

Lemma toFixed1_one_decimal (y : num) :
  is_nan y = false -> ge_1e21 y = false -> is_neg y = false ->
  one_decimal (toFixed 1 y) = true.
Proof.
  intros H1 H2 H3. unfold toFixed. rewrite H1, H2, H3.
  change (1 =? 0) with false. cbn iota.
  pose proof (scaled_round_nonneg 1 y ltac:(lia)) as Hn.
  destruct (dec_digits _ Hn) as [Hd He].
  set (ds := dec (scaled_round 1 y)) in *.
  assert (Hl : (1 <= String.length ds)%nat) by (destruct ds; [congruence | cbn; lia]).
  destruct (Z.leb_spec (Z.of_nat (String.length ds)) 1) as [Hk|Hk].
  - assert (E : String.length ds = 1%nat) by lia.
    rewrite E. change (zeros (Z.to_nat (1 + 1 - Z.of_nat 1))) with "0".
    change ("" ++ ?x) with x.
    apply (point_before_last ("0" ++ ds)).
    + cbn. exact Hd.
    + cbn. lia.
  - change ("" ++ ?x) with x. apply point_before_last; [exact Hd | lia].
Qed.

Lemma ge_two52_small s m e t :
  e < t -> ge (S754_finite s m e) (S754_finite false two52 t) = false.
Proof.
  intros He. unfold ge, SFleb, SFcompare. destruct s; [reflexivity|].
  destruct (Z.compare_spec t e); try lia; reflexivity.
Qed.

Lemma pow1024 (j : nat) :
  (1 <= j <= 3)%nat ->
  of_Z (1024 ^ Z.of_nat j) = S754_finite false two52 (-52 + 10 * Z.of_nat j).
Proof.
  intros Hj. destruct j as [|[|[|[|j]]]]; try lia; reflexivity.
Qed.

Lemma mantissa_bound s m e : valid (S754_finite s m e) -> Zpos m < 2 ^ 53.
Proof.
  intros Hv. apply valid_finite in Hv as (_ & Hd & _).
  pose proof (digits2_pos_bounds m) as [_ B].
  eapply Z.lt_le_trans; [exact B|]. apply Z.pow_le_mono_r; lia.
Qed.

(** Below 1024 the integer part fits an int32 and [n|0] is the floor. *)
Lemma trunc_small m e :
  valid (S754_finite false m e) -> e < -42 ->
  let z := trunc (S754_finite false m e) in
  ToInt32 (S754_finite false m e) = z /\ 0 <= z < 1024 /\
  z * 2 ^ (- e) <= Zpos m < (z + 1) * 2 ^ (- e).
Proof.
  intros Hv He z. pose proof (mantissa_bound _ _ _ Hv) as Hm.
  destruct e as [|e|k]; try lia.
  subst z. unfold ToInt32. cbn [trunc]. rewrite Z.shiftr_div_pow2 by lia.
  change (- Z.neg k) with (Z.pos k).
  assert (Hp : 2 ^ 43 <= 2 ^ Z.pos k) by (apply Z.pow_le_mono_r; lia).
  assert (Hp0 : 0 < 2 ^ Z.pos k) by lia.
  set (P := 2 ^ Z.pos k) in *.
  assert (Hq : 0 <= Z.pos m / P < 1024).
  { split; [apply Z.div_pos; lia|]. apply Z.div_lt_upper_bound; lia. }
  pose proof (Z.div_mod (Z.pos m) P ltac:(lia)) as Hdm.
  pose proof (Z.mod_pos_bound (Z.pos m) P Hp0) as Hmb.
  rewrite Z.mod_small by lia.
  destruct (Z.leb_spec (2 ^ 31) (Z.pos m / P)); [lia|].
  repeat split; try lia; nia.
Qed.

Lemma limit_eq : gb_limit = S754_finite false gb_mantissa 47.
Proof. reflexivity. Qed.

Lemma ge_1e21_small_mantissa s m e :
  Zpos m < 2 ^ 53 -> e < 0 -> ge_1e21 (S754_finite s m e) = false.
Proof.
  intros Hm He.
  destruct e as [|e|k]; try lia. cbn [ge_1e21 ratio_of].
  apply Z.leb_gt. assert (0 < 2 ^ Z.pos k) by (apply Z.pow_pos_nonneg; lia).
  change (2 ^ 53) with 9007199254740992 in Hm.
  change (10 ^ 21) with 1000000000000000000000. nia.
Qed.

Lemma lt_finite m e m' e' :
  lt (S754_finite false m e) (S754_finite false m' e') = true ->
  e < e' \/ e = e' /\ Zpos m < Zpos m'.
Proof.
  unfold lt, SFltb, SFcompare.
  destruct (Z.compare_spec e e') as [E|E|E]; [|left; exact E|intros [=]].
  change (Pos.compare_cont Eq m m') with (Pos.compare m m').
  destruct (Pos.compare_spec m m') as [H|H|H]; intros [=].
  right. split; [exact E | exact H].
Qed.

Lemma gb_below_1e21 m e :
  valid (S754_finite false m e) ->
  lt (S754_finite false m e) gb_limit = true ->
  ge_1e21 (S754_finite false m (e - 30)) = false.
Proof.
  intros Hv Hlt. pose proof (mantissa_bound _ _ _ Hv) as Hm.
  rewrite limit_eq in Hlt.
  destruct (Z.ltb_spec (e - 30) 0) as [Hneg|Hpos].
  { now apply ge_1e21_small_mantissa. }
  apply lt_finite in Hlt as Hcase.
  clear Hlt. unfold ge_1e21, ratio_of.
  destruct (e - 30) as [|p|p] eqn:Ee; try lia.
  apply Z.leb_gt.
  change (10 ^ 21 * 1) with (Zpos gb_mantissa * 2 ^ 17).
  destruct Hcase as [E|[E Hml]].
  - assert (Hp : 2 ^ Z.pos p <= 2 ^ 16) by (apply Z.pow_le_mono_r; lia).
      assert (0 < 2 ^ Z.pos p) by (apply Z.pow_pos_nonneg; lia).
      change (Z.pos gb_mantissa * 2 ^ 17) with 1000000000000000000000.
      change (2 ^ 53) with 9007199254740992 in Hm.
      change (2 ^ 16) with 65536 in Hp. nia.
  - replace (Z.pos p) with 17 by lia.
    apply Z.mul_lt_mono_pos_r; [reflexivity | exact Hml].
Qed.

(** The unit of every well-formed number. *)
Lemma unit_index_valid (x : num) :
  valid x ->
  unit_index x = match x with
                 | S754_infinity false => 3%nat
                 | S754_finite false m e => index_of_exponent e
                 | _ => 0%nat
                 end /\
  fst (scale 3 x 0) = match x with
                      | S754_finite false m e =>
                          S754_finite false m (e - 10 * Z.of_nat (index_of_exponent e))
                      | _ => x
                      end.
Proof.
  intros Hv. unfold unit_index. change (List.length u - 1)%nat with 3%nat.
  destruct x as [s|[]|  |[] m e]; try (split; reflexivity).
  rewrite (scale_finite m e Hv). split; reflexivity.
Qed.

Lemma index_of_exponent_mono e e' :
  e <= e' -> (index_of_exponent e <= index_of_exponent e')%nat.
Proof.
  unfold index_of_exponent. intros H.
  repeat match goal with |- context [?a <? ?b] => destruct (Z.ltb_spec a b) end; lia.
Qed.

Lemma index_of_exponent_le3 e : (index_of_exponent e <= 3)%nat.
Proof.
  unfold index_of_exponent.
  repeat match goal with |- context [?a <? ?b] => destruct (Z.ltb_spec a b) end; lia.
Qed.

Lemma unit_index_mono (x y : num) :
  valid x -> valid y -> ge y x = true -> (unit_index x <= unit_index y)%nat.
Proof.
  intros Hx Hy Hle.
  destruct (unit_index_valid x Hx) as [-> _].
  destruct (unit_index_valid y Hy) as [-> _].
  unfold ge, SFleb, SFcompare in Hle.
  destruct x as [sx|[]| |[] mx ex]; try lia;
    destruct y as [sy|[]| |[] my ey]; try lia; try discriminate;
    try apply index_of_exponent_le3.
  apply index_of_exponent_mono.
  destruct (Z.compare_spec ex ey); try lia; discriminate.
Qed.

(** The unit index counts the powers of 1024 the number reaches. *)
Lemma unit_index_thresholds (x : num) (j : nat) :
  valid x -> ge x zero = true -> (1 <= j <= 3)%nat ->
  (ge x (of_Z (1024 ^ Z.of_nat j)) = true <-> (j <= unit_index x)%nat).
Proof.
  intros Hv H0 Hj. rewrite (pow1024 j Hj).
  destruct (unit_index_valid x Hv) as [-> _].
  destruct x as [s|[]| |[] m e]; try discriminate.
  - cbn. split; [discriminate | lia].
  - cbn. split; [lia | reflexivity].
  - destruct (valid_finite _ _ _ Hv) as (He & _ & Hn).
    destruct (Z.ltb_spec e (-42 + 10 * (Z.of_nat j - 1))) as [Hs|Hb].
    + rewrite ge_two52_small by lia. unfold index_of_exponent.
      split; [discriminate|].
      repeat match goal with |- context [?a <? ?b] => destruct (Z.ltb_spec a b) end; lia.
    + rewrite ge_two52 by (apply Hn; lia).
      unfold index_of_exponent.
      split; intros _; [|apply Z.leb_le; lia].
      repeat match goal with |- context [?a <? ?b] => destruct (Z.ltb_spec a b) end; lia.
Qed.

End NumFacts.

(* ===================================================================== *)
(** * The formatter: [esc] *)
(* ===================================================================== *)

Module EscFacts.
Import Num Str JS Dom App Props.

Lemma entity_special (c : ascii) :
  special c = true ->
  entity c = "&amp;" \/ entity c = "&lt;" \/ entity c = "&gt;" \/
  entity c = "&quot;" \/ entity c = "&#39;".
Proof.
  unfold special, entity.
  destruct (Ascii.eqb c "&"); [auto|].
  destruct (Ascii.eqb c "<"); [auto|].
  destruct (Ascii.eqb c ">"); [auto|].
  destruct (Ascii.eqb c dquote); [auto 6|].
  destruct (Ascii.eqb c "'"); [auto 6|].
  discriminate.
Qed.

Lemma entity_plain (c : ascii) :
  special c = false -> entity c = String c EmptyString.
Proof.
  unfold special, entity.
  destruct (Ascii.eqb c "&"); [discriminate|].
  destruct (Ascii.eqb c "<"); [discriminate|].
  destruct (Ascii.eqb c ">"); [discriminate|].
  destruct (Ascii.eqb c dquote); [discriminate|].
  destruct (Ascii.eqb c "'"); [discriminate|].
  reflexivity.
Qed.

Lemma special_not_amp (c : ascii) : special c = false -> Ascii.eqb c "&" = false.
Proof.
  unfold special. destruct (Ascii.eqb c "&"); [discriminate | reflexivity].
Qed.

(** An entity in front of a well escaped text leaves it well escaped. *)
Lemma well_escaped_entity (c : ascii) (t : string) :
  well_escaped t = true -> well_escaped (entity c ++ t) = true.
Proof.
  intros Ht. destruct (special c) eqn:Hc.
  - destruct (entity_special c Hc) as [E|[E|[E|[E|E]]]]; rewrite E;
      cbn; rewrite ?Ht; destruct t; reflexivity.
  - rewrite (entity_plain c Hc). cbn.
    rewrite (special_not_amp c Hc), Hc, Ht. reflexivity.
Qed.

Lemma replace_special_well_escaped (s : string) :
  well_escaped (replace_special s) = true.
Proof.
  induction s as [|c r IH]; [reflexivity|].
  cbn [replace_special]. now apply well_escaped_entity.
Qed.

Lemma esc_string (s : string) : esc (Str s) = Ok (replace_special s).
Proof. reflexivity. Qed.

(** The conversion of an array joins the conversions of its elements. *)
Lemma ToString_cons (e : value) (r : list value) :
  ToString (Arr (e :: r))
  = (s <- (if nullish e then Ok "" else ToString e) ;;
     match r with
     | [] => Ok s
     | _ => t <- ToString (Arr r) ;; Ok (s ++ "," ++ t)
     end).
Proof. reflexivity. Qed.

Lemma ToString_Arr_returns (l : list value) :
  Forall (fun e => nullish e = true \/ returns (ToString e)) l -> returns (ToString (Arr l)).
Proof.
  induction 1 as [|e r He _ IH]; [eexists; reflexivity|].
  rewrite ToString_cons.
  assert (H1 : returns (if nullish e then Ok "" else ToString e)).
  { destruct (nullish e); [eexists; reflexivity|].
    destruct He as [He|He]; [discriminate He | exact He]. }
  destruct H1 as [s ->]. cbn [cbind].
  destruct r; [eexists; reflexivity|].
  destruct IH as [t ->]. eexists; reflexivity.
Qed.

Lemma ToString_Arr_throws (l : list value) (e : value) (err : error) :
  In e l -> nullish e = false -> ToString e = Throw err ->
  exists err', ToString (Arr l) = Throw err'.
Proof.
  intros Hin Hn He. induction l as [|a r IH]; [contradiction|].
  rewrite ToString_cons. destruct Hin as [->|Hin].
  - rewrite Hn, He. eexists; reflexivity.
  - destruct (if nullish a then Ok "" else ToString a) as [s|err']; [|eexists; reflexivity].
    cbn [cbind]. destruct r as [|b r]; [contradiction|].
    destruct (IH Hin) as [err' ->]. eexists; reflexivity.
Qed.

End EscFacts.

(** C3, as amended. [esc] gives the empty string for [null] and
    [undefined]; for any other value it converts the value to a string and,
    when the conversion returns, replaces each of the five characters
    ampersand, less-than, greater-than, double quote and apostrophe by its
    entity, every other character staying as it is; in what it returns the
    five characters occur only inside the entities. When the conversion
    throws, [esc] throws the same error: it returns on every scalar, on
    every object without a binding named [toString] and on every array
    whose elements are [null] or can be converted, and it throws on an
    object with such a binding and on an array with an element that cannot
    be converted. *)
Theorem esc_spec (v : value) :
  App.esc v = (if JS.nullish v then Ok ""
               else t <- JS.ToString v ;; Ok (App.replace_special t)) /\
  (forall c r, App.replace_special (String c r)
               = App.entity c ++ App.replace_special r) /\
  App.replace_special "" = "" /\
  App.entity "&" = "&amp;" /\ App.entity "<" = "&lt;" /\ App.entity ">" = "&gt;" /\
  App.entity Str.dquote = "&quot;" /\ App.entity "'" = "&#39;" /\
  (forall c, if Props.special c then True else App.entity c = String c "") /\
  match App.esc v with
  | Ok out => Props.well_escaped out = true
  | Throw e => JS.nullish v = false /\ JS.ToString v = Throw e
  end /\
  match v with
  | Arr l =>
      (Forall (fun e => JS.nullish e = true \/ Props.returns (JS.ToString e)) l ->
       Props.returns (App.esc v)) /\
      (forall e err, In e l -> JS.nullish e = false -> JS.ToString e = Throw err ->
                     exists err', App.esc v = Throw err')
  | Obj o => if JS.has_key "toString" o then App.esc v = Throw TypeError
             else App.esc v = Ok "[object Object]"
  | _ => Props.returns (App.esc v)
  end.
Proof.
  split; [|repeat split].
  - destruct v; reflexivity.
  - intro c. destruct (Props.special c) eqn:E; [exact I|].
    now apply EscFacts.entity_plain.
  - unfold App.esc.
    destruct v; cbn -[JS.ToString];
      try (apply EscFacts.replace_special_well_escaped).
    + destruct (JS.ToString (Arr l)) as [t|e] eqn:E; cbn.
      * apply EscFacts.replace_special_well_escaped.
      * auto.
    + destruct (JS.ToString (Obj o)) as [t|e] eqn:E; cbn.
      * apply EscFacts.replace_special_well_escaped.
      * auto.
  - destruct v as [| | | | |l|o]; try (eexists; reflexivity).
    + split.
      * intros H. destruct (EscFacts.ToString_Arr_returns l H) as [t Ht].
        unfold App.esc. cbn [JS.coalesce JS.nullish]. rewrite Ht. eexists; reflexivity.
      * intros e err Hin Hn He.
        destruct (EscFacts.ToString_Arr_throws l e err Hin Hn He) as [err' Ht].
        exists err'. unfold App.esc. cbn [JS.coalesce JS.nullish]. now rewrite Ht.
    + unfold App.esc. cbn. destruct (JS.has_key "toString" o); reflexivity.
Qed.

(** C3, counterexample. A parsed object with a binding named [toString] is
    neither [null] nor [undefined], and [esc] does not return on it: the
    binding hides the inherited method and is no function, so the
    conversion to a string throws. The same holds of an array with such an
    object inside. *)
Lemma esc_counterexample :
  JS.nullish (Obj [("toString", Str "x")]) = false /\
  App.esc (Obj [("toString", Str "x")]) = Throw TypeError /\
  App.esc (Arr [Obj [("toString", Str "x")]]) = Throw TypeError.
Proof. repeat split. Qed.

(* ===================================================================== *)
(** * The formatter: [bytes] *)
(* ===================================================================== *)

Module BytesFacts.
Import Num Str JS App Props NumFacts.

(** [bytes] never throws on a number. *)
Lemma bytes_number (x : num) :
  bytes (Number x) =
    Ok (let '(y, i) := scale 3 x 0 in
        (match i with O => dec (ToInt32 y) | _ => toFixed 1 y end)
        ++ " " ++ nth i u "undefined").
Proof.
  unfold bytes. cbn [nullish orb ToNumber cbind List.length u Nat.sub].
  destruct (scale 3 x 0). reflexivity.
Qed.

Lemma bytes_of_number (x : num) : bytes (Number x) = Ok (bytes_of x).
Proof. unfold bytes_of. now rewrite bytes_number. Qed.

Lemma nonneg_cases (x : num) :
  ge x zero = true ->
  (exists s, x = S754_zero s) \/ x = pInf \/ exists m e, x = S754_finite false m e.
Proof.
  destruct x as [s|[]| |[] m e]; try discriminate; eauto.
Qed.

Lemma floor_small m e :
  valid (S754_finite false m e) -> e < -42 ->
  is_floor (S754_finite false m e) (trunc (S754_finite false m e)).
Proof.
  intros Hv He. destruct (trunc_small m e Hv He) as (_ & _ & H).
  destruct e as [|e|k]; try lia. cbn [is_floor ratio_of].
  exact H.
Qed.

End BytesFacts.

(** C4, as amended. [bytes] gives the empty string for [null], [undefined]
    and the empty string, and "0 B" for 0. For a number [x >= 0] it divides
    by 1024 while the value is at least 1024 and a larger unit is left: the
    unit index [i] counts the powers 1024, 1024^2, 1024^3 that [x] reaches,
    and the value displayed is [x / 1024^i] exactly. In the unit B it prints
    the integer part of [x]; in KB, MB and GB it prints [toFixed(1)] of the
    scaled value, which has exactly one decimal place as long as [x] is
    below 2^30 * 10^21. The unit never decreases when the number grows. *)
Theorem bytes_spec :
  App.bytes Null = Ok "" /\ App.bytes Undefined = Ok "" /\ App.bytes (Str "") = Ok "" /\
  App.bytes (Number Num.zero) = Ok "0 B" /\
  (forall x, Num.valid x -> Num.ge x Num.zero = true ->
     let i := Props.unit_index x in
     let y := fst (App.scale 3 x 0) in
     (i <= 3)%nat /\
     (forall j, (1 <= j <= 3)%nat ->
        (Num.ge x (Num.of_Z (1024 ^ Z.of_nat j)) = true <-> (j <= i)%nat)) /\
     y = Props.shift_exponent x i /\
     App.bytes (Number x) =
       Ok (match i with
           | 0%nat => Num.dec (Num.trunc x) ++ " B"
           | 1%nat => Num.toFixed 1 y ++ " KB"
           | 2%nat => Num.toFixed 1 y ++ " MB"
           | _ => Num.toFixed 1 y ++ " GB"
           end) /\
     (i = 0%nat -> Props.is_floor x (Num.trunc x)) /\
     (i <> 0%nat -> Num.lt x Props.gb_limit = true ->
        Props.one_decimal (Num.toFixed 1 y) = true)) /\
  (forall x x', Num.valid x -> Num.valid x' -> Num.ge x' x = true ->
     (Props.unit_index x <= Props.unit_index x')%nat).
Proof.
  repeat match goal with |- _ /\ _ => split end; try reflexivity.
  - intros x Hv H0 i y.
    destruct (NumFacts.unit_index_valid x Hv) as [Hi Hy].
    fold i in Hi. fold y in Hy.
    assert (Hb := BytesFacts.bytes_number x).
    assert (Hs : App.scale 3 x 0 = (y, i)).
    { subst y i. unfold Props.unit_index. cbn [List.length App.u Nat.sub].
      now destruct (App.scale 3 x 0). }
    rewrite Hs in Hb. clear Hs.
    assert (Hu : i = Props.unit_index x) by reflexivity. clearbody i y.
    split.
    { rewrite Hi. destruct x as [?|[]| |[] ? ?]; try lia.
      apply NumFacts.index_of_exponent_le3. }
    split; [intros j Hj; rewrite Hu; apply NumFacts.unit_index_thresholds; assumption|].
    clear Hu. split.
    { rewrite Hy, Hi. destruct x as [?|[]| |[] ? ?]; try discriminate H0; reflexivity. }
    destruct (BytesFacts.nonneg_cases x H0) as [[s ->]|[->|(m & e & ->)]].
    + (* zero *)
      rewrite Hb, Hi, Hy. repeat split; try reflexivity; intros H; now elim H.
    + (* infinity *)
      rewrite Hb, Hi, Hy. rewrite NumFacts.limit_eq.
      split; [reflexivity|]. split; [discriminate|]. intros _ [=].
    + (* a positive number *)
      destruct (NumFacts.valid_finite _ _ _ Hv) as (He & Hd & Hn).
      pose proof (NumFacts.mantissa_bound _ _ _ Hv) as Hm.
      rewrite Hb, Hy. clear Hb Hy. revert Hi. unfold Props.index_of_exponent.
      destruct (Z.ltb_spec e (-42)); [intros ->|].
      { replace (e - 10 * Z.of_nat 0) with e by lia.
        destruct (NumFacts.trunc_small m e Hv) as (Ht & _); [lia|].
        cbv zeta in Ht. rewrite Ht.
        split; [reflexivity|]. split; [|intros Hne; now elim Hne].
        intros _. now apply BytesFacts.floor_small. }
      destruct (Z.ltb_spec e (-32)); [intros ->|].
      { split; [reflexivity|]. split; [discriminate|]. intros _ _.
        apply NumFacts.toFixed1_one_decimal; try reflexivity.
        apply NumFacts.ge_1e21_small_mantissa; [exact Hm | lia]. }
      destruct (Z.ltb_spec e (-22)); intros ->.
      { split; [reflexivity|]. split; [discriminate|]. intros _ _.
        apply NumFacts.toFixed1_one_decimal; try reflexivity.
        apply NumFacts.ge_1e21_small_mantissa; [exact Hm | lia]. }
      split; [reflexivity|]. split; [discriminate|]. intros _ Hlt.
      apply NumFacts.toFixed1_one_decimal; try reflexivity.
      apply NumFacts.gb_below_1e21; assumption.
  - intros x x' Hx Hx' Hle. now apply NumFacts.unit_index_mono.
Qed.

(** C4, counterexample. At 2^100 bytes the size in GB is 2^70, above 10^21, and [toFixed]
    answers in exponent notation: the text has no single decimal place. *)
Lemma bytes_spec_counterexample :
  Num.valid (Num.of_Z (2 ^ 100)) /\ Num.ge (Num.of_Z (2 ^ 100)) Num.zero = true /\
  App.bytes (Number (Num.of_Z (2 ^ 100))) = Ok "1.1805916207174113e+21 GB" /\
  Props.one_decimal "1.1805916207174113e+21" = false.
Proof. vm_compute. repeat split. Qed.

Lemma bytes_spec_witness :
  Num.valid (Num.of_Z 1536) /\ Num.ge (Num.of_Z 1536) Num.zero = true /\
  App.bytes (Number (Num.of_Z 1536)) = Ok "1.5 KB" /\
  Props.one_decimal (Num.toFixed 1 (fst (App.scale 3 (Num.of_Z 1536) 0))) = true.
Proof.
  assert (Hv : Num.valid (Num.of_Z 1536)) by reflexivity.
  assert (H0 : Num.ge (Num.of_Z 1536) Num.zero = true) by reflexivity.
  destruct bytes_spec as (_ & _ & _ & _ & H & _).
  destruct (H (Num.of_Z 1536) Hv H0) as (_ & _ & _ & Hb & _ & Hd).
  split; [exact Hv|]. split; [exact H0|]. split.
  - rewrite Hb. reflexivity.
  - apply Hd; [discriminate | reflexivity].
Defined.

(** C10. A non-empty string that does not read as a number is formatted
    as "0 B": it converts to NaN, NaN is not at least 1024 so the loop does
    not run, and NaN|0 is 0. *)
Theorem bytes_not_a_number (s : string) :
  s <> "" -> Parse.StringToNumber s = Num.NaN ->
  JS.ToNumber (Str s) = Ok Num.NaN /\
  App.scale 3 Num.NaN 0 = (Num.NaN, 0%nat) /\
  Num.ToInt32 Num.NaN = 0 /\
  App.bytes (Str s) = Ok "0 B".
Proof.
  intros Hs Hn. repeat split.
  - cbn. now rewrite Hn.
  - unfold App.bytes. destruct s as [|c r]; [congruence|].
    cbn [JS.nullish orb JS.ToNumber cbind]. rewrite Hn. reflexivity.
Qed.

Lemma bytes_not_a_number_witness :
  "abc" <> "" /\ Parse.StringToNumber "abc" = Num.NaN /\ App.bytes (Str "abc") = Ok "0 B".
Proof.
  split; [discriminate|]. split; [reflexivity|].
  apply (bytes_not_a_number "abc"); [discriminate | reflexivity].
Defined.

(* ===================================================================== *)
(** * The chart: [drawBars] *)
(* ===================================================================== *)

Module RoundFacts.
Import Num Str JS App Props NumFacts.

(** The number of bits of a mantissa and of what rounding makes of it. *)
Lemma digits_bound (m : Z) : 0 <= m -> m < 2 ^ Zdigits2 m.
Proof.
  destruct m as [|p|p]; intros H; [reflexivity | | lia].
  cbn [Zdigits2]. apply digits2_pos_bounds.
Qed.

Lemma digits_lower (m : Z) : 0 < m -> 2 ^ (Zdigits2 m - 1) <= m.
Proof.
  destruct m as [|p|p]; intros H; try lia. cbn [Zdigits2]. apply digits2_pos_bounds.
Qed.

Lemma digits_nonneg (m : Z) : 0 <= Zdigits2 m.
Proof. destruct m; cbn; lia. Qed.

Lemma digits_upper (m j : Z) : 0 <= m < 2 ^ j -> 0 <= j -> Zdigits2 m <= j.
Proof.
  intros [H0 H1] Hj. destruct (Z.eq_dec m 0) as [->|Hn]; [cbn; lia|].
  pose proof (digits_lower m ltac:(lia)) as Hl.
  destruct (Z.le_gt_cases (Zdigits2 m) j) as [H|H]; [exact H|].
  assert (2 ^ j <= 2 ^ (Zdigits2 m - 1)) by (apply Z.pow_le_mono_r; lia). lia.
Qed.

Lemma shr_1_half (r : shr_record) :
  0 <= shr_m r -> shr_m (shr_1 r) = shr_m r / 2.
Proof.
  destruct r as [m b s]. cbn [shr_m shr_1]. intros H.
  destruct m as [|[p|p|]|p]; cbn [shr_m]; try lia; try reflexivity.
  - rewrite Pos2Z.inj_xI. apply (Z.div_unique _ _ _ 1); lia.
  - rewrite Pos2Z.inj_xO. apply (Z.div_unique _ _ _ 0); lia.
Qed.

Lemma iter_shr_1 (n : positive) (r : shr_record) :
  0 <= shr_m r -> shr_m (iter_pos shr_1 n r) = shr_m r / 2 ^ Zpos n.
Proof.
  revert r. induction n as [n IH|n IH|]; intros r H; cbn [iter_pos].
  - assert (H1 : 0 <= shr_m (shr_1 r)) by (rewrite shr_1_half by exact H; apply Z.div_pos; lia).
    assert (H2 : 0 <= shr_m (iter_pos shr_1 n (shr_1 r)))
      by (rewrite IH by exact H1; apply Z.div_pos; [exact H1 | apply Z.pow_pos_nonneg; lia]).
    assert (E : 2 ^ Zpos n~1 = 2 * (2 ^ Zpos n * 2 ^ Zpos n)).
    { replace (Zpos n~1) with (1 + (Zpos n + Zpos n)) by lia.
      rewrite !Z.pow_add_r by lia. reflexivity. }
    rewrite IH by exact H2. rewrite IH by exact H1. rewrite shr_1_half by exact H.
    rewrite !Z.div_div by (try apply Z.pow_pos_nonneg; lia).
    rewrite E. reflexivity.
  - assert (H2 : 0 <= shr_m (iter_pos shr_1 n r))
      by (rewrite IH by exact H; apply Z.div_pos; [exact H | apply Z.pow_pos_nonneg; lia]).
    assert (E : 2 ^ Zpos n~0 = 2 ^ Zpos n * 2 ^ Zpos n).
    { replace (Zpos n~0) with (Zpos n + Zpos n) by lia.
      rewrite !Z.pow_add_r by lia. reflexivity. }
    rewrite IH by exact H2. rewrite IH by exact H.
    rewrite !Z.div_div by (try apply Z.pow_pos_nonneg; lia).
    rewrite E. reflexivity.
  - rewrite shr_1_half by exact H. reflexivity.
Qed.

Lemma shr_record_of_loc_m (m : Z) (l : location) : shr_m (shr_record_of_loc m l) = m.
Proof. destruct l as [|[]]; reflexivity. Qed.

(** The first half of a rounding: the mantissa is cut down to 53 bits, or
    to the bits above the smallest exponent. *)
Lemma shr_fexp_spec (m e : Z) (l : location) :
  0 <= m ->
  let k := Z.max 0 (Z.max (Zdigits2 m - 53) (-1074 - e)) in
  shr_m (fst (shr_fexp prec emax m e l)) = m / 2 ^ k /\
  snd (shr_fexp prec emax m e l) = e + k.
Proof.
  intros Hm k. unfold shr_fexp, fexp, emin, prec, emax.
  set (n := Z.max (Zdigits2 m + e - 53) (3 - 1024 - 53) - e).
  assert (Hk : k = Z.max 0 n) by (subst k n; lia).
  destruct n as [|p|p] eqn:En; cbn [shr fst snd].
  - rewrite shr_record_of_loc_m. replace k with 0 by lia. rewrite Z.div_1_r. split; [reflexivity | lia].
  - rewrite iter_shr_1 by (rewrite shr_record_of_loc_m; exact Hm).
    rewrite shr_record_of_loc_m. replace k with (Zpos p) by lia. split; reflexivity.
  - rewrite shr_record_of_loc_m. replace k with 0 by lia. rewrite Z.div_1_r. split; [reflexivity | lia].
Qed.

Lemma round_nearest_even_cases (m : Z) (l : location) :
  round_nearest_even m l = m \/ round_nearest_even m l = m + 1.
Proof. destruct l as [|[]]; cbn; auto. destruct (Z.even m); auto. Qed.

(** Cutting [k] bits off takes [k] from the number of bits. *)
Lemma digits_shift (m k : Z) :
  0 <= m -> 0 <= k -> 0 < m / 2 ^ k -> Zdigits2 (m / 2 ^ k) + k <= Zdigits2 m.
Proof.
  intros Hm Hk Hq.
  pose proof (digits_bound m Hm) as Hb. pose proof (digits_nonneg m) as Hd.
  assert (Hp : 0 < 2 ^ k) by (apply Z.pow_pos_nonneg; lia).
  destruct (Z.le_gt_cases k (Zdigits2 m)) as [Hle|Hgt].
  - assert (Zdigits2 (m / 2 ^ k) <= Zdigits2 m - k); [|lia].
    apply digits_upper; [|lia]. split; [lia|].
    apply Z.div_lt_upper_bound; [exact Hp|].
    rewrite <- Z.pow_add_r by lia. replace (k + (Zdigits2 m - k)) with (Zdigits2 m) by lia. exact Hb.
  - assert (2 ^ Zdigits2 m <= 2 ^ k) by (apply Z.pow_le_mono_r; lia).
    rewrite Z.div_small in Hq by lia. lia.
Qed.

(** Rounding adds at most one to the magnitude [bits + exponent], and does
    not overflow while that stays in range. *)
Lemma round_bound (m e M : Z) (l : location) :
  0 <= m -> Zdigits2 m + e <= M -> e <= M -> -1074 <= M <= 971 ->
  binary_round_aux prec emax false m e l = S754_zero false \/
  exists m' e', binary_round_aux prec emax false m e l = S754_finite false m' e' /\
                Zpos (digits2_pos m') + e' <= M + 1.
Proof.
  intros Hm HM He HMr. unfold binary_round_aux.
  destruct (shr_fexp_spec m e l Hm) as [E1 E2].
  destruct (shr_fexp prec emax m e l) as [r1 e1]. cbn [fst snd] in E1, E2.
  set (k := Z.max 0 (Z.max (Zdigits2 m - 53) (-1074 - e))) in *.
  set (m2 := round_nearest_even (shr_m r1) (loc_of_shr_record r1)).
  assert (Hp : 0 < 2 ^ k) by (apply Z.pow_pos_nonneg; lia).
  assert (H1 : 0 <= shr_m r1) by (rewrite E1; apply Z.div_pos; lia).
  assert (H2 : 0 <= m2)
    by (subst m2; destruct (round_nearest_even_cases (shr_m r1) (loc_of_shr_record r1)) as [-> | ->]; lia).
  assert (B2 : Zdigits2 m2 + e1 <= M + 1).
  { pose proof (digits_bound m Hm) as Hb. pose proof (digits_nonneg m) as Hd.
    destruct (Z.le_gt_cases k (Zdigits2 m)) as [Hle|Hgt].
    - assert (Zdigits2 m2 <= Zdigits2 m - k + 1); [|lia].
      apply digits_upper; [|lia]. split; [exact H2|].
      assert (shr_m r1 < 2 ^ (Zdigits2 m - k)).
      { rewrite E1. apply Z.div_lt_upper_bound; [exact Hp|].
        rewrite <- Z.pow_add_r by lia. replace (k + (Zdigits2 m - k)) with (Zdigits2 m) by lia. exact Hb. }
      rewrite Z.pow_add_r by lia. change (2 ^ 1) with 2.
      subst m2; destruct (round_nearest_even_cases (shr_m r1) (loc_of_shr_record r1)) as [-> | ->]; lia.
    - assert (2 ^ Zdigits2 m <= 2 ^ k) by (apply Z.pow_le_mono_r; lia).
      assert (E0 : shr_m r1 = 0) by (rewrite E1; apply Z.div_small; lia).
      assert (Zdigits2 m2 <= 1); [|lia].
      apply digits_upper; [|lia]. change (2 ^ 1) with 2.
      subst m2; destruct (round_nearest_even_cases (shr_m r1) (loc_of_shr_record r1)) as [-> | ->]; lia. }
  destruct (shr_fexp_spec m2 e1 loc_Exact H2) as [E3 E4].
  destruct (shr_fexp prec emax m2 e1 loc_Exact) as [r3 e3]. cbn [fst snd] in E3, E4.
  set (k2 := Z.max 0 (Z.max (Zdigits2 m2 - 53) (-1074 - e1))) in *.
  destruct (shr_m r3) as [|m3|m3] eqn:E5.
  - left. reflexivity.
  - right.
    assert (Hq : 0 < m2 / 2 ^ k2) by lia.
    pose proof (digits_shift m2 k2 H2 ltac:(lia) Hq) as Hs.
    rewrite <- E3 in Hs. cbn [Zdigits2] in Hs.
    unfold emax, prec. destruct (Z.leb_spec e3 (1024 - 53)) as [Hok|Hbad].
    + exists m3, e3. split; [reflexivity | lia].
    + lia.
  - assert (0 <= m2 / 2 ^ k2) by (apply Z.div_pos; [exact H2 | apply Z.pow_pos_nonneg; lia]). lia.
Qed.

(** A number with few enough bits is below 10^21. *)
Lemma ge_1e21_bits s m e :
  Zpos (digits2_pos m) + e <= 69 -> ge_1e21 (S754_finite s m e) = false.
Proof.
  intros H. pose proof (digits2_pos_bounds m) as [_ Hb].
  set (d := Zpos (digits2_pos m)) in *. assert (Hd : 0 < d) by (subst d; lia).
  assert (H69 : 2 ^ 69 < 10 ^ 21) by reflexivity.
  destruct e as [|p|p]; cbn [ge_1e21 ratio_of]; apply Z.leb_gt.
  - assert (2 ^ d <= 2 ^ 69) by (apply Z.pow_le_mono_r; lia). lia.
  - assert (2 ^ (d + Zpos p) <= 2 ^ 69) by (apply Z.pow_le_mono_r; lia).
    rewrite Z.pow_add_r in * by lia.
    assert (0 < 2 ^ Zpos p) by (apply Z.pow_pos_nonneg; lia). nia.
  - assert (0 < 2 ^ Zpos p) by (apply Z.pow_pos_nonneg; lia).
    destruct (Z.le_gt_cases d (Zpos p)) as [Hle|Hgt].
    + assert (2 ^ d <= 2 ^ Zpos p) by (apply Z.pow_le_mono_r; lia). nia.
    + assert (2 ^ (d - Zpos p) <= 2 ^ 69) by (apply Z.pow_le_mono_r; lia).
      replace d with ((d - Zpos p) + Zpos p) in Hb by lia.
      rewrite Z.pow_add_r in Hb by lia. nia.
Qed.

(** A quotient of a number by one that is at least as large and at least 1. *)
Lemma div_bound (m1 : positive) (e1 : Z) (m2 : positive) (e2 : Z) :
  valid (S754_finite false m1 e1) -> valid (S754_finite false m2 e2) ->
  ge (S754_finite false m2 e2) (of_Z 1) = true ->
  ge (S754_finite false m2 e2) (S754_finite false m1 e1) = true ->
  div (S754_finite false m1 e1) (S754_finite false m2 e2) = S754_zero false \/
  exists m e, div (S754_finite false m1 e1) (S754_finite false m2 e2) = S754_finite false m e /\
              Zpos (digits2_pos m) + e <= 2.
Proof.
  intros V1 V2 G1 Gx.
  apply valid_finite in V1 as (He1 & Hd1 & _). apply valid_finite in V2 as (He2 & _ & Hn2).
  assert (H52 : -52 <= e2).
  { change (of_Z 1) with (S754_finite false two52 (-52)) in G1.
    unfold ge, SFleb, SFcompare in G1.
    destruct (Z.compare_spec (-52) e2); [lia | lia | discriminate G1]. }
  assert (Hle : e1 <= e2).
  { unfold ge, SFleb, SFcompare in Gx.
    destruct (Z.compare_spec e1 e2); [lia | lia | discriminate Gx]. }
  pose proof (normal_bounds m2 (Hn2 ltac:(lia))) as [B2 _].
  pose proof (digits2_pos_bounds m1) as [_ B1].
  unfold div, SFdiv, SFdiv_core_binary. cbn [xorb Zdigits2].
  rewrite (Hn2 ltac:(lia)).
  set (d1 := Zpos (digits2_pos m1)) in *.
  set (e' := Z.min (fexp prec emax (d1 + e1 - (53 + e2))) (e1 - e2)).
  set (s := e1 - e2 - e').
  set (m' := match s with Z0 => Zpos m1 | Zpos _ => Z.shiftl (Zpos m1) s | Zneg _ => 0 end).
  assert (Hs : 0 <= s) by (subst s e'; lia).
  assert (Em : m' = Zpos m1 * 2 ^ s).
  { subst m'. destruct s as [|p|p] eqn:Es; [lia | | lia]. rewrite Z.shiftl_mul_pow2 by lia. reflexivity. }
  assert (Hq : Z.div_eucl m' (Zpos m2) = (m' / Zpos m2, m' mod Zpos m2)).
  { unfold Z.div, Z.modulo. destruct (Z.div_eucl m' (Zpos m2)); reflexivity. }
  rewrite Hq. clearbody m'. subst m'.
  assert (Hp : 0 < 2 ^ s) by (apply Z.pow_pos_nonneg; lia).
  assert (Hd0 : 0 < d1) by (subst d1; lia).
  assert (Hm' : 0 <= Zpos m1 * 2 ^ s < 2 ^ (d1 + s)) by (rewrite Z.pow_add_r by lia; nia).
  set (n := Zpos m1 * 2 ^ s) in *. clearbody n.
  assert (Hq0 : 0 <= n / Zpos m2) by (apply Z.div_pos; lia).
  change 2 with (1 + 1). apply round_bound; [exact Hq0 | | subst e'; unfold fexp, emin, prec, emax; lia | lia].
  destruct (Z.le_gt_cases 52 (d1 + s)) as [Hbig|Hsmall].
  - assert (Zdigits2 (n / Zpos m2) <= d1 + s - 52); [|subst s; lia].
    apply digits_upper; [|lia]. split; [exact Hq0|].
    apply Z.div_lt_upper_bound; [lia|].
    assert (E : 2 ^ (d1 + s) = 2 ^ 52 * 2 ^ (d1 + s - 52))
      by (rewrite <- Z.pow_add_r by lia; f_equal; lia).
    assert (0 < 2 ^ (d1 + s - 52)) by (apply Z.pow_pos_nonneg; lia). nia.
  - assert (2 ^ (d1 + s) <= 2 ^ 52) by (apply Z.pow_le_mono_r; lia).
    rewrite Z.div_small by lia. cbn [Zdigits2]. subst e'. lia.
Qed.

Lemma mul_100_bound (m : positive) (e : Z) :
  Zpos (digits2_pos m) + e <= 2 ->
  mul (S754_finite false m e) (of_Z 100) = S754_zero false \/
  exists m' e', mul (S754_finite false m e) (of_Z 100) = S754_finite false m' e' /\
                Zpos (digits2_pos m') + e' <= 10.
Proof.
  intros H. change (of_Z 100) with (S754_finite false hundred (-46)).
  unfold mul, SFmul. cbn [xorb].
  pose proof (digits2_pos_bounds m) as [_ Hb].
  set (d := Zpos (digits2_pos m)) in *. assert (Hd : 0 < d) by (subst d; lia).
  assert (Hc : Zpos hundred < 2 ^ 53) by reflexivity.
  change 10 with (9 + 1). apply round_bound; [lia | | lia | lia].
  assert (Zdigits2 (Zpos (m * hundred)) <= d + 53); [|lia].
  apply digits_upper; [|lia]. rewrite Pos2Z.inj_mul. rewrite Z.pow_add_r by lia.
  assert (H0 : 0 < Zpos hundred) by reflexivity.
  set (c := Zpos hundred) in *. clearbody c.
  assert (0 < 2 ^ d) by (apply Z.pow_pos_nonneg; lia). nia.
Qed.

(** The width of a bar: a finite size over the maximum of the chart. *)
Lemma width_one_decimal (x mx : num) :
  valid x -> valid mx -> finite x = true ->
  ge x zero = true -> ge mx (of_Z 1) = true -> ge mx x = true ->
  one_decimal (toFixed 1 (mul (div x mx) (of_Z 100))) = true.
Proof.
  intros Vx Vm Fx G0 G1 Gx.
  assert (Hz : forall s, one_decimal (toFixed 1 (mul (S754_zero s) (of_Z 100))) = true)
    by (intros []; reflexivity).
  destruct mx as [sm|sm| |sm m2 e2]; try discriminate G1;
    destruct sm; try discriminate G1;
    destruct x as [sx|sx| |sx m1 e1]; try discriminate Fx; try discriminate G0;
    try (destruct sx; try discriminate G0); try apply Hz.
  destruct (div_bound m1 e1 m2 e2 Vx Vm G1 Gx) as [-> | (m & e & -> & Hb)]; [apply Hz|].
  destruct (mul_100_bound m e Hb) as [-> | (m' & e' & -> & Hb')]; [reflexivity|].
  apply toFixed1_one_decimal; [reflexivity | apply ge_1e21_bits; lia | reflexivity].
Qed.

End RoundFacts.

Module MaxFacts.
Import Num Str JS App Props NumFacts.

(** [x <= y] on numbers is [ge y x = true]. *)
#[local] Notation "x <=? y" := (ge y x) (at level 70) : js_scope.

Lemma compare_cont_eq (a b : positive) : Pos.compare_cont Eq a b = Pos.compare a b.
Proof. reflexivity. Qed.

Ltac order_cases :=
  unfold ge, lt, SFleb, SFltb, SFcompare in *; rewrite ?compare_cont_eq in *;
  repeat match goal with
         | H : context [Z.compare ?a ?b] |- _ => destruct (Z.compare_spec a b)
         | |- context [Z.compare ?a ?b] => destruct (Z.compare_spec a b)
         | H : context [Pos.compare ?a ?b] |- _ => destruct (Pos.compare_spec a b)
         | |- context [Pos.compare ?a ?b] => destruct (Pos.compare_spec a b)
         end;
  cbn in *; try reflexivity; try discriminate; try lia.

Lemma le_refl (x : num) : is_nan x = false -> (x <=? x)%js = true.
Proof. destruct x as [[]|[]| |[] m e]; intros H; try discriminate H; order_cases. Qed.

Lemma lt_le (x y : num) : lt x y = true -> (x <=? y)%js = true.
Proof.
  unfold ge, lt, SFleb, SFltb. destruct (SFcompare x y) as [[]|]; auto; discriminate.
Qed.

Lemma not_lt_le (x y : num) :
  is_nan x = false -> is_nan y = false -> lt x y = false -> (y <=? x)%js = true.
Proof.
  destruct x as [[]|[]| |[] mx ex]; intros Hx; try discriminate Hx;
    destruct y as [[]|[]| |[] my ey]; intros Hy Hl; try discriminate Hy;
    try discriminate Hl; try reflexivity; order_cases.
Qed.

Lemma le_trans (x y z : num) : (x <=? y)%js = true -> (y <=? z)%js = true -> (x <=? z)%js = true.
Proof.
  destruct x as [[]|[]| |[] mx ex]; destruct y as [[]|[]| |[] my ey];
    intros Hxy; try discriminate Hxy;
    destruct z as [[]|[]| |[] mz ez]; intros Hyz; try discriminate Hyz;
    try reflexivity; order_cases.
Qed.

Lemma max_step_cases (h x : num) : max_step h x = h \/ max_step h x = x.
Proof.
  unfold max_step. destruct h as [[]| | |]; destruct x as [[]| | |]; auto;
    match goal with |- context [if ?c then _ else _] => destruct c end; auto.
Qed.

Lemma max_step_not_nan (h x : num) :
  is_nan h = false -> is_nan x = false -> is_nan (max_step h x) = false.
Proof. intros. destruct (max_step_cases h x) as [-> | ->]; assumption. Qed.

Lemma max_step_ge_l (h x : num) :
  is_nan h = false -> is_nan x = false -> ge (max_step h x) h = true.
Proof.
  intros Hh Hx. unfold max_step.
  destruct h as [[]| | |]; destruct x as [[]| | |]; try discriminate; try reflexivity;
    match goal with
    | |- context [if lt ?a ?b then _ else _] =>
        destruct (lt a b) eqn:E; [apply lt_le; exact E | apply le_refl; reflexivity]
    end.
Qed.

Lemma max_step_ge_r (h x : num) :
  is_nan h = false -> is_nan x = false -> ge (max_step h x) x = true.
Proof.
  intros Hh Hx. unfold max_step.
  destruct h as [[]| | |]; destruct x as [[]| | |]; try discriminate; try reflexivity;
    match goal with
    | |- context [if lt ?a ?b then _ else _] =>
        destruct (lt a b) eqn:E;
          [apply le_refl; reflexivity | apply not_lt_le; [reflexivity | reflexivity | exact E]]
    end.
Qed.

(** What the fold of [Math_max] computes from an accumulator. *)
Lemma fold_max (l : list num) (acc : num) :
  is_nan acc = false -> forallb (fun x => negb (is_nan x)) l = true ->
  let r := fold_left max_step l acc in
  is_nan r = false /\ ge r acc = true /\
  Forall (fun x => ge r x = true) l /\ (r = acc \/ In r l).
Proof.
  revert acc. induction l as [|x l IH]; intros acc Ha Hl r.
  - subst r. cbn. repeat split; auto. now apply le_refl.
  - cbn in Hl. apply andb_true_iff in Hl as [Hx Hl]. apply negb_true_iff in Hx.
    subst r. cbn [fold_left].
    destruct (IH (max_step acc x) (max_step_not_nan _ _ Ha Hx) Hl) as (Hn & Hge & Hall & Hin).
    repeat split.
    + exact Hn.
    + apply (le_trans _ (max_step acc x)); [apply max_step_ge_l; assumption | exact Hge].
    + constructor; [|exact Hall].
      apply (le_trans _ (max_step acc x)); [apply max_step_ge_r; assumption | exact Hge].
    + destruct Hin as [E|Hin]; [|right; right; exact Hin].
      rewrite E. destruct (max_step_cases acc x) as [-> | ->]; [left | right; left]; reflexivity.
Qed.

Lemma ge_not_nan (x y : num) : ge x y = true -> is_nan x = false /\ is_nan y = false.
Proof. destruct x, y; cbn; intros H; try discriminate H; auto. Qed.

Lemma existsb_nan (l : list num) :
  Forall (fun x => ge x zero = true) l -> existsb is_nan l = false.
Proof.
  induction 1 as [|x l Hx _ IH]; [reflexivity|]. cbn.
  destruct (ge_not_nan _ _ Hx) as [-> _]. exact IH.
Qed.

Lemma forallb_not_nan (l : list num) :
  Forall (fun x => ge x zero = true) l -> forallb (fun x => negb (is_nan x)) l = true.
Proof.
  induction 1 as [|x l Hx _ IH]; [reflexivity|]. cbn.
  destruct (ge_not_nan _ _ Hx) as [-> _]. exact IH.
Qed.

(** The maximum of the chart: at least 1, at least every size, and either
    1 or one of the sizes. *)
Lemma chart_max (sizes : list num) :
  Forall (fun x => ge x zero = true) sizes ->
  let mx := Math_max (sizes ++ [of_Z 1]) in
  ge mx (of_Z 1) = true /\ Forall (fun x => ge mx x = true) sizes /\
  (mx = of_Z 1 \/ In mx sizes).
Proof.
  intros Hs mx. subst mx. unfold Math_max.
  assert (H1 : Forall (fun x => ge x zero = true) (sizes ++ [of_Z 1])).
  { apply Forall_app. split; [exact Hs|]. constructor; [reflexivity | constructor]. }
  rewrite (existsb_nan _ H1).
  destruct (fold_max (sizes ++ [of_Z 1]) nInf eq_refl (forallb_not_nan _ H1))
    as (_ & _ & Hall & Hin).
  apply Forall_app in Hall as [Hall Hone]. inversion Hone as [|? ? Hone' _]; subst.
  repeat split; [exact Hone' | exact Hall |].
  destruct Hin as [E|Hin].
  - rewrite E in Hone'. discriminate Hone'.
  - apply in_app_or in Hin as [Hin|[E|[]]]; [right; exact Hin | left; symmetry; exact E].
Qed.

Lemma chart_max_zeros (sizes : list num) :
  Forall (fun x => is_zero x = true) sizes ->
  Math_max (sizes ++ [of_Z 1]) = of_Z 1.
Proof.
  intros Hz.
  assert (Hs : Forall (fun x => ge x zero = true) sizes).
  { eapply Forall_impl; [|exact Hz]. intros [[]| | |]; cbn; intros H; try discriminate H; reflexivity. }
  destruct (chart_max sizes Hs) as (H1 & _ & [E|Hin]); [exact E|].
  rewrite Forall_forall in Hz. apply Hz in Hin.
  destruct (Math_max (sizes ++ [of_Z 1])) as [[]| | |]; try discriminate Hin; discriminate H1.
Qed.

Lemma zero_width (x : num) :
  is_zero x = true -> toFixed 1 (mul (div x (of_Z 1)) (of_Z 100)) = "0.0".
Proof. destruct x as [[]| | |]; intros H; try discriminate H; reflexivity. Qed.

End MaxFacts.

Module ChartFacts.
Import Num Str JS Dom App Props NumFacts.

Lemma cmap_ok {A B} (f : A -> completion B) (g : A -> B) (l : list A) :
  (forall a, In a l -> f a = Ok (g a)) -> cmap f l = Ok (map g l).
Proof.
  induction l as [|a l IH]; intros H; [reflexivity|].
  cbn. rewrite (H a (or_introl eq_refl)). cbn.
  rewrite IH by (intros; apply H; now right). reflexivity.
Qed.

Lemma cmap_length {A B} (f : A -> completion B) (l : list A) (bs : list B) :
  cmap f l = Ok bs -> List.length bs = List.length l.
Proof.
  revert bs. induction l as [|a l IH]; intros bs; cbn.
  - intros [= <-]. reflexivity.
  - destruct (f a); [|discriminate]. cbn.
    destruct (cmap f l); [|discriminate]. cbn. intros [= <-]. cbn. f_equal. now apply IH.
Qed.

Lemma getElementById_chart (p : page) (c : string) :
  p_netChart p = Some c -> getElementById "netChart" p = (Ok (Some netChart), p).
Proof. intros H. unfold getElementById. cbn. rewrite H. reflexivity. Qed.

Lemma bar_row_string (mx : num) (s : string) (x : num) :
  bar_row mx {| name := Str s; size := x |}
  = Ok (bar_markup (replace_special s) (toFixed 1 (mul (div x mx) (of_Z 100))) (bytes_of x)).
Proof.
  unfold bar_row. cbn [name size]. rewrite EscFacts.esc_string. cbn [cbind].
  rewrite BytesFacts.bytes_of_number. reflexivity.
Qed.

End ChartFacts.

(** C5, as amended. For every list of (name, size) pairs whose sizes are
    at least 0, [drawBars] scales by the larger of 1 and the greatest size,
    which is neither zero nor NaN; it writes one row per entry, in the
    order of the list, whose bar is [size/max*100] printed with
    [toFixed(1)]; when every size is zero the maximum is 1 and every width
    is "0.0"; and the width of every finite size is digits, a point and one
    digit. *)
Theorem drawBars_spec (parseHTML : string -> option string)
    (entries : list (string * Num.num)) (p : page) (c : string) :
  p_netChart p = Some c ->
  Forall (fun e => Num.ge (snd e) Num.zero = true) entries ->
  let data := map (fun e => {| name := Str (fst e); size := snd e |}) entries in
  let max := Num.Math_max (map snd entries ++ [Num.of_Z 1]) in
  let width := fun e : string * Num.num =>
                 Num.toFixed 1 (Num.mul (Num.div (snd e) max) (Num.of_Z 100)) in
  Num.ge max (Num.of_Z 1) = true /\
  Forall (fun e => Num.ge max (snd e) = true) entries /\
  (max = Num.of_Z 1 \/ In max (map snd entries)) /\
  Num.is_zero max = false /\ Num.is_nan max = false /\
  App.drawBars parseHTML "netChart" data p =
    (Ok tt,
     Dom.set_chart
       (Some (Str.join
                (map (fun e => App.bar_markup (App.replace_special (fst e)) (width e)
                                              (Props.bytes_of (snd e)))
                     entries)))
       p) /\
  (Forall (fun e => Num.is_zero (snd e) = true) entries ->
   max = Num.of_Z 1 /\ Forall (fun e => width e = "0.0") entries) /\
  (Forall (fun e => Num.valid (snd e)) entries ->
   Forall (fun e => Props.finite (snd e) = true -> Props.one_decimal (width e) = true)
          entries).
Proof.
  intros Hc Hs data max width.
  assert (Hs' : Forall (fun x => Num.ge x Num.zero = true) (map snd entries)).
  { apply Forall_map. exact Hs. }
  destruct (MaxFacts.chart_max _ Hs') as (H1 & Hall & Hin). fold max in H1, Hall, Hin.
  split; [exact H1|]. split; [rewrite Forall_map in Hall; exact Hall|].
  split; [exact Hin|].
  split; [destruct max as [[]| | |]; try discriminate H1; reflexivity|].
  split; [destruct max as [[]| | |]; try discriminate H1; reflexivity|].
  split.
  - unfold App.drawBars, bind.
    rewrite (ChartFacts.getElementById_chart p c Hc).
    replace (map size data) with (map snd entries)
      by (subst data; rewrite map_map; reflexivity).
    fold max. unfold lift.
    rewrite (ChartFacts.cmap_ok (App.bar_row max)
               (fun d => App.bar_markup
                           (App.replace_special (match name d with Str s => s | _ => "" end))
                           (Num.toFixed 1 (Num.mul (Num.div (size d) max) (Num.of_Z 100)))
                           (Props.bytes_of (size d)))).
    + unfold Dom.set_innerHTML. rewrite Hc. subst data. rewrite map_map. reflexivity.
    + intros d Hd. subst data. apply in_map_iff in Hd as (e & <- & _).
      apply ChartFacts.bar_row_string.
  - split.
    + intros Hz.
      assert (Hz' : Forall (fun x => Num.is_zero x = true) (map snd entries)).
      { apply Forall_map. exact Hz. }
      assert (E : max = Num.of_Z 1) by (apply MaxFacts.chart_max_zeros; exact Hz').
      split; [exact E|]. subst width. cbv beta. rewrite E.
      eapply Forall_impl; [|exact Hz]. intros e He. now apply MaxFacts.zero_width.
    + intros Hv.
      assert (Vm : Num.valid max).
      { destruct Hin as [-> | Hin]; [reflexivity|].
        apply in_map_iff in Hin as (e & <- & He).
        rewrite Forall_forall in Hv. now apply Hv. }
      rewrite Forall_map in Hall.
      rewrite Forall_forall in Hs, Hv, Hall |- *. intros e He Hf.
      apply RoundFacts.width_one_decimal; auto.
Qed.

Lemma drawBars_spec_witness :
  let entries := [("a", Num.zero); ("b", Num.of_Z 512)] in
  let max := Num.Math_max (map snd entries ++ [Num.of_Z 1]) in
  Forall (fun e => Num.ge (snd e) Num.zero = true) entries /\
  Forall (fun e => Num.valid (snd e)) entries /\
  Num.is_zero max = false /\
  Forall (fun e => Props.finite (snd e) = true ->
                   Props.one_decimal
                     (Num.toFixed 1 (Num.mul (Num.div (snd e) max) (Num.of_Z 100))) = true)
         entries.
Proof.
  intros entries max.
  assert (Hs : Forall (fun e => Num.ge (snd e) Num.zero = true) entries)
    by (repeat constructor).
  assert (Hv : Forall (fun e => Num.valid (snd e)) entries) by (repeat constructor).
  destruct (drawBars_spec Sample.plainHTML entries
              (Props.show Sample.plainHTML network (App.network_markup "") Sample.start_page)
              "" eq_refl Hs)
    as (_ & _ & _ & Hz & _ & _ & _ & Hw).
  split; [exact Hs|]. split; [exact Hv|]. split; [exact Hz|]. exact (Hw Hv).
Defined.

(** C5, counterexample. An infinite size is at least 0; it is the maximum
    of its chart, and its own bar gets the width "NaN", which is not a
    number with one decimal place. *)
Lemma drawBars_counterexample :
  Num.ge Num.pInf Num.zero = true /\
  Num.Math_max [Num.pInf; Num.of_Z 1] = Num.pInf /\
  Num.toFixed 1 (Num.mul (Num.div Num.pInf (Num.Math_max [Num.pInf; Num.of_Z 1]))
                         (Num.of_Z 100)) = "NaN" /\
  Props.one_decimal "NaN" = false /\
  match p_netChart (snd (App.drawBars Sample.plainHTML "netChart"
                           [{| name := Str "a"; size := Num.pInf |}]
                           (Props.show Sample.plainHTML network (App.network_markup "")
                              Sample.start_page))) with
  | Some chart => Str.contains "width:NaN%" chart = true
  | None => False
  end.
Proof. vm_compute. repeat split. Qed.

(* ===================================================================== *)
(** * Computations that do not throw *)
(* ===================================================================== *)

Module OkFacts.
Import Num Str JS Dom App Props.

Lemma ok_Ok {A} (a : A) : returns (Ok a).
Proof. now exists a. Qed.

Lemma ok_bind {A B} (c : completion A) (k : A -> completion B) :
  returns c -> (forall a, c = Ok a -> returns (k a)) -> returns (cbind c k).
Proof. intros [a ->] H. cbn. now apply H. Qed.

Lemma ok_cmap {A B} (f : A -> completion B) (l : list A) :
  (forall a, In a l -> returns (f a)) -> returns (cmap f l).
Proof.
  induction l as [|a l IH]; intros H; cbn; [apply ok_Ok|].
  apply ok_bind; [apply H; now left|]. intros b _.
  apply ok_bind; [apply IH; intros; apply H; now right|]. intros bs _. apply ok_Ok.
Qed.

Lemma ok_get (e : value) (k : string) : nullish e = false -> returns (get e k).
Proof. destruct e; intros H; try discriminate H; cbn; apply ok_Ok. Qed.

Lemma ok_ToString (v : value) : printable v = true -> returns (ToString v).
Proof. unfold printable, returns. destruct (ToString v); [eauto | discriminate]. Qed.

Lemma printable_or (a b : value) :
  printable a = true -> printable b = true -> printable (or a b) = true.
Proof. unfold or. now destruct (truthy a). Qed.

Lemma printable_coalesce (a b : value) :
  printable a = true -> printable b = true -> printable (coalesce a b) = true.
Proof. unfold coalesce. now destruct (nullish a). Qed.

Lemma ok_esc (v : value) : printable v = true -> returns (esc v).
Proof.
  intros H. unfold esc. apply ok_bind; [|intros; apply ok_Ok].
  apply ok_ToString. now apply printable_coalesce.
Qed.

Lemma ok_ToNumber (v : value) : printable v = true -> returns (ToNumber v).
Proof.
  intros H. destruct v; try apply ok_Ok;
    (apply ok_bind; [now apply ok_ToString | intros; apply ok_Ok]).
Qed.

Lemma ok_bytes (v : value) : printable v = true -> returns (bytes v).
Proof.
  intros H. unfold bytes.
  destruct (nullish v || match v with Str "" => true | _ => false end); [apply ok_Ok|].
  apply ok_bind; [now apply ok_ToNumber|]. intros x _.
  destruct (scale _ x 0). apply ok_Ok.
Qed.

Lemma field_ok_get (e : value) (k : string) :
  field_ok e k = true -> exists v, get e k = Ok v /\ printable v = true.
Proof.
  unfold field_ok, field. intros H. apply andb_true_iff in H as [Hn Hp].
  apply negb_true_iff in Hn. destruct (ok_get e k Hn) as [v E]. rewrite E in *. eauto.
Qed.


Create HintDb returns.
#[local] Hint Resolve ok_Ok ok_esc ok_bytes ok_ToString ok_ToNumber ok_get
  printable_or printable_coalesce : returns.

(** Splits a chain of computations into its links. *)
Ltac chain :=
  repeat (apply ok_bind; [|intros ? ?]); try apply ok_Ok.

Lemma forallb_field_ok (e : value) (keys : list string) (k : string) :
  forallb (field_ok e) keys = true -> In k keys ->
  exists v, get e k = Ok v /\ printable v = true.
Proof.
  intros H Hk. rewrite forallb_forall in H. apply field_ok_get. now apply H.
Qed.

(** Reads a field that the shape of the entry declares printable. *)
Ltac read_field H k :=
  let v := fresh "v" in let E := fresh "E" in let P := fresh "P" in
  destruct (forallb_field_ok _ _ k H ltac:(cbn; tauto)) as (v & E & P);
  rewrite ?E; cbn [cbind].

Lemma ok_archive_row (e : value) :
  nullish e = false -> forallb (field_ok e) ["name"; "size"; "compressed"] = true ->
  returns (archive_row e).
Proof.
  intros Hn H. unfold archive_row.
  read_field H "name". read_field H "size". read_field H "compressed".
  chain; auto with returns.
Qed.

Lemma ok_thumb_figure (run : value) (t : value) :
  printable run = true ->
  nullish t = false -> forallb (field_ok t) ["t_sec"; "png_b64"] = true ->
  returns (thumb_figure run t).
Proof.
  intros Hr Hn H. unfold thumb_figure.
  read_field H "t_sec". read_field H "png_b64".
  chain; auto with returns.
Qed.

Lemma ok_check_row (r : value) :
  nullish r = false ->
  forallb (field_ok r) ["category"; "label"; "status"; "value"; "help"] = true ->
  returns (check_row r).
Proof.
  intros Hn H. unfold check_row.
  read_field H "category". read_field H "label". read_field H "status".
  read_field H "value". read_field H "help".
  chain; auto with returns.
  destruct (truthy _); chain; auto with returns.
Qed.

Lemma ok_map_entries {B} (keys : list string) (v : value) (f : value -> completion B) :
  entries_ok keys v = true ->
  (forall e, nullish e = false -> forallb (field_ok e) keys = true -> returns (f e)) ->
  returns (map_method (or v (Arr [])) f).
Proof.
  intros H Hf. unfold entries_ok in H.
  destruct v; try (apply negb_true_iff in H; unfold or; rewrite H; apply ok_Ok).
  unfold or. cbn [truthy map_method].
  apply ok_cmap. intros e He. rewrite forallb_forall in H.
  apply H in He. apply andb_true_iff in He as [Hn Hk].
  apply negb_true_iff in Hn. now apply Hf.
Qed.

Lemma ok_meta_markup (btn : string) (md : fresh_object) (name : string) :
  forallb (fun k => printable (get_fresh md k)) metadata_keys = true ->
  returns (meta_markup btn md name).
Proof.
  intros H. rewrite forallb_forall in H.
  assert (Hk : forall k, In k metadata_keys -> printable (get_fresh md k) = true) by exact H.
  unfold meta_markup.
  chain; try apply ok_ToString;
    repeat first [apply printable_coalesce | apply printable_or];
    try reflexivity; apply Hk; cbn; tauto.
Qed.

End OkFacts.

(* ===================================================================== *)
(** * Running [renderAll] *)
(* ===================================================================== *)

Module PageFacts.
Import Num Str JS Dom App Props OkFacts.

Lemma prefix_app (p a b : string) : prefix p a = true -> prefix p (a ++ b) = true.
Proof.
  revert a. induction p as [|c p IH]; intros a H; [destruct (a ++ b); reflexivity|].
  destruct a as [|c' a]; [discriminate H|]. cbn in *.
  destruct (Ascii.ascii_dec c c'); [now apply IH | discriminate H].
Qed.

(** The markup of the network section opens with its heading and the
    chart holder. *)
Lemma network_markup_head (nrows : string) :
  prefix network_head (network_markup nrows) = true.
Proof. unfold network_markup. apply prefix_app. vm_compute. reflexivity. Qed.

Section Parser.
Variable parseHTML : string -> option string.

Lemma holder_in_head (h : string) :
  prefix network_head h = true -> holder_in parseHTML h = Some "".
Proof.
  intros H. unfold holder_in. rewrite H.
  destruct h; [discriminate H | reflexivity].
Qed.

(** What [set_chart] leaves alone. *)
Lemma set_chart_frame (c : option string) (p : page) :
  p_drop (set_chart c p) = p_drop p /\ p_file (set_chart c p) = p_file p /\
  alerts (set_chart c p) = alerts p /\
  display (p_meta (set_chart c p)) = display (p_meta p) /\
  innerHTML (p_meta (set_chart c p)) = innerHTML (p_meta p) /\
  display (p_archive (set_chart c p)) = display (p_archive p) /\
  innerHTML (p_archive (set_chart c p)) = innerHTML (p_archive p) /\
  display (p_matrix (set_chart c p)) = display (p_matrix p) /\
  innerHTML (p_matrix (set_chart c p)) = innerHTML (p_matrix p) /\
  display (p_network (set_chart c p)) = display (p_network p) /\
  innerHTML (p_network (set_chart c p)) = innerHTML (p_network p).
Proof.
  unfold set_chart, chart_owner.
  destruct (holder (p_meta p)), (holder (p_archive p)), (holder (p_matrix p)),
    (holder (p_network p)); repeat split.
Qed.

(** What [set_chart] does to the sections depends on the sections only. *)
Lemma set_chart_sections (c : option string) (p q : page) :
  p_meta p = p_meta q -> p_archive p = p_archive q -> p_matrix p = p_matrix q ->
  p_network p = p_network q ->
  p_meta (set_chart c p) = p_meta (set_chart c q) /\
  p_archive (set_chart c p) = p_archive (set_chart c q) /\
  p_matrix (set_chart c p) = p_matrix (set_chart c q) /\
  p_network (set_chart c p) = p_network (set_chart c q) /\
  p_netChart (set_chart c p) = p_netChart (set_chart c q).
Proof.
  intros H1 H2 H3 H4. unfold p_netChart, set_chart, chart_owner.
  rewrite H1, H2, H3, H4.
  destruct (holder (p_meta q)) eqn:E1, (holder (p_archive q)) eqn:E2,
    (holder (p_matrix q)) eqn:E3, (holder (p_network q)) eqn:E4;
    cbn; rewrite ?H1, ?H2, ?H3, ?H4, ?E1, ?E2, ?E3, ?E4; repeat split.
Qed.

(** A page whose four sections are written keeps nothing of the sections
    it had. *)
Lemma sections_written (hm ha hx hn : string) (p q : page) :
  p_drop p = p_drop q -> p_file p = p_file q -> alerts p = alerts q ->
  show parseHTML network hn
    (show parseHTML matrix hx (show parseHTML archive ha (show parseHTML meta hm p)))
  = show parseHTML network hn
      (show parseHTML matrix hx (show parseHTML archive ha (show parseHTML meta hm q))).
Proof.
  intros H1 H2 H3. unfold show. cbn. now rewrite H1, H2, H3.
Qed.

(** After the network section is written the page has an element whose id
    is [netChart]. *)
Lemma chart_after_network (hn : string) (p : page) :
  prefix network_head hn = true ->
  exists c, p_netChart (show parseHTML network hn p) = Some c.
Proof.
  intros H. unfold p_netChart, chart_owner, show, shown. cbn.
  rewrite (holder_in_head hn H).
  destruct (holder (p_meta p)) eqn:E1; [eauto|].
  destruct (holder (p_archive p)) eqn:E2; [eauto|].
  destruct (holder (p_matrix p)) eqn:E3; eauto.
Qed.

(** The chart, once drawn, is the content of that element. *)
Lemma chart_drawn (c c0 : string) (p : page) :
  p_netChart p = Some c0 -> p_netChart (set_chart (Some c) p) = Some c.
Proof.
  unfold p_netChart, set_chart, chart_owner.
  destruct (holder (p_meta p)) eqn:E1, (holder (p_archive p)) eqn:E2,
    (holder (p_matrix p)) eqn:E3, (holder (p_network p)) eqn:E4;
    cbn; rewrite ?E1, ?E2, ?E3, ?E4; cbn; intros H; try reflexivity; discriminate H.
Qed.

Lemma drawBars_text (data : list bar) (p : page) (c : string) :
  p_netChart p = Some c ->
  let max := Math_max (map size data ++ [of_Z 1]) in
  (forall d, In d data -> returns (bar_row max d)) ->
  drawBars parseHTML "netChart" data p
  = (Ok tt, set_chart (Some (join (map (bar_text max) data))) p).
Proof.
  intros Hc max Hd. unfold drawBars, bind.
  rewrite (ChartFacts.getElementById_chart p c Hc). fold max. unfold lift.
  rewrite (ChartFacts.cmap_ok (bar_row max) (bar_text max)).
  - unfold set_innerHTML. rewrite Hc. reflexivity.
  - intros d Hin. unfold bar_text. destruct (Hd d Hin) as [s ->]. reflexivity.
Qed.

End Parser.
End PageFacts.

Module RenderFacts.
Import Num Str JS Dom App Props OkFacts PageFacts.

Lemma cbind_ok {A B} (c : completion A) (k : A -> completion B) (b : B) :
  cbind c k = Ok b -> exists a, c = Ok a /\ k a = Ok b.
Proof. destruct c as [a|e]; cbn; [eauto | discriminate]. Qed.

Lemma get_ok (n : value) (k : string) (v : value) :
  JS.get n k = Ok v -> forall k', JS.get n k' = Ok (field n k').
Proof.
  intros H k'. unfold field. destruct n; try discriminate H; reflexivity.
Qed.

Lemma bytes_ToNumber (x : value) (s : string) :
  truthy x = true -> bytes x = Ok s -> returns (ToNumber x).
Proof.
  intros T. unfold bytes.
  destruct (nullish x || match x with Str "" => true | _ => false end) eqn:E.
  - apply orb_true_iff in E as [E|E]; destruct x as [| | | |[|]| |]; discriminate.
  - destruct (ToNumber x); [intros; eexists; reflexivity | discriminate].
Qed.

Lemma no_requests_network (data : value) :
  no_requests data = true -> network_requests data = Ok (Arr []).
Proof.
  unfold no_requests, network_requests. destruct data; try discriminate.
  cbn [get]. destruct (lookup "runtime" o) as [[| |[]|x|s|l|r]|]; try reflexivity.
  - cbn [cbind]. destruct (truthy (Number x)) eqn:T; cbn [cbind get]; rewrite ?T; reflexivity.
  - cbn [cbind]. destruct (truthy (Str s)) eqn:T; cbn [cbind get]; rewrite ?T; reflexivity.
  - cbn [cbind truthy get].
    destruct (lookup "network_requests" r) as [[| | | | |[]|]|]; try discriminate; reflexivity.
Qed.

Section Render.
Variable parseURL : string -> option URL.
Variable parseHTML : string -> option string.

(** A request whose table row can be written has a chart entry, and the
    bar of that entry can be written too. *)
Lemma net_row_chart_entry (n : value) (row : string) :
  net_row parseURL n = Ok row ->
  exists b, chart_entry parseURL n = Ok b /\ forall max, returns (bar_row max b).
Proof.
  unfold net_row. intros H.
  apply cbind_ok in H as (url & Hurl & H).
  apply cbind_ok in Hurl as (x & Hx & Hurl).
  pose proof (get_ok n _ _ Hx) as Hget.
  apply cbind_ok in Hurl as (s & Hs & Hesc).
  apply cbind_ok in H as (status & _ & H).
  apply cbind_ok in H as (protocol & _ & H).
  apply cbind_ok in H as (enc & _ & H).
  apply cbind_ok in H as (sz & Hsz & _).
  rewrite Hget in Hx. rewrite Hget in Hsz. injection Hx as <-. cbn [cbind] in Hsz.
  assert (Hn : returns (ToNumber (or (field n "bytes") (Number zero)))).
  { unfold or. destruct (truthy (field n "bytes")) eqn:T; [|apply ok_Ok].
    exact (bytes_ToNumber _ _ T Hsz). }
  destruct Hn as [y Hy].
  exists {| name := s; size := y |}. split.
  - unfold chart_entry. rewrite !Hget. cbn [cbind]. rewrite Hs. cbn [cbind].
    rewrite Hy. reflexivity.
  - intros max. unfold bar_row. cbn [name size]. rewrite Hesc. cbn [cbind].
    rewrite BytesFacts.bytes_of_number. apply ok_Ok.
Qed.

Lemma net_rows_chart_entries (l : list value) (rows : list string) :
  cmap (net_row parseURL) l = Ok rows ->
  exists bars, cmap (chart_entry parseURL) l = Ok bars /\
               forall b, In b bars -> forall max, returns (bar_row max b).
Proof.
  revert rows. induction l as [|n l IH]; intros rows H.
  - exists []. split; [reflexivity | intros b []].
  - cbn [cmap] in H. apply cbind_ok in H as (row & Hrow & H).
    apply cbind_ok in H as (rows' & Hrows & _).
    destruct (IH rows' Hrows) as (bars & E & Hb).
    destruct (net_row_chart_entry n row Hrow) as (b & Eb & Hbb).
    exists (b :: bars). split.
    + cbn [cmap]. rewrite Eb, E. reflexivity.
    + intros b' [<-|Hin]; [exact Hbb | now apply Hb].
Qed.

(** The network block once the rows and the chart entries are computed. *)
Lemma render_network_rows (data : value) (l : list value) (nrows : list string)
    (bars : list bar) (p : page) :
  network_requests data = Ok (Arr l) ->
  truthy (Number (of_Z (Z.of_nat (List.length l)))) = true ->
  cmap (net_row parseURL) l = Ok nrows ->
  cmap (chart_entry parseURL) l = Ok bars ->
  (forall b, In b bars -> forall max, returns (bar_row max b)) ->
  let charted := firstn 12 bars in
  let max := Math_max (map size charted ++ [of_Z 1]) in
  render_network parseURL parseHTML data p
  = (Ok tt, set_chart (Some (join (map (bar_text max) charted)))
              (show parseHTML network (network_markup (join nrows)) p)).
Proof.
  intros Hnet Hlen Hrows Hbars Hok charted max.
  unfold render_network. unfold bind at 1, lift at 1. rewrite Hnet.
  unfold bind at 1, lift at 1. cbn [get].
  change ("length" =? "length")%string with true. cbv iota. rewrite Hlen.
  unfold bind at 1, lift at 1. cbn [map_method]. rewrite Hrows.
  change (set_innerHTML parseHTML network (network_markup (join nrows));;;
          set_display network "block";;;
          entries <<- lift (cmap (chart_entry parseURL) l);;
          drawBars parseHTML "netChart" (firstn 12 entries))
    with (bind (set_innerHTML parseHTML network (network_markup (join nrows)))
            (fun _ => bind (set_display network "block")
               (fun _ => bind (lift (cmap (chart_entry parseURL) l))
                  (fun entries => drawBars parseHTML "netChart" (firstn 12 entries))))).
  unfold bind at 1, set_innerHTML at 1. unfold bind at 1, set_display at 1.
  change (update network (fun e => with_display e "block")
            (update network (fun e => with_innerHTML parseHTML e (network_markup (join nrows))) p))
    with (show parseHTML network (network_markup (join nrows)) p).
  unfold bind at 1, lift at 1. rewrite Hbars.
  destruct (chart_after_network parseHTML (network_markup (join nrows)) p
              (network_markup_head _)) as [c0 Hc0].
  apply (drawBars_text parseHTML (firstn 12 bars) _ c0 Hc0).
  intros d Hd. apply Hok.
  rewrite <- (firstn_skipn 12 bars). apply in_or_app. now left.
Qed.

(** The network block writes all of the section or nothing, and what it
    writes does not depend on the page. *)
Lemma render_network_written (data : value) :
  (exists e, forall p, render_network parseURL parseHTML data p = (Throw e, p)) \/
  (forall p, render_network parseURL parseHTML data p = (Ok tt, p)) \/
  (exists l nrows bars,
     network_requests data = Ok (Arr l) /\ l <> [] /\
     cmap (net_row parseURL) l = Ok nrows /\
     cmap (chart_entry parseURL) l = Ok bars /\
     let charted := firstn 12 bars in
     let max := Math_max (map size charted ++ [of_Z 1]) in
     forall p, render_network parseURL parseHTML data p
               = (Ok tt, set_chart (Some (join (map (bar_text max) charted)))
                           (show parseHTML network (network_markup (join nrows)) p))).
Proof.
  destruct (network_requests data) as [net|e] eqn:Hnet;
    [|left; exists e; intros p; unfold render_network, bind, lift; now rewrite Hnet].
  destruct (get net "length") as [len|e] eqn:Hlen;
    [|left; exists e; intros p; unfold render_network, bind, lift; now rewrite Hnet, Hlen].
  destruct (truthy len) eqn:Ht;
    [|right; left; intros p; unfold render_network, bind, lift, ret;
      now rewrite Hnet, Hlen, Ht].
  destruct net as [| | | | |l|];
    try (left; exists TypeError; intros p; unfold render_network, bind, lift;
         rewrite Hnet, Hlen, Ht; reflexivity).
  destruct (cmap (net_row parseURL) l) as [nrows|e] eqn:Hrows.
  - destruct (net_rows_chart_entries l nrows Hrows) as (bars & Hbars & Hok).
    cbn [get] in Hlen. change ("length" =? "length")%string with true in Hlen.
    injection Hlen as <-.
    right. right. exists l, nrows, bars.
    split; [reflexivity|]. split; [intros ->; discriminate Ht|].
    split; [exact Hrows|]. split; [exact Hbars|].
    intros charted max p.
    now apply (render_network_rows data l nrows bars p).
  - left. exists e. intros p. unfold render_network, bind, lift.
    rewrite Hnet, Hlen, Ht. cbn [map_method]. now rewrite Hrows.
Qed.

Lemma render_network_cases (data : value) :
  (exists e, forall p, render_network parseURL parseHTML data p = (Throw e, p)) \/
  (forall p, render_network parseURL parseHTML data p = (Ok tt, p)) \/
  (exists hn c, prefix network_head hn = true /\
                forall p, render_network parseURL parseHTML data p
                          = (Ok tt, set_chart (Some c) (show parseHTML network hn p))).
Proof.
  destruct (render_network_written data)
    as [H|[H|(l & nrows & bars & _ & _ & _ & _ & H)]]; [now left | now right; left |].
  right. right. eexists _, _. split; [apply network_markup_head | exact H].
Qed.

Lemma render_meta_cases (btn : string) (data : value) (name : string) :
  (exists e, forall p, render_meta parseHTML btn data name p = (Throw e, p)) \/
  (exists h, forall p, render_meta parseHTML btn data name p
                       = (Ok tt, show parseHTML meta h p)).
Proof.
  unfold render_meta, bind, lift.
  destruct (m <- get data "metadata";; Ok (Object_assign (or m (Obj [])))) as [md|e];
    [|left; eauto].
  destruct (meta_markup btn md name) as [h|e]; [|left; eauto].
  right. exists h. reflexivity.
Qed.

Lemma render_archive_cases (data : value) :
  (exists e, forall p, render_archive parseHTML data p = (Throw e, p)) \/
  (exists h, forall p, render_archive parseHTML data p
                       = (Ok tt, show parseHTML archive h p)).
Proof.
  unfold render_archive, bind, lift.
  destruct (a <- get data "archive";; map_method (or a (Arr [])) archive_row) as [rows|e];
    [|left; eauto].
  right. eexists. reflexivity.
Qed.

Lemma render_checks_cases (run data : value) :
  (exists e, forall p, render_checks parseHTML run data p = (Throw e, p)) \/
  (exists h, forall p, render_checks parseHTML run data p
                       = (Ok tt, show parseHTML matrix h p)).
Proof.
  unfold render_checks, bind, lift.
  destruct (t <- get data "thumbnails";; Ok (or t (Arr []))) as [thumbs|e]; [|left; eauto].
  destruct (thumbRow_markup run thumbs) as [thumbRow|e]; [|left; eauto].
  destruct (r <- get data "results";; map_method (or r (Arr [])) check_row) as [tests|e];
    [|left; eauto].
  right. eexists. reflexivity.
Qed.

(** The six ways [renderAll] can end; where it stops and what it writes
    depend on the document and on the name of the file only. *)
Lemma renderAll_cases (data : value) (name : string) :
  (exists e, forall p, renderAll parseURL parseHTML data name p = (Throw e, p)) \/
  (exists e hm, forall p, renderAll parseURL parseHTML data name p
                          = (Throw e, show parseHTML meta hm p)) \/
  (exists e hm ha, forall p, renderAll parseURL parseHTML data name p
                             = (Throw e, show parseHTML archive ha (show parseHTML meta hm p))) \/
  (exists e hm ha hx,
     forall p, renderAll parseURL parseHTML data name p
               = (Throw e, show parseHTML matrix hx
                             (show parseHTML archive ha (show parseHTML meta hm p)))) \/
  (exists hm ha hx,
     forall p, renderAll parseURL parseHTML data name p
               = (Ok tt, show parseHTML matrix hx
                           (show parseHTML archive ha (show parseHTML meta hm p)))) \/
  (exists hm ha hx hn c,
     prefix network_head hn = true /\
     forall p, renderAll parseURL parseHTML data name p
               = (Ok tt, set_chart (Some c)
                           (show parseHTML network hn
                              (show parseHTML matrix hx
                                 (show parseHTML archive ha (show parseHTML meta hm p)))))).
Proof.
  destruct (get data "run_id") as [run|e] eqn:E1;
    [|left; exists e; intros p; unfold renderAll, bind, lift; now rewrite E1].
  destruct (previewBtn_markup run) as [btn|e] eqn:E2;
    [|left; exists e; intros p; unfold renderAll, bind, lift; now rewrite E1, E2].
  assert (R : forall p, renderAll parseURL parseHTML data name p
                        = (render_meta parseHTML btn data name ;;;
                           render_archive parseHTML data ;;;
                           render_checks parseHTML run data ;;;
                           render_network parseURL parseHTML data) p).
  { intros p. unfold renderAll. unfold bind at 1, lift at 1. rewrite E1.
    unfold bind at 1, lift at 1. now rewrite E2. }
  destruct (render_meta_cases btn data name) as [[e H]|[hm H]].
  { left. exists e. intros p. rewrite R. unfold bind. now rewrite H. }
  destruct (render_archive_cases data) as [[e H']|[ha H']].
  { right. left. exists e, hm. intros p. rewrite R. unfold bind. now rewrite H, H'. }
  destruct (render_checks_cases run data) as [[e H'']|[hx H'']].
  { right. right. left. exists e, hm, ha. intros p. rewrite R. unfold bind.
    now rewrite H, H', H''. }
  destruct (render_network_cases data) as [[e N]|[N |(hn & c & Hh & N)]].
  - right. right. right. left. exists e, hm, ha, hx. intros p. rewrite R. unfold bind.
    now rewrite H, H', H'', N.
  - right. right. right. right. left. exists hm, ha, hx. intros p. rewrite R. unfold bind.
    now rewrite H, H', H'', N.
  - right. right. right. right. right. exists hm, ha, hx, hn, c. split; [exact Hh|].
    intros p. rewrite R. unfold bind. now rewrite H, H', H'', N.
Qed.

Lemma renderAll_idem data name p :
  renderAll parseURL parseHTML data name (snd (renderAll parseURL parseHTML data name p))
  = renderAll parseURL parseHTML data name p.
Proof.
  destruct (renderAll_cases data name)
    as [[e H]|[(e & hm & H)|[(e & hm & ha & H)|[(e & hm & ha & hx & H)|
        [(hm & ha & hx & H)|(hm & ha & hx & hn & c & Hh & H)]]]]];
    rewrite !H; cbn [snd]; try reflexivity.
  f_equal. f_equal.
  match goal with |- context [set_chart (Some c) ?q] =>
    destruct (set_chart_frame (Some c) q) as (F1 & F2 & F3 & _)
  end.
  apply sections_written; [rewrite F1 | rewrite F2 | rewrite F3]; reflexivity.
Qed.

Lemma render_network_none (data : value) :
  no_requests data = true -> render_network parseURL parseHTML data = ret tt.
Proof.
  intros H. unfold render_network. rewrite (no_requests_network data H). reflexivity.
Qed.

(** Without requests [renderAll] writes nothing to the network container. *)
Lemma renderAll_frame data name p :
  no_requests data = true ->
  p_network (snd (renderAll parseURL parseHTML data name p)) = p_network p.
Proof.
  intros H. unfold renderAll. rewrite (render_network_none data H).
  unfold bind, lift.
  destruct (get data "run_id") as [run|e]; [|reflexivity].
  destruct (previewBtn_markup run) as [btn|e]; [|reflexivity].
  destruct (render_meta_cases btn data name) as [[e Hm]|[hm Hm]]; rewrite Hm; [reflexivity|].
  destruct (render_archive_cases data) as [[e Ha]|[ha Ha]]; rewrite Ha; [reflexivity|].
  destruct (render_checks_cases run data) as [[e Hc]|[hx Hc]]; rewrite Hc; reflexivity.
Qed.

(** The first three blocks of [renderAll] on a document of the expected
    shape. *)
Lemma renderAll_sections data name :
  document_ok data = true ->
  exists btn hm rows thumbRow tests,
    previewBtn_markup (field data "run_id") = Ok btn /\
    meta_markup btn (Object_assign (or (field data "metadata") (Obj []))) name = Ok hm /\
    map_method (or (field data "archive") (Arr [])) archive_row = Ok rows /\
    thumbRow_markup (field data "run_id") (or (field data "thumbnails") (Arr []))
    = Ok thumbRow /\
    map_method (or (field data "results") (Arr [])) check_row = Ok tests /\
    forall p,
      renderAll parseURL parseHTML data name p
      = render_network parseURL parseHTML data
          (show parseHTML matrix (matrix_markup thumbRow (join tests))
             (show parseHTML archive (archive_markup (join rows)) (show parseHTML meta hm p))).
Proof.
  unfold document_ok. destruct data as [| | | | | |o]; try discriminate.
  intros H.
  apply andb_true_iff in H as [H Hres]. apply andb_true_iff in H as [H Hth].
  apply andb_true_iff in H as [H Har]. apply andb_true_iff in H as [Hrun Hmd].
  set (data := Obj o) in *.
  assert (Hget : forall k, get data k = Ok (field data k)) by reflexivity.
  assert (E1 : returns (previewBtn_markup (field data "run_id"))).
  { unfold previewBtn_markup. chain. now apply ok_ToString. }
  destruct E1 as [btn E1].
  destruct (ok_meta_markup btn _ name Hmd) as [hm E2].
  destruct (ok_map_entries _ _ archive_row Har ok_archive_row) as [rows E3].
  assert (E4 : returns (thumbRow_markup (field data "run_id")
                          (or (field data "thumbnails") (Arr [])))).
  { unfold thumbRow_markup.
    apply ok_bind.
    { apply ok_get. unfold or. destruct (truthy (field data "thumbnails")) eqn:T; [|reflexivity].
      destruct (field data "thumbnails"); try discriminate T; reflexivity. }
    intros len _. destruct (truthy len); [|apply ok_Ok].
    apply ok_bind; [|intros; apply ok_Ok].
    apply (ok_map_entries _ _ _ Hth). intros. now apply ok_thumb_figure. }
  destruct E4 as [thumbRow E4].
  destruct (ok_map_entries _ _ check_row Hres ok_check_row) as [tests E5].
  exists btn, hm, rows, thumbRow, tests. repeat split; try assumption.
  intros p. unfold renderAll, render_meta, render_archive, render_checks.
  unfold bind, lift.
  repeat (first [rewrite Hget | rewrite E1 | rewrite E2 | rewrite E3 | rewrite E4 | rewrite E5];
          cbn [cbind]).
  reflexivity.
Qed.

End Render.
End RenderFacts.

(* ===================================================================== *)
(** * The upload controller and the sections *)
(* ===================================================================== *)

Module UploadFacts.
Import Num Str JS Dom App Props OkFacts RenderFacts.

Lemma upload_json (parseURL : string -> option URL)
    (parseHTML : string -> option string) f ok data p :
  upload parseURL parseHTML f (Json ok data) p
  = (failed <<- lift (if negb ok then Ok true
                      else e <- get data "error" ;; Ok (truthy e)) ;;
     if failed then e <<- lift (get data "error") ;; alert (or e (Str "Upload failed"))
     else renderAll parseURL parseHTML data f) (clear_sections p).
Proof. reflexivity. Qed.

(** The outcome of [upload] for each answer of the server. *)
Lemma upload_result (parseURL : string -> option URL)
    (parseHTML : string -> option string) (f : string) (r : response) (p : page) :
  upload parseURL parseHTML f r p
  = match r with
    | NetworkFailure => (Throw TypeError, clear_sections p)
    | NotJson _ => (Throw SyntaxError, clear_sections p)
    | Json ok data =>
        match get data "error" with
        | Throw err => (Throw err, clear_sections p)
        | Ok e =>
            if negb ok || truthy e then
              match ToString (or e (Str "Upload failed")) with
              | Ok msg => (Ok tt, notify msg (clear_sections p))
              | Throw err => (Throw err, clear_sections p)
              end
            else renderAll parseURL parseHTML data f (clear_sections p)
        end
    end.
Proof.
  destruct r as [|ok|ok data]; try reflexivity.
  rewrite upload_json. unfold bind, lift.
  destruct ok; cbn [negb orb].
  - destruct (get data "error") as [e|e]; cbn [cbind]; [|reflexivity].
    destruct (truthy e); [|reflexivity].
    unfold alert. destruct (ToString _); reflexivity.
  - destruct (get data "error") as [e|e]; [|reflexivity].
    unfold alert. destruct (ToString _); reflexivity.
Qed.

End UploadFacts.

(* ===================================================================== *)
(** * The tables of the archive and of the checks *)
(* ===================================================================== *)

Module TableFacts.
Import Num Str JS Dom App Props Terms OkFacts PageFacts RenderFacts.

Lemma prefix_same (a b : string) : prefix a (a ++ b) = true.
Proof.
  induction a as [|c a IH]; cbn; [destruct b; reflexivity|].
  destruct (Ascii.ascii_dec c c); [exact IH | congruence].
Qed.

Lemma prefix_cancel (a b c : string) : prefix (a ++ b) (a ++ c) = prefix b c.
Proof.
  induction a as [|x a IH]; cbn; [reflexivity|].
  destruct (Ascii.ascii_dec x x); [exact IH | congruence].
Qed.

Lemma field_get (e : value) (k : string) : nullish e = false -> get e k = Ok (field e k).
Proof. intros H. unfold field. destruct e; try discriminate H; reflexivity. Qed.

Lemma printable_escaped (v : value) : printable v = true -> esc v = Ok (escaped v).
Proof. intros H. unfold escaped. destruct (ok_esc v H) as [s ->]. reflexivity. Qed.

Lemma printable_size_text (v : value) : printable v = true -> bytes v = Ok (size_text v).
Proof. intros H. unfold size_text. destruct (ok_bytes v H) as [s ->]. reflexivity. Qed.

Lemma printable_text_of (v : value) : printable v = true -> ToString v = Ok (text_of v).
Proof. intros H. unfold text_of. destruct (ok_ToString v H) as [s ->]. reflexivity. Qed.

Lemma field_printable (e : value) (keys : list string) (k : string) :
  forallb (field_ok e) keys = true -> In k keys -> printable (field e k) = true.
Proof.
  intros H Hk. rewrite forallb_forall in H. apply H in Hk.
  unfold field_ok in Hk. now apply andb_true_iff in Hk as [_ ?].
Qed.

Lemma archive_row_template (e : value) :
  nullish e = false -> forallb (field_ok e) ["name"; "size"; "compressed"] = true ->
  archive_row e = Ok (archive_row_text e).
Proof.
  intros Hn H. unfold archive_row, archive_row_text.
  rewrite !(field_get e _ Hn). cbn [cbind].
  rewrite (printable_escaped _ (field_printable e _ "name" H ltac:(cbn; tauto))).
  rewrite (printable_size_text _ (field_printable e _ "size" H ltac:(cbn; tauto))).
  rewrite (printable_size_text _ (field_printable e _ "compressed" H ltac:(cbn; tauto))).
  reflexivity.
Qed.

Lemma check_row_template (r : value) :
  nullish r = false ->
  forallb (field_ok r) ["category"; "label"; "status"; "value"; "help"] = true ->
  check_row r = Ok (check_row_text r).
Proof.
  intros Hn H. unfold check_row, check_row_text.
  rewrite !(field_get r _ Hn). cbn [cbind].
  assert (Hc : printable (or (field r "category") (Str "-")) = true).
  { apply printable_or; [|reflexivity].
    exact (field_printable r _ "category" H ltac:(cbn; tauto)). }
  rewrite (printable_escaped _ Hc).
  rewrite (printable_escaped _ (field_printable r _ "label" H ltac:(cbn; tauto))).
  rewrite (printable_text_of _ (field_printable r _ "status" H ltac:(cbn; tauto))).
  rewrite (printable_escaped _ (field_printable r _ "value" H ltac:(cbn; tauto))).
  cbn [cbind].
  destruct (truthy (field r "help")); [|reflexivity].
  rewrite (printable_escaped _ (field_printable r _ "help" H ltac:(cbn; tauto))).
  reflexivity.
Qed.

Lemma map_entries_template (keys : list string) (v : value)
    (f : value -> completion string) (g : value -> string) :
  entries_ok keys v = true ->
  (forall e, nullish e = false -> forallb (field_ok e) keys = true -> f e = Ok (g e)) ->
  map_method (or v (Arr [])) f = Ok (map g (entries_of v)).
Proof.
  intros H Hf. unfold entries_ok in H.
  destruct v; try (apply negb_true_iff in H; unfold or; rewrite H; reflexivity).
  unfold or. cbn [truthy map_method entries_of].
  apply ChartFacts.cmap_ok. intros e He. rewrite forallb_forall in H.
  apply H in He. apply andb_true_iff in He as [Hn Hk].
  apply negb_true_iff in Hn. now apply Hf.
Qed.

(** The markup of the metadata section opens with its heading and the
    preview link. *)
Lemma meta_markup_opening (run : value) (btn : string) (md : fresh_object) (name hm : string) :
  previewBtn_markup run = Ok btn -> meta_markup btn md name = Ok hm ->
  prefix meta_opening hm = true.
Proof.
  unfold previewBtn_markup, meta_markup. intros Hb Hm.
  apply cbind_ok in Hb as (r & _ & Hb). injection Hb as <-.
  repeat (apply cbind_ok in Hm as (? & _ & Hm)). injection Hm as <-.
  match goal with
  | |- context [(r ++ ?t) ++ ?d] =>
      change (prefix meta_opening (meta_opening ++ ((r ++ t) ++ d)) = true)
  end.
  apply prefix_same.
Qed.

Section Tables.
Variable parseURL : string -> option URL.
Variable parseHTML : string -> option string.

(** The first three blocks of [renderAll] on a document of the expected
    shape, with the tables written out. *)
Lemma renderAll_tables (data : value) (name : string) :
  document_ok data = true ->
  exists hm thumbRow,
    prefix meta_opening hm = true /\
    (truthy (field data "thumbnails") = false -> thumbRow = "") /\
    forall p,
      renderAll parseURL parseHTML data name p
      = render_network parseURL parseHTML data
          (show parseHTML matrix (checks_text thumbRow (entries_of (field data "results")))
             (show parseHTML archive (archive_text (entries_of (field data "archive")))
                (show parseHTML meta hm p))).
Proof.
  intros Hd.
  destruct (renderAll_sections parseURL parseHTML data name Hd)
    as (btn & hm & rows & thumbRow & tests & Hb & Hm & Hrows & Hth & Htests & Hr).
  unfold document_ok in Hd. destruct data as [| | | | | |o]; try discriminate.
  apply andb_true_iff in Hd as [Hd Hres]. apply andb_true_iff in Hd as [Hd _].
  apply andb_true_iff in Hd as [_ Har].
  rewrite (map_entries_template _ _ archive_row archive_row_text Har archive_row_template)
    in Hrows.
  rewrite (map_entries_template _ _ check_row check_row_text Hres check_row_template)
    in Htests.
  injection Hrows as <-. injection Htests as <-.
  exists hm, thumbRow. split; [exact (meta_markup_opening _ _ _ _ _ Hb Hm)|]. split.
  - intros Ht. unfold or in Hth. rewrite Ht in Hth. cbn in Hth. now injection Hth as <-.
  - exact Hr.
Qed.

End Tables.
End TableFacts.




(** C2, as amended. Given a parsed body other than [null], with [e] its
    [error] field ([undefined] when absent): the response is a success, and
    the document is rendered on the cleared page, exactly when the status is
    a success and [e] is falsy. Otherwise the four section containers stay
    cleared and hidden, and the message is [e] when [e] is truthy and
    "Upload failed" when not: when the message can be converted to a
    string, exactly one notification is added, with that text; when it
    cannot, [upload] throws and no notification is shown. *)
Theorem upload_outcome (parseURL : string -> option URL)
    (parseHTML : string -> option string) (f : string) (ok : bool)
    (data e : value) (p : page) :
  JS.get data "error" = Ok e ->
  (ok = true /\ JS.truthy e = false ->
   App.upload parseURL parseHTML f (Json ok data) p
   = App.renderAll parseURL parseHTML data f (Props.clear_sections p)) /\
  (ok = false \/ JS.truthy e = true ->
   match JS.ToString (JS.or e (Str "Upload failed")) with
   | Ok msg => App.upload parseURL parseHTML f (Json ok data) p
               = (Ok tt, Props.notify msg (Props.clear_sections p))
   | Throw err => App.upload parseURL parseHTML f (Json ok data) p
                  = (Throw err, Props.clear_sections p)
   end) /\
  (forall s, e = Str s -> s <> "" -> JS.ToString (JS.or e (Str "Upload failed")) = Ok s) /\
  (JS.truthy e = false -> JS.ToString (JS.or e (Str "Upload failed")) = Ok "Upload failed") /\
  (JS.truthy e = true -> JS.or e (Str "Upload failed") = e).
Proof.
  intros He. repeat split.
  - intros [-> Ht]. rewrite UploadFacts.upload_result, He, Ht. reflexivity.
  - intros Hf. rewrite UploadFacts.upload_result, He.
    assert (E : negb ok || JS.truthy e = true).
    { destruct Hf as [-> | ->]; [reflexivity | apply orb_true_r]. }
    rewrite E. destruct (JS.ToString _); reflexivity.
  - intros s -> Hs. unfold JS.or. cbn. destruct s; [congruence | reflexivity].
  - intros Ht. unfold JS.or. now rewrite Ht.
  - intros Ht. unfold JS.or. now rewrite Ht.
Qed.

Lemma upload_outcome_witness :
  App.upload Sample.plainURL Sample.plainHTML "ad.zip"
    (Json false (Obj [("error", Str "not a zip")])) Sample.start_page
  = (Ok tt, Props.notify "not a zip" (Props.clear_sections Sample.start_page)) /\
  App.upload Sample.plainURL Sample.plainHTML "ad.zip"
    (Json true (Obj [("error", Sample.unprintable)])) Sample.start_page
  = (Throw TypeError, Props.clear_sections Sample.start_page).
Proof.
  split.
  - exact (proj1 (proj2 (upload_outcome Sample.plainURL Sample.plainHTML "ad.zip" false
                           (Obj [("error", Str "not a zip")]) (Str "not a zip")
                           Sample.start_page eq_refl)) (or_introl eq_refl)).
  - exact (proj1 (proj2 (upload_outcome Sample.plainURL Sample.plainHTML "ad.zip" true
                           (Obj [("error", Sample.unprintable)]) Sample.unprintable
                           Sample.start_page eq_refl)) (or_intror eq_refl)).
Defined.

(** C2, counterexample. A body with a success status and an [error] field
    holding the empty string is rendered as a success, without any
    notification; a body whose [error] field is an object with a binding
    named [toString] is a failure without any notification, [alert] throws
    on it; and a [null] body with a failure status is never notified, the
    read of its [error] field throws. *)
Lemma upload_counterexample :
  JS.lookup "error" [("run_id", Str "r1"); ("error", Str "")] = Some (Str "") /\
  (let r := App.upload Sample.plainURL Sample.plainHTML "ad.zip"
              (Json true Sample.body_empty_error) Sample.start_page in
   fst r = Ok tt /\ alerts (snd r) = [] /\ display (p_meta (snd r)) = "block" /\
   innerHTML (p_archive (snd r)) <> "") /\
  (let r := App.upload Sample.plainURL Sample.plainHTML "ad.zip"
              (Json false (Obj [("error", Sample.unprintable)])) Sample.start_page in
   fst r = Throw TypeError /\ alerts (snd r) = []) /\
  App.upload Sample.plainURL Sample.plainHTML "ad.zip" (Json false Null) Sample.start_page
  = (Throw TypeError, Props.clear_sections Sample.start_page).
Proof. vm_compute. repeat split. discriminate. Qed.

(** C8. Rendering holds no state: rendering a document again on the page
    the first rendering left gives the same outcome and the same page; and
    what an upload of a given response leaves in the four section
    containers and in the chart does not depend on the page it started
    from, so two identical responses in succession give identical
    markup. The document is a value of the embedding, which renders by
    reading it only. *)
Theorem render_twice (parseURL : string -> option URL)
    (parseHTML : string -> option string) (data : value) (name : string) :
  (forall p, App.renderAll parseURL parseHTML data name
               (snd (App.renderAll parseURL parseHTML data name p))
             = App.renderAll parseURL parseHTML data name p) /\
  (forall ok p p',
     let a := App.upload parseURL parseHTML name (Json ok data) p in
     let b := App.upload parseURL parseHTML name (Json ok data) p' in
     fst a = fst b /\ p_meta (snd a) = p_meta (snd b) /\
     p_archive (snd a) = p_archive (snd b) /\ p_matrix (snd a) = p_matrix (snd b) /\
     p_network (snd a) = p_network (snd b) /\ p_netChart (snd a) = p_netChart (snd b)).
Proof.
  split.
  - intros p. apply RenderFacts.renderAll_idem.
  - intros ok p p' a b. subst a b. rewrite !UploadFacts.upload_result.
    destruct (JS.get data "error") as [e|e]; [|repeat split].
    destruct (negb ok || JS.truthy e).
    + destruct (JS.ToString _); repeat split.
    + destruct (RenderFacts.renderAll_cases parseURL parseHTML data name)
        as [[e' H]|[(e' & hm & H)|[(e' & hm & ha & H)|[(e' & hm & ha & hx & H)|
            [(hm & ha & hx & H)|(hm & ha & hx & hn & c & Hh & H)]]]]];
        rewrite !H; cbn [fst snd]; try (repeat split; fail).
      split; [reflexivity|].
      apply PageFacts.set_chart_sections; reflexivity.
Qed.
(* ===================================================================== *)
(** * The formatter: [short] *)
(* ===================================================================== *)

Module ShortFacts.
Import Num Str JS Dom App Props OkFacts.

Section Short.
Variable parseURL : string -> option URL.

Lemma short_string (s : string) :
  short parseURL (Str s)
  = Ok (Str (slice0 60 match parseURL s with
                       | Some x => hostname x ++ pathname x
                       | None => s
                       end)).
Proof.
  unfold short. cbn [ToString cbind].
  destruct (parseURL s) as [x|].
  - destruct (String.eqb_spec (pathname x) "") as [E|E]; [rewrite E|]; reflexivity.
  - unfold or. cbn [truthy]. destruct s; reflexivity.
Qed.

Lemma short_plain (v : value) :
  match v with Str _ | Undefined | Null => True | _ => False end ->
  exists s, short parseURL v = Ok (Str s).
Proof.
  destruct v; intros H; try contradiction.
  - unfold short. cbn [ToString cbind]. destruct (parseURL _) as [x|]; [eauto|].
    exists "". reflexivity.
  - unfold short. cbn [ToString cbind]. destruct (parseURL _) as [x|]; [eauto|].
    exists "". reflexivity.
  - rewrite short_string. eauto.
Qed.

Lemma short_throws (v : value) :
  truthy v = true ->
  match v with Number _ | Bool _ | Obj _ => True | _ => False end ->
  match ToString v with Ok s => parseURL s = None | Throw _ => True end ->
  short parseURL v = Throw TypeError.
Proof.
  intros Ht Hv Hp. unfold short.
  assert (E : slice_method (or v (Str "")) 60 = Throw TypeError).
  { unfold or. rewrite Ht. destruct v; try contradiction; reflexivity. }
  destruct (ToString v) as [s|e] eqn:Es; cbn [cbind]; [|exact E].
  rewrite Hp. exact E.
Qed.

End Short.
End ShortFacts.

(** C9. On a string [short] never throws: it gives the host name followed
    by the path name, cut to 60 characters, when the string parses as a
    URL, and the string itself cut to 60 characters when it does not; on
    [null] and [undefined] it gives a string too. But on a number other
    than 0 and NaN, on [true] and on an object, the text of which is no
    URL, the fallback calls [slice] on a value that has none and [short]
    throws. *)
Theorem short_outcomes (parseURL : string -> option URL) :
  (forall s, App.short parseURL (Str s)
             = Ok (Str (Str.slice0 60 match parseURL s with
                                      | Some x => hostname x ++ pathname x
                                      | None => s
                                      end))) /\
  (exists s, App.short parseURL Undefined = Ok (Str s)) /\
  (exists s, App.short parseURL Null = Ok (Str s)) /\
  (forall v,
     JS.truthy v = true ->
     match v with Number _ | Bool _ | Obj _ => True | _ => False end ->
     match JS.ToString v with Ok s => parseURL s = None | Throw _ => True end ->
     App.short parseURL v = Throw TypeError).
Proof.
  split; [apply ShortFacts.short_string|].
  split; [apply ShortFacts.short_plain; exact I|].
  split; [apply ShortFacts.short_plain; exact I|].
  apply ShortFacts.short_throws.
Qed.

Lemma short_outcomes_witness :
  JS.truthy (Number (Num.of_Z 42)) = true /\
  Sample.plainURL "42" = None /\
  App.short Sample.plainURL (Number (Num.of_Z 42)) = Throw TypeError.
Proof.
  split; [vm_compute; reflexivity|]. split; [vm_compute; reflexivity|].
  refine (proj2 (proj2 (proj2 (short_outcomes Sample.plainURL)))
            (Number (Num.of_Z 42)) _ I _).
  - vm_compute. reflexivity.
  - vm_compute. reflexivity.
Defined.

(** C1. The status of a check, the [run_id], the fields of a thumbnail and
    the status of a network request reach the markup as they are: a text
    that closes the attribute and opens a script element is found verbatim
    in the markup of the section, whereas the same text in a field that
    goes through [esc], the label of a check, is not. *)
Theorem unescaped_fields :
  let rendered := fun doc => snd (App.renderAll Sample.plainURL Sample.plainHTML doc "ad.zip"
                                    Sample.start_page) in
  Props.well_escaped Sample.payload = false /\
  Str.contains Sample.payload (innerHTML (p_matrix (rendered Sample.doc_status))) = true /\
  Str.contains Sample.payload (innerHTML (p_meta (rendered Sample.doc_run_id))) = true /\
  Str.contains Sample.payload (innerHTML (p_matrix (rendered Sample.doc_thumbnail))) = true /\
  Str.contains Sample.payload (innerHTML (p_network (rendered Sample.doc_request_status))) = true /\
  Str.contains Sample.payload (innerHTML (p_matrix (rendered Sample.doc_label))) = false /\
  App.check_row (Obj [("label", Str "SSL"); ("value", Str "Pass"); ("status", Str Sample.payload)])
  = Ok (Str.html "
    <tr>
      <td>-</td>
      <td>SSL</td>
      <td class=`ta-r`><span class=`badge " ++ Sample.payload ++ Str.html "`>Pass</span>
        </td>
    </tr>").
Proof. vm_compute. repeat split. Qed.

(* ===================================================================== *)
(** * The network section *)
(* ===================================================================== *)

Module NetworkFacts.
Import Num Str JS Dom App Props Terms OkFacts PageFacts.

Lemma Ok_inj {A} (a b : A) : Ok a = Ok b -> a = b.
Proof. now intros [= ->]. Qed.

Lemma bar_text_string (max : num) (s : string) (x : num) :
  bar_text max {| name := Str s; size := x |}
  = bar_markup (escaped (Str s)) (bar_width max {| name := Str s; size := x |}) (bytes_of x).
Proof. unfold bar_text. rewrite ChartFacts.bar_row_string. reflexivity. Qed.

Lemma ok_bar_row (max : num) (d : bar) :
  (exists s, name d = Str s) -> returns (bar_row max d).
Proof.
  intros [s E]. unfold bar_row. rewrite E, EscFacts.esc_string. cbn [cbind].
  rewrite BytesFacts.bytes_of_number. apply ok_Ok.
Qed.

Section Network.
Variable parseURL : string -> option URL.

Lemma request_fields (n : value) :
  request_ok n = true ->
  nullish n = false /\
  (forall k, get n k = Ok (field n k)) /\
  match field n "url" with Str _ | Undefined | Null => True | _ => False end /\
  forallb (field_ok n) ["status"; "protocol"; "enc"; "bytes"; "type"] = true.
Proof.
  unfold request_ok. intros H.
  apply andb_true_iff in H as [H Hf]. apply andb_true_iff in H as [Hn Hu].
  apply negb_true_iff in Hn. repeat split; try assumption.
  - intros k. unfold field. destruct n; try discriminate Hn; reflexivity.
  - destruct (field n "url"); try discriminate Hu; exact I.
Qed.

Lemma printable_field (n : value) (keys : list string) (k : string) :
  forallb (field_ok n) keys = true -> In k keys -> printable (field n k) = true.
Proof.
  intros H Hk. rewrite forallb_forall in H. apply H in Hk.
  unfold field_ok in Hk. now apply andb_true_iff in Hk as [_ ?].
Qed.

Lemma ok_net_row (n : value) : request_ok n = true -> returns (net_row parseURL n).
Proof.
  intros H. destruct (request_fields n H) as (Hn & Hget & Hu & Hf).
  destruct (ShortFacts.short_plain parseURL _ Hu) as [s Es].
  unfold net_row. rewrite !Hget. cbn [cbind]. rewrite Es. cbn [cbind].
  assert (Hp : forall k, In k ["status"; "protocol"; "enc"; "bytes"; "type"] ->
                         printable (field n k) = true)
    by (intros; eapply printable_field; eauto).
  chain; try (destruct (truthy _)); try apply ok_Ok;
    first [ apply ok_ToString | apply ok_bytes | idtac ];
    repeat first [apply printable_coalesce | apply printable_or];
    try reflexivity; try (apply Hp; cbn; tauto).
Qed.

Lemma chart_entry_spec (n : value) :
  request_ok n = true ->
  exists s, short parseURL (field n "url") = Ok (Str s) /\
            chart_entry parseURL n
            = Ok {| name := Str s; size := magnitude (field n "bytes") |}.
Proof.
  intros H. destruct (request_fields n H) as (Hn & Hget & Hu & Hf).
  destruct (ShortFacts.short_plain parseURL _ Hu) as [s Es].
  exists s. split; [exact Es|].
  unfold chart_entry. rewrite !Hget. cbn [cbind]. rewrite Es. cbn [cbind].
  unfold magnitude.
  assert (Hp : printable (or (field n "bytes") (Number zero)) = true).
  { apply printable_or; [|reflexivity]. eapply printable_field; [exact Hf | cbn; tauto]. }
  destruct (ok_ToNumber _ Hp) as [x ->]. reflexivity.
Qed.

(** A row of the network table opens with the escaped shortened URL. *)
Lemma net_row_prefix (n : value) (row s : string) :
  nullish n = false -> short parseURL (field n "url") = Ok (Str s) ->
  net_row parseURL n = Ok row ->
  prefix (net_row_opening (replace_special s)) row = true.
Proof.
  intros Hn Hs H. unfold net_row in H.
  rewrite (TableFacts.field_get n "url" Hn) in H. cbn [cbind] in H.
  rewrite Hs in H. cbn [cbind] in H. rewrite EscFacts.esc_string in H. cbn [cbind] in H.
  apply RenderFacts.cbind_ok in H as (status & _ & H).
  apply RenderFacts.cbind_ok in H as (protocol & _ & H).
  apply RenderFacts.cbind_ok in H as (enc & _ & H).
  apply RenderFacts.cbind_ok in H as (sz & _ & H).
  apply RenderFacts.cbind_ok in H as (type & _ & H).
  apply Ok_inj in H. subst row. unfold net_row_opening.
  rewrite !TableFacts.prefix_cancel. apply prefix_app. vm_compute. reflexivity.
Qed.

End Network.
End NetworkFacts.

Module LengthFacts.
Import Num Str JS Dom App Props NumFacts.

Lemma digits2_iter_xO (m k : positive) :
  Zpos (digits2_pos (Pos.iter xO m k)) = Zpos (digits2_pos m) + Zpos k.
Proof.
  induction k as [|k IH] using Pos.peano_ind.
  - cbn [Pos.iter digits2_pos]. lia.
  - rewrite Pos.iter_succ. cbn [digits2_pos]. lia.
Qed.

(** A full mantissa with an exponent in range is its own rounding. *)
Lemma round_normal (m : positive) (e : Z) :
  Zpos (digits2_pos m) = 53 -> -1074 <= e <= 971 ->
  binary_round_aux prec emax false (Zpos m) e loc_Exact = S754_finite false m e.
Proof.
  intros Hm He. unfold binary_round_aux, shr_fexp.
  cbn [Zdigits2 shr_record_of_loc]. rewrite Hm.
  unfold fexp, emin, prec, emax.
  replace (Z.max (53 + e - 53) (3 - 1024 - 53) - e) with 0 by lia.
  cbn [shr shr_m loc_of_shr_record round_nearest_even Zdigits2].
  rewrite Hm.
  replace (Z.max (53 + e - 53) (3 - 1024 - 53) - e) with 0 by lia.
  cbn [shr shr_m].
  destruct (Z.leb_spec e (1024 - 53)); [reflexivity | lia].
Qed.

(** A positive integer below 2^53 is a finite number other than zero. *)
Lemma of_Z_small (z : Z) :
  0 < z < 2 ^ 53 -> exists m e, of_Z z = S754_finite false m e.
Proof.
  intros Hz. destruct z as [|m|m]; try lia.
  pose proof (digits2_pos_bounds m) as [Hlo _].
  assert (Hd : Zpos (digits2_pos m) <= 53).
  { destruct (Z.le_gt_cases (Zpos (digits2_pos m)) 53) as [H|H]; [exact H|].
    assert (2 ^ 53 <= 2 ^ (Zpos (digits2_pos m) - 1)) by (apply Z.pow_le_mono_r; lia).
    lia. }
  unfold of_Z, binary_normalize, binary_round, shl_align.
  unfold fexp at 1, emin, prec, emax.
  replace (Z.max (Zpos (digits2_pos m) + 0 - 53) (3 - 1024 - 53) - 0)
    with (Zpos (digits2_pos m) - 53) by lia.
  destruct (Zpos (digits2_pos m) - 53) as [|k|k] eqn:Ek; try lia.
  - eexists _, _. apply round_normal; lia.
  - eexists _, _.
    replace (fexp 53 1024 (Z.pos (digits2_pos m) + 0)) with (Z.neg k)
      by (unfold fexp, emin; lia).
    apply round_normal; [|lia].
    rewrite digits2_iter_xO. lia.
Qed.

Lemma length_truthy {A} (l : list A) :
  l <> [] -> Z.of_nat (List.length l) < 2 ^ 32 ->
  truthy (Number (of_Z (Z.of_nat (List.length l)))) = true.
Proof.
  intros Hl Hb.
  destruct (of_Z_small (Z.of_nat (List.length l))) as (m & e & ->); [|reflexivity].
  destruct l; [congruence|]. cbn [List.length] in *.
  change (2 ^ 32) with 4294967296 in Hb. change (2 ^ 53) with 9007199254740992. lia.
Qed.

End LengthFacts.

(** C6, as amended. The magnitude of a request is 0 when its [bytes] is
    missing or falsy, the number itself when it is a number, and the number
    a numeric text reads as. For a non-empty list of requests that can be
    read (each one an object whose [url] is a string or is absent and whose
    other fields can be converted to strings), the table has one row per
    request, in order, each opening with the escaped shortened URL; the
    chart entries are the shortened URL and the magnitude of each request,
    in order; the chart is drawn from the first 12 of them, one bar per
    entry, in the first element of the page whose id is [netChart]. *)
Theorem network_section (parseURL : string -> option URL)
    (parseHTML : string -> option string) :
  (forall b, JS.truthy b = false -> Props.magnitude b = Num.zero) /\
  (forall x, JS.truthy (Number x) = true -> Props.magnitude (Number x) = x) /\
  (forall s, s <> "" -> Num.is_nan (Parse.StringToNumber s) = false ->
             Props.magnitude (Str s) = Parse.StringToNumber s) /\
  forall data l p,
    Props.has_requests data l -> Forall (fun n => Props.request_ok n = true) l ->
    exists nrows bars,
      List.length nrows = List.length l /\
      Forall2 (fun n row =>
                 exists s, App.short parseURL (Props.field n "url") = Ok (Str s) /\
                           String.prefix (Terms.net_row_opening (App.replace_special s)) row
                           = true) l nrows /\
      Forall2 (fun n b => App.short parseURL (Props.field n "url") = Ok (name b) /\
                          size b = Props.magnitude (Props.field n "bytes")) l bars /\
      let charted := firstn 12 bars in
      let max := Num.Math_max (map size charted ++ [Num.of_Z 1]) in
      let chart :=
        Str.join (map (fun b => App.bar_markup (Terms.escaped (name b)) (App.bar_width max b)
                                               (Props.bytes_of (size b))) charted) in
      List.length charted = Nat.min 12 (List.length l) /\
      App.render_network parseURL parseHTML data p
      = (Ok tt, Dom.set_chart (Some chart)
                  (Props.show parseHTML network (Terms.network_text nrows) p)) /\
      p_netChart (snd (App.render_network parseURL parseHTML data p)) = Some chart.
Proof.
  split; [|split; [|split]].
  - intros b Hb. unfold Props.magnitude, JS.or. now rewrite Hb.
  - intros x Hx. unfold Props.magnitude, JS.or. now rewrite Hx.
  - intros s Hs _. destruct s; [congruence | reflexivity].
  - intros data l p (r & Hr & Hl & Hne & Hlen) Hok.
    assert (Hrows : exists nrows,
               cmap (App.net_row parseURL) l = Ok nrows /\
               Forall2 (fun n row =>
                          exists s, App.short parseURL (Props.field n "url") = Ok (Str s) /\
                                    String.prefix
                                      (Terms.net_row_opening (App.replace_special s)) row
                                    = true) l nrows).
    { clear Hl Hne Hlen. induction Hok as [|n l Hn _ IH].
      - exists []. split; constructor.
      - destruct IH as (nrows & E & F).
        destruct (NetworkFacts.ok_net_row parseURL n Hn) as [row Hrow].
        destruct (NetworkFacts.chart_entry_spec parseURL n Hn) as (s & Es & _).
        destruct (NetworkFacts.request_fields n Hn) as (Hnn & _).
        exists (row :: nrows). cbn [cmap]. rewrite Hrow, E. cbn [cbind].
        split; [reflexivity|]. constructor; [|exact F].
        exists s. split; [exact Es|].
        exact (NetworkFacts.net_row_prefix parseURL n row s Hnn Es Hrow). }
    destruct Hrows as (nrows & Hrows & HR).
    assert (Hbars : exists bars,
               cmap (App.chart_entry parseURL) l = Ok bars /\
               Forall2 (fun n b => App.short parseURL (Props.field n "url") = Ok (name b) /\
                                   size b = Props.magnitude (Props.field n "bytes") /\
                                   exists s, name b = Str s) l bars).
    { clear Hrows HR Hl Hne Hlen. induction Hok as [|n l Hn _ IH].
      - exists []. split; constructor.
      - destruct IH as (bars & E & F).
        destruct (NetworkFacts.chart_entry_spec parseURL n Hn) as (s & Es & Ec).
        eexists (_ :: bars). cbn [cmap]. rewrite Ec, E. cbn [cbind].
        split; [reflexivity|]. constructor; [|exact F]. cbn [name size]. eauto. }
    destruct Hbars as (bars & Hbars & HF).
    assert (Hstr : forall b, In b bars -> exists s, name b = Str s).
    { clear -HF. induction HF as [|n b l bars (_ & _ & Hs) _ IH]; [intros b []|].
      intros b' [<-|Hin]; [exact Hs | now apply IH]. }
    exists nrows, bars.
    split; [exact (ChartFacts.cmap_length _ _ _ Hrows)|].
    split; [exact HR|].
    split.
    { eapply Forall2_impl; [|exact HF]. cbv beta. intros n b (H1 & H2 & _). now split. }
    intros charted max chart.
    split.
    { subst charted. rewrite length_firstn, (ChartFacts.cmap_length _ _ _ Hbars). reflexivity. }
    assert (Hnet : App.network_requests data = Ok (Arr l)).
    { unfold App.network_requests. rewrite Hr. cbn [cbind JS.truthy JS.get]. rewrite Hl.
      reflexivity. }
    assert (Hin : forall b, In b charted -> In b bars).
    { intros b Hb. rewrite <- (firstn_skipn 12 bars). apply in_or_app. now left. }
    assert (E : App.render_network parseURL parseHTML data p
                = (Ok tt, Dom.set_chart (Some chart)
                            (Props.show parseHTML network (Terms.network_text nrows) p))).
    { rewrite (RenderFacts.render_network_rows parseURL parseHTML data l nrows bars p Hnet
                 (LengthFacts.length_truthy l Hne Hlen) Hrows Hbars).
      - fold charted. fold max. f_equal. f_equal. f_equal. subst chart. f_equal.
        apply map_ext_in. intros b Hb. destruct (Hstr b (Hin b Hb)) as [s Hs].
        destruct b as [nm sz]. cbn [name] in Hs. subst nm.
        apply NetworkFacts.bar_text_string.
      - intros b Hb mx. apply NetworkFacts.ok_bar_row. now apply Hstr. }
    split; [exact E|].
    rewrite E. cbn [snd].
    destruct (PageFacts.chart_after_network parseHTML (Terms.network_text nrows) p
                (PageFacts.network_markup_head _)) as [c0 Hc0].
    exact (PageFacts.chart_drawn chart c0 _ Hc0).
Qed.

Lemma network_section_witness :
  Props.has_requests Sample.doc_thirteen Sample.thirteen /\
  Forall (fun n => Props.request_ok n = true) Sample.thirteen /\
  exists nrows bars,
    List.length nrows = 13%nat /\ List.length bars = 13%nat /\
    List.length (firstn 12 bars) = 12%nat /\
    Forall2 (fun n b => App.short Sample.plainURL (Props.field n "url") = Ok (name b) /\
                        size b = Props.magnitude (Props.field n "bytes"))
            Sample.thirteen bars /\
    innerHTML (p_network (snd (App.render_network Sample.plainURL Sample.plainHTML
                                 Sample.doc_thirteen Sample.start_page)))
    = Terms.network_text nrows.
Proof.
  assert (H1 : Props.has_requests Sample.doc_thirteen Sample.thirteen).
  { eexists. split; [reflexivity|]. split; [reflexivity|]. split; [discriminate|].
    vm_compute. reflexivity. }
  assert (H2 : Forall (fun n => Props.request_ok n = true) Sample.thirteen).
  { repeat constructor. }
  split; [exact H1|]. split; [exact H2|].
  destruct (proj2 (proj2 (proj2 (network_section Sample.plainURL Sample.plainHTML)))
              Sample.doc_thirteen Sample.thirteen Sample.start_page H1 H2)
    as (nrows & bars & Ha & _ & Hc & Hd & He & _).
  exists nrows, bars.
  split; [exact Ha|].
  split; [symmetry; exact (Forall2_length Hc)|].
  split; [exact Hd|]. split; [exact Hc|].
  rewrite He. cbn [snd].
  exact (proj2 (proj2 (proj2 (proj2 (proj2 (proj2 (proj2 (proj2 (proj2 (proj2
           (PageFacts.set_chart_frame _ _))))))))))).
Defined.

(** C6, counterexample. A request whose [bytes] is the text "abc" gets the
    magnitude NaN, not 0, and the bar of the chart has the width "NaN%".
    And a list with a request whose [type] cannot be converted to a string
    gets no table and no chart: the network block throws before it writes
    anything. *)
Lemma network_counterexample :
  Parse.StringToNumber "abc" = Num.NaN /\
  App.chart_entry Sample.plainURL Sample.request_abc
  = Ok {| name := Str "cdn.example.com/ad"; size := Num.NaN |} /\
  Num.NaN <> Num.zero /\
  match p_netChart (snd (App.renderAll Sample.plainURL Sample.plainHTML
                           Sample.doc_request_abc "ad.zip" Sample.start_page)) with
  | Some chart => Str.contains "width:NaN%" chart = true
  | None => False
  end /\
  App.render_network Sample.plainURL Sample.plainHTML
    (Obj [("runtime",
           Obj [("network_requests",
                 Arr [Obj [("url", Str "https://cdn.example.com/ad");
                           ("type", Sample.unprintable)]])])])
    (Props.clear_sections Sample.start_page)
  = (Throw TypeError, Props.clear_sections Sample.start_page).
Proof. vm_compute. repeat split. discriminate. Qed.
(* ===================================================================== *)
(** * Further properties: the formatter *)
(* ===================================================================== *)

Module EscLaws.
Import Num Str JS Dom App Props Terms EscFacts.

Lemma replace_special_app (a b : string) :
  replace_special (a ++ b) = replace_special a ++ replace_special b.
Proof.
  induction a as [|c a IH]; [reflexivity|].
  cbn [append replace_special]. rewrite IH.
  generalize (entity c) as e. intros e. induction e as [|x e IHe]; [reflexivity|].
  cbn [append]. now rewrite IHe.
Qed.

Lemma length_app (a b : string) :
  String.length (a ++ b) = (String.length a + String.length b)%nat.
Proof. induction a as [|c a IH]; cbn; [reflexivity | now rewrite IH]. Qed.

Lemma entity_length (c : ascii) :
  (1 <= String.length (entity c) <= 6)%nat /\
  (String.length (entity c) = 1%nat <-> special c = false).
Proof.
  destruct (special c) eqn:Hc.
  - destruct (entity_special c Hc) as [E|[E|[E|[E|E]]]]; rewrite E; cbn;
      (split; [lia | split; [lia | discriminate]]).
  - rewrite (entity_plain c Hc). cbn. split; [lia | tauto].
Qed.

Lemma replace_special_length (s : string) :
  (String.length s <= String.length (replace_special s) <= 6 * String.length s)%nat.
Proof.
  induction s as [|c s IH]; [cbn; lia|].
  cbn [replace_special]. rewrite length_app. cbn [String.length].
  destruct (entity_length c) as [H _]. lia.
Qed.

Lemma replace_special_plain (s : string) : plain s = true -> replace_special s = s.
Proof.
  induction s as [|c s IH]; [reflexivity|]. cbn [plain replace_special].
  intros H. apply andb_true_iff in H as [Hc Hs]. apply negb_true_iff in Hc.
  rewrite (entity_plain c Hc), (IH Hs). reflexivity.
Qed.

Lemma same_length_plain (s : string) :
  String.length (replace_special s) = String.length s -> plain s = true.
Proof.
  induction s as [|c s IH]; [reflexivity|].
  cbn [replace_special plain]. rewrite length_app. cbn [String.length]. intros H.
  destruct (entity_length c) as [Hb Hi]. pose proof (replace_special_length s) as Hs.
  assert (E : String.length (entity c) = 1%nat) by lia.
  apply Hi in E. rewrite E. cbn [negb andb]. apply IH. lia.
Qed.

(** The entities of two special characters start differently. *)
Lemma entity_head (c : ascii) :
  special c = true -> exists t, entity c = String "&" t.
Proof.
  intros Hc. destruct (entity_special c Hc) as [E|[E|[E|[E|E]]]]; rewrite E; eauto.
Qed.

Lemma special_cases (c : ascii) :
  special c = true ->
  c = "&"%char \/ c = "<"%char \/ c = ">"%char \/ c = dquote \/ c = "'"%char.
Proof.
  unfold special. intros H.
  repeat (apply orb_true_iff in H as [H|H]);
    apply Ascii.eqb_eq in H; auto 6.
Qed.

Lemma replace_special_inj (s t : string) :
  replace_special s = replace_special t -> s = t.
Proof.
  revert t. induction s as [|c s IH]; intros [|d t] H.
  - reflexivity.
  - exfalso. cbn [replace_special] in H.
    assert (L := f_equal String.length H). rewrite length_app in L. cbn in L.
    destruct (entity_length d) as [[? _] _]. lia.
  - exfalso. cbn [replace_special] in H.
    assert (L := f_equal String.length H). rewrite length_app in L. cbn in L.
    destruct (entity_length c) as [[? _] _]. lia.
  - cbn [replace_special] in H.
    destruct (special c) eqn:Hc; destruct (special d) eqn:Hd.
    + destruct (special_cases c Hc) as [-> | [-> | [-> | [-> | ->]]]];
        destruct (special_cases d Hd) as [-> | [-> | [-> | [-> | ->]]]];
        cbn in H; try discriminate H;
        injection H as H; f_equal; now apply IH.
    + exfalso. destruct (entity_head c Hc) as [e E]. rewrite E, (entity_plain d Hd) in H.
      cbn in H. injection H as H _. subst d. discriminate Hd.
    + exfalso. destruct (entity_head d Hd) as [e E]. rewrite E, (entity_plain c Hc) in H.
      cbn in H. injection H as H _. subst c. discriminate Hc.
    + rewrite (entity_plain c Hc), (entity_plain d Hd) in H. cbn in H.
      injection H as E H. subst d. f_equal. now apply IH.
Qed.

(** What [esc] returns is plain only when its argument is. *)
Lemma plain_replace_special (s : string) :
  plain (replace_special s) = plain s.
Proof.
  induction s as [|c s IH]; [reflexivity|]. cbn [replace_special plain].
  destruct (special c) eqn:Hc.
  - destruct (entity_head c Hc) as [e ->]. reflexivity.
  - rewrite (entity_plain c Hc). cbn. rewrite Hc, IH. reflexivity.
Qed.

Lemma replace_special_fixed (s : string) :
  replace_special s = s <-> plain s = true.
Proof.
  split; [|apply replace_special_plain].
  intros H. apply same_length_plain. now rewrite H.
Qed.

End EscLaws.

(** X1. Escaping a concatenation gives the concatenation of the escapes:
    a text may be escaped piece by piece. *)
Theorem esc_concat (a b : string) :
  exists x y, App.esc (Str a) = Ok x /\ App.esc (Str b) = Ok y /\
              App.esc (Str (a ++ b)) = Ok (x ++ y).
Proof.
  exists (App.replace_special a), (App.replace_special b).
  rewrite !EscFacts.esc_string, EscLaws.replace_special_app. repeat split.
Qed.

(** X2. [esc] loses nothing: two different texts have different escapes. *)
Theorem esc_distinct (s t : string) :
  s <> t -> App.esc (Str s) <> App.esc (Str t).
Proof.
  intros H E. apply H. rewrite !EscFacts.esc_string in E. injection E as E.
  now apply EscLaws.replace_special_inj.
Qed.

Lemma esc_distinct_witness :
  "<" <> "&lt;" /\ App.esc (Str "<") <> App.esc (Str "&lt;").
Proof.
  assert (H : "<" <> "&lt;") by discriminate.
  split; [exact H | exact (esc_distinct "<" "&lt;" H)].
Defined.

(** X3. [esc] gives a text back unchanged exactly when the text has none
    of the five special characters. *)
Theorem esc_unchanged (s : string) :
  App.esc (Str s) = Ok s <-> Terms.plain s = true.
Proof.
  rewrite EscFacts.esc_string. split.
  - intros H. injection H as H. now apply EscLaws.replace_special_fixed.
  - intros H. f_equal. now apply EscLaws.replace_special_fixed.
Qed.

(** X4. [esc] is not idempotent: escaping what [esc] returned changes it
    again, unless the text had no special character in the first place. *)
Theorem esc_twice (s : string) :
  exists once twice,
    App.esc (Str s) = Ok once /\ App.esc (Str once) = Ok twice /\
    (twice = once <-> Terms.plain s = true).
Proof.
  exists (App.replace_special s), (App.replace_special (App.replace_special s)).
  split; [reflexivity|]. split; [reflexivity|].
  rewrite EscLaws.replace_special_fixed, EscLaws.plain_replace_special. tauto.
Qed.

(** X5. What [esc] returns is at least as long as the text and at most six
    times as long. *)
Theorem esc_length (s : string) :
  exists out, App.esc (Str s) = Ok out /\
              (String.length s <= String.length out <= 6 * String.length s)%nat.
Proof.
  exists (App.replace_special s). split; [reflexivity|].
  apply EscLaws.replace_special_length.
Qed.

Module UnitLaws.
Import Num Str JS Dom App Props.

(** The loop of [bytes] stops at the last unit, whatever the number. *)
Lemma scale_index (room : nat) (x : num) (i : nat) :
  (i <= snd (scale room x i) <= i + room)%nat.
Proof.
  revert x i. induction room as [|r IH]; intros x i; cbn [scale].
  - cbn. lia.
  - destruct (ge x (of_Z 1024)); [|cbn; lia].
    specialize (IH (div x (of_Z 1024)) (S i)). lia.
Qed.

Lemma nth_unit (i : nat) : (i <= 3)%nat -> In (nth i u "undefined") u.
Proof.
  intros H. destruct i as [|[|[|[|i]]]]; cbn; try tauto. lia.
Qed.

(** A number below 1024 is not scaled. *)
Lemma bytes_unscaled (x : num) :
  ge x (of_Z 1024) = false -> bytes (Number x) = Ok (dec (ToInt32 x) ++ " B").
Proof.
  intros H. unfold bytes. cbn [nullish orb ToNumber cbind List.length u Nat.sub scale].
  rewrite H. reflexivity.
Qed.

Lemma negative_below (x : num) : lt x zero = true -> ge x (of_Z 1024) = false.
Proof.
  change (of_Z 1024) with (S754_finite false two52 (-42)).
  destruct x as [[]|[]| |[] m e]; intros H; try discriminate H; reflexivity.
Qed.

End UnitLaws.

(** X6. Whatever [bytes] returns is the empty string, and then the argument
    is [null], [undefined] or the empty string, or it ends with a space and
    one of the four units: the loop never runs past the last unit. *)
Theorem bytes_units (v : value) (s : string) :
  App.bytes v = Ok s ->
  (s = "" /\ (JS.nullish v = true \/ v = Str "")) \/
  (exists t unit, In unit App.u /\ s = t ++ " " ++ unit).
Proof.
  unfold App.bytes.
  destruct (JS.nullish v || match v with Str "" => true | _ => false end) eqn:E.
  - intros [= <-]. left. split; [reflexivity|].
    apply orb_true_iff in E as [E|E]; [now left|].
    right. destruct v as [| | | |[|]| |]; try discriminate E. reflexivity.
  - destruct (JS.ToNumber v) as [x|]; cbn [cbind]; [|discriminate].
    pose proof (UnitLaws.scale_index (List.length App.u - 1) x 0) as Hi.
    destruct (App.scale (List.length App.u - 1) x 0) as [y i]. cbn [snd] in Hi.
    intros [= <-]. right. eexists _, _. split; [|reflexivity].
    apply UnitLaws.nth_unit. cbn in Hi. lia.
Qed.

Lemma bytes_units_witness :
  App.bytes (Number (Num.of_Z 2048)) = Ok "2.0 KB" /\
  (("2.0 KB" = "" /\ (JS.nullish (Number (Num.of_Z 2048)) = true \/
                      Number (Num.of_Z 2048) = Str "")) \/
   (exists t unit, In unit App.u /\ "2.0 KB" = t ++ " " ++ unit)).
Proof.
  assert (H : App.bytes (Number (Num.of_Z 2048)) = Ok "2.0 KB") by (vm_compute; reflexivity).
  split; [exact H | exact (bytes_units _ _ H)].
Defined.

(** X7. A negative number, -Infinity and NaN are never scaled: [bytes]
    prints them in the unit B, as the 32-bit integer [n|0]. *)
Theorem bytes_negative (x : Num.num) :
  Num.lt x Num.zero = true \/ Num.is_nan x = true ->
  App.bytes (Number x) = Ok (Num.dec (Num.ToInt32 x) ++ " B").
Proof.
  intros [H|H]; apply UnitLaws.bytes_unscaled.
  - now apply UnitLaws.negative_below.
  - destruct x; try discriminate H. reflexivity.
Qed.

Lemma bytes_negative_witness :
  Num.lt (Num.of_Z (-5000)) Num.zero = true /\
  App.bytes (Number (Num.of_Z (-5000))) = Ok "-5000 B".
Proof.
  assert (H : Num.lt (Num.of_Z (-5000)) Num.zero = true) by (vm_compute; reflexivity).
  split; [exact H|].
  rewrite (bytes_negative (Num.of_Z (-5000)) (or_introl H)). vm_compute. reflexivity.
Defined.

(** X8. The figure [bytes] prints is in the range of its unit: for a
    finite number that is at least 0, the value left by the loop is below
    1024 unless the unit is GB, and at least 1 unless the unit is B. *)
Theorem scaled_figure_range (x : Num.num) :
  Num.valid x -> Props.finite x = true -> Num.ge x Num.zero = true ->
  let y := fst (App.scale 3 x 0) in
  let i := snd (App.scale 3 x 0) in
  (i <> 3%nat -> Num.ge y (Num.of_Z 1024) = false) /\
  (i <> 0%nat -> Num.ge y (Num.of_Z 1) = true).
Proof.
  intros Hv Hf H0 y i.
  destruct (NumFacts.unit_index_valid x Hv) as [Hi Hy].
  change (Props.unit_index x) with i in Hi. fold y in Hy.
  change (Num.of_Z 1024) with (S754_finite false Props.two52 (-42)).
  change (Num.of_Z 1) with (S754_finite false Props.two52 (-52)).
  destruct x as [s|s| |[] m e]; try discriminate Hf; try discriminate H0.
  - rewrite Hi, Hy. split; [reflexivity | intros H; now elim H].
  - rewrite Hi, Hy. destruct (NumFacts.valid_finite _ _ _ Hv) as (He & _ & Hn).
    unfold Props.index_of_exponent.
    destruct (Z.ltb_spec e (-42)) as [H1|H1].
    { split; [intros _ | intros H; now elim H].
      apply NumFacts.ge_two52_small. cbn. lia. }
    assert (Hm : Props.normal m) by (apply Hn; lia).
    destruct (Z.ltb_spec e (-32)) as [H2|H2]; [|destruct (Z.ltb_spec e (-22)) as [H3|H3]].
    + split; intros _; [apply NumFacts.ge_two52_small; cbn; lia|].
      rewrite NumFacts.ge_two52 by exact Hm. apply Z.leb_le. cbn. lia.
    + split; intros _; [apply NumFacts.ge_two52_small; cbn; lia|].
      rewrite NumFacts.ge_two52 by exact Hm. apply Z.leb_le. cbn. lia.
    + split; [intros H; now elim H | intros _].
      rewrite NumFacts.ge_two52 by exact Hm. apply Z.leb_le. cbn. lia.
Qed.

Lemma scaled_figure_range_witness :
  snd (App.scale 3 (Num.of_Z 1536) 0) = 1%nat /\
  Num.ge (fst (App.scale 3 (Num.of_Z 1536) 0)) (Num.of_Z 1024) = false /\
  Num.ge (fst (App.scale 3 (Num.of_Z 1536) 0)) (Num.of_Z 1) = true.
Proof.
  destruct (scaled_figure_range (Num.of_Z 1536) eq_refl eq_refl eq_refl) as [H1 H2].
  split; [reflexivity|]. split; [apply H1 | apply H2]; discriminate.
Defined.

Module CutLaws.
Import Num Str JS Dom App Props.

Lemma slice0_length (n : nat) (s : string) :
  String.length (slice0 n s) = Nat.min n (String.length s).
Proof.
  unfold slice0. revert s. induction n as [|n IH]; intros [|c s]; cbn; try reflexivity.
  now rewrite IH.
Qed.

Lemma slice0_prefix (n : nat) (s : string) : prefix (slice0 n s) s = true.
Proof.
  unfold slice0. revert s. induction n as [|n IH]; intros [|c s]; cbn; try reflexivity.
  destruct (Ascii.ascii_dec c c); [apply IH | congruence].
Qed.

Lemma slice0_all (n : nat) (s : string) :
  (String.length s <= n)%nat -> slice0 n s = s.
Proof.
  unfold slice0. revert s. induction n as [|n IH]; intros [|c s]; cbn; intros H;
    try reflexivity; try lia.
  f_equal. apply IH. lia.
Qed.

End CutLaws.

(** X9. [short] cuts and does nothing else: on a string it returns the
    first 60 characters of the host name followed by the path name, or of
    the string itself when it is no URL, and all of it when that is at
    most 60 characters long. *)
Theorem short_cut (parseURL : string -> option URL) (s : string) :
  let full := match parseURL s with
              | Some x => hostname x ++ pathname x
              | None => s
              end in
  exists out,
    App.short parseURL (Str s) = Ok (Str out) /\
    String.length out = Nat.min 60 (String.length full) /\
    prefix out full = true /\
    ((String.length full <= 60)%nat -> out = full).
Proof.
  intros full. exists (Str.slice0 60 full). rewrite ShortFacts.short_string.
  split; [reflexivity|]. split; [apply CutLaws.slice0_length|].
  split; [apply CutLaws.slice0_prefix | apply CutLaws.slice0_all].
Qed.

Lemma short_cut_witness :
  App.short Sample.plainURL (Str "https://cdn.example.com/ad") = Ok (Str "cdn.example.com/ad").
Proof.
  destruct (short_cut Sample.plainURL "https://cdn.example.com/ad") as (out & H & _ & _ & Hall).
  rewrite H. f_equal. f_equal. apply Hall. vm_compute. lia.
Defined.

(** X10. Whatever [short] returns has at most 60 items: it is a string of
    at most 60 characters, or, when the argument is an array, the first 60
    entries of that array. *)
Theorem short_at_most_60 (parseURL : string -> option URL) (v out : value) :
  App.short parseURL v = Ok out ->
  (exists s, out = Str s /\ (String.length s <= 60)%nat) \/
  (exists l, v = Arr l /\ out = Arr (firstn 60 l)).
Proof.
  unfold App.short.
  destruct (s <- JS.ToString v;;
            match parseURL s with Some x => Ok x | None => Throw TypeError end) as [x|e].
  - intros [= <-]. left. eexists. split; [reflexivity|].
    rewrite CutLaws.slice0_length. lia.
  - unfold JS.or. destruct (JS.truthy v) eqn:T.
    + destruct v; cbn [JS.slice_method]; intros H; try discriminate H; injection H as <-.
      * left. eexists. split; [reflexivity|]. rewrite CutLaws.slice0_length. lia.
      * right. eauto.
    + cbn [JS.slice_method]. intros [= <-]. left. eexists. split; [reflexivity|].
      rewrite CutLaws.slice0_length. lia.
Qed.

Lemma short_at_most_60_witness :
  App.short Sample.plainURL (Arr [Str "a"; Str "b"]) = Ok (Arr [Str "a"; Str "b"]) /\
  ((exists s, Arr [Str "a"; Str "b"] = Str s /\ (String.length s <= 60)%nat) \/
   (exists l, Arr [Str "a"; Str "b"] = Arr l /\ Arr [Str "a"; Str "b"] = Arr (firstn 60 l))).
Proof.
  assert (H : App.short Sample.plainURL (Arr [Str "a"; Str "b"]) = Ok (Arr [Str "a"; Str "b"]))
    by (vm_compute; reflexivity).
  split; [exact H | exact (short_at_most_60 Sample.plainURL _ _ H)].
Defined.

(** X11. The URL cell of the network table: for every string, shortening
    and then escaping returns a well escaped text of at most 360
    characters, however long the URL is. *)
Theorem url_cell_bounded (parseURL : string -> option URL) (s : string) :
  exists cell,
    (x <- App.short parseURL (Str s) ;; App.esc x) = Ok cell /\
    Props.well_escaped cell = true /\ (String.length cell <= 360)%nat.
Proof.
  rewrite ShortFacts.short_string. cbn [cbind]. rewrite EscFacts.esc_string.
  eexists. split; [reflexivity|]. split; [apply EscFacts.replace_special_well_escaped|].
  match goal with |- (String.length (App.replace_special ?t) <= _)%nat =>
    pose proof (EscLaws.replace_special_length t) as H;
    assert (L : (String.length t <= 60)%nat) by (rewrite CutLaws.slice0_length; lia)
  end.
  lia.
Qed.

(* ===================================================================== *)
(** * Further properties: the chart *)
(* ===================================================================== *)

Module BelowLaws.
Import Num Str JS App Props Terms NumFacts RoundFacts.

Lemma shr_1_exact (r : shr_record) (q : Z) :
  0 <= q -> shr_m r = q * 2 -> lossless r -> lossless (shr_1 r).
Proof.
  destruct r as [m b s]. cbn [shr_m]. intros Hq -> [Hb Hs]. cbn in Hb, Hs. subst b s.
  unfold lossless. destruct q as [|q|q]; [split; reflexivity | | lia].
  replace (Zpos q * 2) with (Zpos q~0) by lia. split; reflexivity.
Qed.

Lemma iter_exact (n : positive) (r : shr_record) (q : Z) :
  0 <= q -> shr_m r = q * 2 ^ Zpos n -> lossless r -> lossless (iter_pos shr_1 n r).
Proof.
  revert r q. induction n as [n IH|n IH|]; intros r q Hq Hm Hr; cbn [iter_pos].
  - assert (P : 0 < 2 ^ Zpos n) by (apply Z.pow_pos_nonneg; lia).
    assert (E : 2 ^ Zpos n~1 = 2 ^ Zpos n * 2 ^ Zpos n * 2).
    { replace (Zpos n~1) with (Zpos n + Zpos n + 1) by lia.
      rewrite !Z.pow_add_r by lia. reflexivity. }
    assert (H1 : lossless (shr_1 r)).
    { apply (shr_1_exact r (q * 2 ^ Zpos n * 2 ^ Zpos n)); [nia | rewrite Hm, E; ring | exact Hr]. }
    assert (M1 : shr_m (shr_1 r) = q * 2 ^ Zpos n * 2 ^ Zpos n).
    { rewrite shr_1_half by nia. rewrite Hm, E.
      replace (q * (2 ^ Zpos n * 2 ^ Zpos n * 2)) with (q * 2 ^ Zpos n * 2 ^ Zpos n * 2) by ring.
      apply Z.div_mul. lia. }
    assert (H2 : lossless (iter_pos shr_1 n (shr_1 r))).
    { apply (IH _ (q * 2 ^ Zpos n)); [nia | exact M1 | exact H1]. }
    apply (IH _ q); [exact Hq | | exact H2].
    rewrite iter_shr_1 by (rewrite M1; nia). rewrite M1. apply Z.div_mul. lia.
  - assert (P : 0 < 2 ^ Zpos n) by (apply Z.pow_pos_nonneg; lia).
    assert (E : 2 ^ Zpos n~0 = 2 ^ Zpos n * 2 ^ Zpos n).
    { replace (Zpos n~0) with (Zpos n + Zpos n) by lia.
      rewrite !Z.pow_add_r by lia. reflexivity. }
    assert (H2 : lossless (iter_pos shr_1 n r)).
    { apply (IH _ (q * 2 ^ Zpos n)); [nia | rewrite Hm, E; ring | exact Hr]. }
    apply (IH _ q); [exact Hq | | exact H2].
    rewrite iter_shr_1 by (rewrite Hm; nia). rewrite Hm, E.
    replace (q * (2 ^ Zpos n * 2 ^ Zpos n)) with (q * 2 ^ Zpos n * 2 ^ Zpos n) by ring.
    apply Z.div_mul. lia.
  - apply (shr_1_exact r q); assumption.
Qed.

(** The first half of a rounding loses nothing of a mantissa that is a
    multiple of the power of two it is divided by. *)
Lemma shr_fexp_exact (m e q : Z) :
  0 <= q ->
  m = q * 2 ^ Z.max 0 (Z.max (Zdigits2 m - 53) (-1074 - e)) ->
  loc_of_shr_record (fst (shr_fexp prec emax m e loc_Exact)) = loc_Exact.
Proof.
  intros Hq Hm. unfold shr_fexp, fexp, emin, prec, emax.
  set (k := Z.max 0 (Z.max (Zdigits2 m - 53) (-1074 - e))) in *.
  set (n := Z.max (Zdigits2 m + e - 53) (3 - 1024 - 53) - e).
  assert (Hk : k = Z.max 0 n) by (unfold k, n; lia).
  destruct n as [|p|p] eqn:En; cbn [shr fst shr_record_of_loc]; try reflexivity.
  assert (X : lossless (iter_pos shr_1 p {| shr_m := m; shr_r := false; shr_s := false |})).
  { apply (iter_exact _ _ q); [exact Hq | | split; reflexivity].
    cbn [shr_m]. rewrite Hm at 1. f_equal. f_equal. lia. }
  destruct X as [X1 X2].
  destruct (iter_pos shr_1 p _) as [m' b s]. cbn in X1, X2. subst b s. reflexivity.
Qed.

(** A value at most [T * 2^t], exactly known when it is [T * 2^t], rounds
    to a number at most [T * 2^t]. *)
Lemma round_below (m e : Z) (l : location) (T : positive) (t : Z) :
  0 <= m -> e <= t -> -1074 <= t <= 971 -> Zpos (digits2_pos T) <= 53 ->
  (m < Zpos T * 2 ^ (t - e) \/ m = Zpos T * 2 ^ (t - e) /\ l = loc_Exact) ->
  binary_round_aux prec emax false m e l = S754_zero false \/
  exists m' e', binary_round_aux prec emax false m e l = S754_finite false m' e' /\
                e' <= t /\ Zpos m' <= Zpos T * 2 ^ (t - e').
Proof.
  intros Hm He Ht HT Hv. unfold binary_round_aux.
  pose proof (digits2_pos_bounds T) as [_ BT].
  set (dT := Zpos (digits2_pos T)) in *. assert (HdT : 0 < dT) by (subst dT; lia).
  assert (Hle : m <= Zpos T * 2 ^ (t - e)) by (destruct Hv as [?|[? _]]; lia).
  assert (Hd : Zdigits2 m <= dT + (t - e)).
  { apply digits_upper; [|lia]. split; [exact Hm|].
    rewrite Z.pow_add_r by lia.
    assert (0 < 2 ^ (t - e)) by (apply Z.pow_pos_nonneg; lia). nia. }
  destruct (shr_fexp_spec m e l Hm) as [E1 E2].
  pose proof (fun q Hq Hmq => shr_fexp_exact m e q Hq Hmq) as Hex.
  set (k := Z.max 0 (Z.max (Zdigits2 m - 53) (-1074 - e))) in *.
  assert (Hk : 0 <= k <= t - e) by (subst k; lia).
  assert (Hp : 0 < 2 ^ k) by (apply Z.pow_pos_nonneg; lia).
  assert (Hsplit : 2 ^ (t - e) = 2 ^ (t - (e + k)) * 2 ^ k).
  { rewrite <- Z.pow_add_r by lia. f_equal. lia. }
  assert (Hp' : 0 < 2 ^ (t - (e + k))) by (apply Z.pow_pos_nonneg; lia).
  assert (B2 : 0 <= round_nearest_even (shr_m (fst (shr_fexp prec emax m e l)))
                      (loc_of_shr_record (fst (shr_fexp prec emax m e l)))
               <= Zpos T * 2 ^ (t - (e + k))).
  { rewrite E1.
    assert (H0 : 0 <= m / 2 ^ k) by (apply Z.div_pos; lia).
    destruct Hv as [Hlt|[Heq ->]].
    - assert (m / 2 ^ k < Zpos T * 2 ^ (t - (e + k))).
      { apply Z.div_lt_upper_bound; [exact Hp|]. rewrite Hsplit in Hlt. nia. }
      destruct (round_nearest_even_cases (m / 2 ^ k)
                  (loc_of_shr_record (fst (shr_fexp prec emax m e l)))) as [-> | ->]; lia.
    - rewrite (Hex (Zpos T * 2 ^ (t - (e + k)))); [| nia | rewrite Heq, Hsplit; ring].
      cbn [round_nearest_even].
      rewrite Heq, Hsplit.
      replace (Zpos T * (2 ^ (t - (e + k)) * 2 ^ k))
        with (Zpos T * 2 ^ (t - (e + k)) * 2 ^ k) by ring.
      rewrite Z.div_mul by lia. lia. }
  destruct (shr_fexp prec emax m e l) as [r1 e1]. cbn [fst snd] in E1, E2, B2.
  set (m2 := round_nearest_even (shr_m r1) (loc_of_shr_record r1)) in *.
  rewrite <- E2 in B2, Hp'.
  assert (He1 : e1 <= t) by lia.
  assert (Hd2 : Zdigits2 m2 <= dT + (t - e1)).
  { apply digits_upper; [|lia]. split; [lia|].
    rewrite Z.pow_add_r by lia. nia. }
  destruct (shr_fexp_spec m2 e1 loc_Exact ltac:(lia)) as [E3 E4].
  destruct (shr_fexp prec emax m2 e1 loc_Exact) as [r3 e3]. cbn [fst snd] in E3, E4.
  set (k2 := Z.max 0 (Z.max (Zdigits2 m2 - 53) (-1074 - e1))) in *.
  assert (Hk2 : 0 <= k2 <= t - e1) by (subst k2; lia).
  assert (Hp2 : 0 < 2 ^ k2) by (apply Z.pow_pos_nonneg; lia).
  assert (Hsplit2 : 2 ^ (t - e1) = 2 ^ (t - e3) * 2 ^ k2).
  { rewrite <- Z.pow_add_r by lia. f_equal. lia. }
  assert (B3 : shr_m r3 <= Zpos T * 2 ^ (t - e3)).
  { rewrite E3. apply Z.div_le_upper_bound; [exact Hp2|]. rewrite Hsplit2 in B2. nia. }
  destruct (shr_m r3) as [|m3|m3] eqn:E5.
  - left. reflexivity.
  - right. unfold emax, prec. destruct (Z.leb_spec e3 (1024 - 53)) as [Hok|Hbad]; [|lia].
    exists m3, e3. split; [reflexivity|]. split; [lia | exact B3].
  - assert (0 <= m2 / 2 ^ k2) by (apply Z.div_pos; lia). lia.
Qed.

(** A size over a maximum that is at least as large, and at least 1, is at
    most 1. *)
Lemma div_below_one (m1 : positive) (e1 : Z) (m2 : positive) (e2 : Z) :
  valid (S754_finite false m1 e1) -> valid (S754_finite false m2 e2) ->
  ge (S754_finite false m2 e2) (of_Z 1) = true ->
  ge (S754_finite false m2 e2) (S754_finite false m1 e1) = true ->
  div (S754_finite false m1 e1) (S754_finite false m2 e2) = S754_zero false \/
  exists m e, div (S754_finite false m1 e1) (S754_finite false m2 e2) = S754_finite false m e /\
              e <= -52 /\ Zpos m <= 2 ^ (- e).
Proof.
  intros V1 V2 G1 Gx.
  pose proof (mantissa_bound _ _ _ V1) as M1.
  apply valid_finite in V1 as (He1 & Hd1 & _). apply valid_finite in V2 as (He2 & _ & Hn2).
  assert (H52 : -52 <= e2).
  { change (of_Z 1) with (S754_finite false two52 (-52)) in G1.
    unfold ge, SFleb, SFcompare in G1.
    destruct (Z.compare_spec (-52) e2); [lia | lia | discriminate G1]. }
  pose proof (normal_bounds m2 (Hn2 ltac:(lia))) as [B2 _].
  assert (Hle : e1 < e2 \/ e1 = e2 /\ Zpos m1 <= Zpos m2).
  { unfold ge, SFleb, SFcompare in Gx.
    destruct (Z.compare_spec e1 e2) as [E|E|E]; [right | left; exact E | discriminate Gx].
    split; [exact E|].
    change (Pos.compare_cont Eq m1 m2) with (Pos.compare m1 m2) in Gx.
    destruct (Pos.compare_spec m1 m2) as [C|C|C]; [subst; lia | lia | discriminate Gx]. }
  unfold div, SFdiv, SFdiv_core_binary. cbn [xorb Zdigits2].
  rewrite (Hn2 ltac:(lia)).
  set (d1 := Zpos (digits2_pos m1)) in *.
  set (e' := Z.min (fexp prec emax (d1 + e1 - (53 + e2))) (e1 - e2)).
  set (s := e1 - e2 - e').
  set (m' := match s with Z0 => Zpos m1 | Zpos _ => Z.shiftl (Zpos m1) s | Zneg _ => 0 end).
  assert (He' : e' <= -53) by (subst e'; unfold fexp, emin, prec, emax; lia).
  assert (Hs : 0 <= s) by (subst s e'; lia).
  assert (Em : m' = Zpos m1 * 2 ^ s).
  { subst m'. destruct s as [|p|p] eqn:Es; [lia | | lia]. rewrite Z.shiftl_mul_pow2 by lia. reflexivity. }
  pose proof (Z_div_mod m' (Zpos m2) ltac:(lia)) as DM.
  destruct (Z.div_eucl m' (Zpos m2)) as [Q R]. destruct DM as [DM HR].
  clearbody m'. subst m'.
  assert (Hp : 0 < 2 ^ s) by (apply Z.pow_pos_nonneg; lia).
  assert (Hpe : 2 ^ (- e') = 2 ^ s * 2 ^ (e2 - e1)).
  { rewrite <- Z.pow_add_r by lia. f_equal. subst s. lia. }
  assert (Hpd : 0 < 2 ^ (e2 - e1)) by (apply Z.pow_pos_nonneg; lia).
  assert (Hx : Zpos m1 <= Zpos m2 * 2 ^ (e2 - e1)).
  { destruct Hle as [Hlt|[-> Hm]].
    - assert (2 ^ 1 <= 2 ^ (e2 - e1)) by (apply Z.pow_le_mono_r; lia).
      change (2 ^ 1) with 2 in *. change (2 ^ 53) with (2 * 2 ^ 52) in M1. nia.
    - rewrite Z.sub_diag. change (2 ^ 0) with 1. lia. }
  assert (HQ0 : 0 <= Q) by nia.
  assert (HQ : Q * Zpos m2 <= Zpos m2 * 2 ^ (- e')) by (rewrite Hpe; nia).
  assert (HQ1 : Q <= 2 ^ (- e')) by nia.
  destruct (round_below Q e' (new_location (Zpos m2) R) two52 (-52))
    as [Z|(m & e & E & Ee & Em)]; try lia.
  - reflexivity.
  - assert (Hpp : Zpos two52 * 2 ^ (-52 - e') = 2 ^ (- e')).
    { change (Zpos two52) with (2 ^ 52). rewrite <- Z.pow_add_r by lia. f_equal. lia. }
    rewrite Hpp. destruct (Z.eq_dec Q (2 ^ (- e'))) as [Eq|Ne]; [right | left; lia].
    split; [exact Eq|].
    assert (R = 0) by nia. subst R.
    unfold new_location. destruct (Z.even (Zpos m2)); reflexivity.
  - left. exact Z.
  - right. exists m, e. split; [exact E|]. split; [exact Ee|].
    assert (Hpp : Zpos two52 * 2 ^ (-52 - e) = 2 ^ (- e)).
    { change (Zpos two52) with (2 ^ 52). rewrite <- Z.pow_add_r by lia. f_equal. lia. }
    rewrite <- Hpp. exact Em.
Qed.

Lemma mul_below_100 (m : positive) (e : Z) :
  e <= -52 -> Zpos m <= 2 ^ (- e) ->
  mul (S754_finite false m e) (of_Z 100) = S754_zero false \/
  exists m' e', mul (S754_finite false m e) (of_Z 100) = S754_finite false m' e' /\
                e' <= -46 /\ Zpos m' <= Zpos hundred * 2 ^ (-46 - e').
Proof.
  intros He Hm. change (of_Z 100) with (S754_finite false hundred (-46)).
  unfold mul, SFmul. cbn [xorb].
  assert (H0 : 0 < Zpos hundred) by reflexivity.
  assert (Hd : Zpos (digits2_pos hundred) <= 53) by (vm_compute; discriminate).
  apply round_below; [lia | lia | lia | exact Hd |].
  replace (-46 - (e + -46)) with (- e) by lia.
  rewrite Pos2Z.inj_mul.
  set (c := Zpos hundred) in *. clearbody c.
  assert (0 < 2 ^ (- e)) by (apply Z.pow_pos_nonneg; lia).
  destruct (Z.eq_dec (Zpos m) (2 ^ (- e))) as [E|N].
  - right. split; [rewrite E; ring | reflexivity].
  - left. nia.
Qed.

Lemma below_100 (m : positive) (e : Z) :
  e <= -46 -> Zpos m <= Zpos hundred * 2 ^ (-46 - e) ->
  ge (of_Z 100) (S754_finite false m e) = true.
Proof.
  intros He Hm. change (of_Z 100) with (S754_finite false hundred (-46)).
  unfold ge, SFleb, SFcompare.
  destruct (Z.compare_spec e (-46)) as [E|E|E]; [|reflexivity | lia].
  subst e. change (2 ^ (-46 - -46)) with 1 in Hm. rewrite Z.mul_1_r in Hm.
  destruct (Pos.compare_cont Eq m hundred) eqn:C; try reflexivity.
  exfalso. apply Hm. exact C.
Qed.

(** The width of a bar is between 0 and 100. *)
Lemma width_range (x mx : num) :
  valid x -> valid mx -> finite x = true ->
  ge x zero = true -> ge mx (of_Z 1) = true -> ge mx x = true ->
  ge (mul (div x mx) (of_Z 100)) zero = true /\
  ge (of_Z 100) (mul (div x mx) (of_Z 100)) = true.
Proof.
  intros Vx Vm Fx G0 G1 Gx.
  destruct mx as [sm|sm| |sm m2 e2]; try discriminate G1;
    destruct sm; try discriminate G1;
    destruct x as [sx|sx| |sx m1 e1]; try discriminate Fx; try discriminate G0;
    try (destruct sx; try discriminate G0); try (split; reflexivity).
  destruct (div_below_one m1 e1 m2 e2 Vx Vm G1 Gx) as [-> | (m & e & -> & He & Hm)];
    [split; reflexivity|].
  destruct (mul_below_100 m e He Hm) as [-> | (m' & e' & -> & He' & Hm')];
    [split; reflexivity|].
  split; [reflexivity | now apply below_100].
Qed.

End BelowLaws.

Module FullLaws.
Import Num Str JS App Props NumFacts RoundFacts.

(** A positive number over itself is 1. *)
Lemma div_self (m : positive) (e : Z) :
  div (S754_finite false m e) (S754_finite false m e) = of_Z 1.
Proof.
  unfold div, SFdiv, SFdiv_core_binary. cbn [xorb Zdigits2].
  replace (Zpos (digits2_pos m) + e - (Zpos (digits2_pos m) + e)) with 0 by lia.
  replace (e - e) with 0 by lia.
  change (Z.min (fexp prec emax 0) 0) with (-53).
  change (0 - -53) with 53. cbv iota.
  rewrite Z.shiftl_mul_pow2 by lia.
  pose proof (Z_div_mod (Zpos m * 2 ^ 53) (Zpos m) ltac:(lia)) as DM.
  destruct (Z.div_eucl (Zpos m * 2 ^ 53) (Zpos m)) as [Q R]. destruct DM as [DM HR].
  assert (R = 0 /\ Q = 2 ^ 53) as [-> ->].
  { assert (Zpos m * (2 ^ 53 - Q) = R) by lia.
    assert (0 < 2 ^ 53) by reflexivity.
    assert (2 ^ 53 - Q = 0) by nia. lia. }
  unfold new_location. destruct (Z.even (Zpos m)); reflexivity.
Qed.

Lemma full_width (x : num) :
  finite x = true -> ge x (of_Z 1) = true ->
  toFixed 1 (mul (div x x) (of_Z 100)) = "100.0".
Proof.
  intros F G. change (of_Z 1) with (S754_finite false two52 (-52)) in G.
  destruct x as [s|s| |s m e]; try discriminate F; try discriminate G.
  destruct s; [discriminate G|]. rewrite div_self. vm_compute. reflexivity.
Qed.

End FullLaws.

(** X13. No bar leaves its track: for sizes that are at least 0, the number
    [size/max*100] printed as the width of a finite size is between 0 and
    100. *)
Theorem bar_within_track (entries : list (string * Num.num)) :
  Forall (fun e => Num.valid (snd e)) entries ->
  Forall (fun e => Num.ge (snd e) Num.zero = true) entries ->
  let max := Num.Math_max (map snd entries ++ [Num.of_Z 1]) in
  Forall (fun e => Props.finite (snd e) = true ->
                   let w := Num.mul (Num.div (snd e) max) (Num.of_Z 100) in
                   Num.ge w Num.zero = true /\ Num.ge (Num.of_Z 100) w = true)
         entries.
Proof.
  intros Hv Hs max.
  assert (Hs' : Forall (fun x => Num.ge x Num.zero = true) (map snd entries))
    by (apply Forall_map; exact Hs).
  destruct (MaxFacts.chart_max _ Hs') as (H1 & Hall & Hin). fold max in H1, Hall, Hin.
  assert (Vm : Num.valid max).
  { destruct Hin as [-> | Hin]; [reflexivity|].
    apply in_map_iff in Hin as (e & <- & He).
    rewrite Forall_forall in Hv. now apply Hv. }
  rewrite Forall_map in Hall.
  rewrite Forall_forall in Hs, Hv, Hall |- *. intros e He Hf.
  apply BelowLaws.width_range; auto.
Qed.

Lemma bar_within_track_witness :
  let entries := [("a", Num.of_Z 512); ("b", Num.of_Z 2048)] in
  let max := Num.Math_max (map snd entries ++ [Num.of_Z 1]) in
  Forall (fun e => Props.finite (snd e) = true ->
                   let w := Num.mul (Num.div (snd e) max) (Num.of_Z 100) in
                   Num.ge w Num.zero = true /\ Num.ge (Num.of_Z 100) w = true)
         entries.
Proof.
  intros entries max.
  apply (bar_within_track entries); repeat constructor.
Defined.

(** X14. The largest bar fills its track: when the maximum of the chart is
    a finite number, every entry whose size is the maximum has the width
    "100.0". *)
Theorem largest_bar_full (entries : list (string * Num.num)) :
  Forall (fun e => Num.ge (snd e) Num.zero = true) entries ->
  let max := Num.Math_max (map snd entries ++ [Num.of_Z 1]) in
  Props.finite max = true ->
  Forall (fun e => snd e = max ->
                   App.bar_width max {| name := Str (fst e); size := snd e |} = "100.0")
         entries.
Proof.
  intros Hs max Hf.
  assert (Hs' : Forall (fun x => Num.ge x Num.zero = true) (map snd entries))
    by (apply Forall_map; exact Hs).
  destruct (MaxFacts.chart_max _ Hs') as (H1 & _ & _). fold max in H1.
  apply Forall_forall. intros e _ E. unfold App.bar_width. cbn [size]. rewrite E.
  now apply FullLaws.full_width.
Qed.

Lemma largest_bar_full_witness :
  App.bar_width (Num.of_Z 2048) {| name := Str "b"; size := Num.of_Z 2048 |} = "100.0".
Proof.
  assert (Hs : Forall (fun e : string * Num.num => Num.ge (snd e) Num.zero = true)
                 [("a", Num.of_Z 512); ("b", Num.of_Z 2048)]) by (repeat constructor).
  pose proof (largest_bar_full [("a", Num.of_Z 512); ("b", Num.of_Z 2048)] Hs eq_refl) as H.
  apply Forall_inv_tail in H. apply Forall_inv in H. exact (H eq_refl).
Defined.

(* ===================================================================== *)
(** * Further properties: the sections and the upload *)
(* ===================================================================== *)

Module StageLaws.
Import Num Str JS Dom App Props Terms OkFacts PageFacts RenderFacts.

Lemma stage_frame (parseHTML : string -> option string) (p : page) (r : completion unit)
    (p' : page) :
  stage parseHTML p r p' ->
  p_drop p' = p_drop p /\ p_file p' = p_file p /\ alerts p' = alerts p.
Proof.
  intros H. destruct H; try (repeat split; fail).
  match goal with |- context [set_chart ?c ?q] =>
    destruct (set_chart_frame c q) as (F1 & F2 & F3 & _)
  end.
  rewrite F1, F2, F3. repeat split.
Qed.

Section Stages.
Variable parseURL : string -> option URL.
Variable parseHTML : string -> option string.

Lemma renderAll_stage (data : value) (name : string) (p : page) :
  stage parseHTML p (fst (renderAll parseURL parseHTML data name p))
                    (snd (renderAll parseURL parseHTML data name p)).
Proof.
  destruct (renderAll_cases parseURL parseHTML data name)
    as [[e H]|[(e & hm & H)|[(e & hm & ha & H)|[(e & hm & ha & hx & H)|
        [(hm & ha & hx & H)|(hm & ha & hx & hn & c & Hh & H)]]]]];
    rewrite H; cbn [fst snd]; constructor. exact Hh.
Qed.

(** Where the chart goes once the network section is written. *)
Lemma chart_place (hn c : string) (p : page) :
  prefix network_head hn = true ->
  let p' := set_chart (Some c) (show parseHTML network hn p) in
  p_netChart p' = Some c /\
  display (p_network p') = "block" /\ innerHTML (p_network p') = hn /\
  (holder (p_meta p) = None -> holder (p_archive p) = None -> holder (p_matrix p) = None ->
   p' = update network (fun _ => {| display := "block"; innerHTML := hn; holder := Some c |}) p) /\
  (holder (p_meta p) <> None \/ holder (p_archive p) <> None \/ holder (p_matrix p) <> None ->
   p_network p' = {| display := "block"; innerHTML := hn; holder := Some "" |}).
Proof.
  intros Hh p'. subst p'.
  destruct (chart_after_network parseHTML hn p Hh) as [c0 Hc0].
  split; [exact (chart_drawn c c0 _ Hc0)|].
  unfold set_chart, chart_owner, show, shown. cbn. rewrite (holder_in_head parseHTML hn Hh).
  destruct (holder (p_meta p)) eqn:E1, (holder (p_archive p)) eqn:E2,
    (holder (p_matrix p)) eqn:E3; cbn;
    (split; [reflexivity|]); (split; [reflexivity|]);
    (split; [intros; try discriminate; reflexivity|]);
    intros [H|[H|H]]; try reflexivity; congruence.
Qed.

End Stages.
End StageLaws.

Module MetaLaws.
Import Num Str JS Dom App Props Terms.

Lemma meta_markup_default (btn name : string) :
  meta_markup btn (Object_assign (Obj [])) name
  = meta_markup btn (Object_assign (default_metadata name)) name.
Proof.
  unfold meta_markup, default_metadata. destruct name; reflexivity.
Qed.

End MetaLaws.

Module FieldLaws.
Import Num Str JS Dom App Props Terms OkFacts.

Lemma get_other (o : list (string * value)) (k k' : string) (v : value) :
  k' <> k -> JS.get (Obj ((k, v) :: o)) k' = JS.get (Obj o) k'.
Proof.
  intros H. cbn [JS.get lookup]. now rewrite (proj2 (String.eqb_neq k' k) H).
Qed.

End FieldLaws.

(** X15. The network block writes all of its section or nothing: it throws
    and leaves the page as it was, or it returns without a change (no
    request), or, the list of requests being non-empty, it returns with the
    network container showing the table of all the requests and with the
    chart of the first 12 drawn in the first element of the page whose id
    is [netChart]. That element is the holder the markup of the network
    section declares when no section before it holds such an element, and
    the network container is then the only thing that changed. When a
    section before it holds one (the markup of the metadata and of the
    checks can declare it, through the fields that are not escaped), the
    chart is drawn there and the holder of the network section stays
    empty. *)
Theorem network_all_or_nothing (parseURL : string -> option URL)
    (parseHTML : string -> option string) (data : value) (p : page) :
  (exists e, App.render_network parseURL parseHTML data p = (Throw e, p)) \/
  App.render_network parseURL parseHTML data p = (Ok tt, p) \/
  (exists l nrows bars,
     App.network_requests data = Ok (Arr l) /\ l <> [] /\
     cmap (App.net_row parseURL) l = Ok nrows /\
     cmap (App.chart_entry parseURL) l = Ok bars /\
     let hn := Terms.network_text nrows in
     let charted := firstn 12 bars in
     let max := Num.Math_max (map size charted ++ [Num.of_Z 1]) in
     let c := Str.join (map (Props.bar_text max) charted) in
     let p' := snd (App.render_network parseURL parseHTML data p) in
     App.render_network parseURL parseHTML data p
     = (Ok tt, Dom.set_chart (Some c) (Props.show parseHTML network hn p)) /\
     p_netChart p' = Some c /\
     display (p_network p') = "block" /\ innerHTML (p_network p') = hn /\
     (holder (p_meta p) = None -> holder (p_archive p) = None -> holder (p_matrix p) = None ->
      p' = Dom.update network
             (fun _ => {| display := "block"; innerHTML := hn; holder := Some c |}) p) /\
     (holder (p_meta p) <> None \/ holder (p_archive p) <> None \/
      holder (p_matrix p) <> None ->
      p_network p' = {| display := "block"; innerHTML := hn; holder := Some "" |})).
Proof.
  destruct (RenderFacts.render_network_written parseURL parseHTML data)
    as [[e N]|[N |(l & nrows & bars & H1 & H2 & H3 & H4 & N)]].
  - left. exists e. apply N.
  - right. left. apply N.
  - right. right. exists l, nrows, bars.
    split; [exact H1|]. split; [exact H2|]. split; [exact H3|]. split; [exact H4|].
    cbv zeta in N |- *. rewrite N. cbn [snd].
    split; [reflexivity|].
    exact (StageLaws.chart_place parseHTML _ _ p (PageFacts.network_markup_head _)).
Qed.

Lemma network_all_or_nothing_witness :
  let p := snd (App.renderAll Sample.plainURL Sample.plainHTML
                  (Obj [("run_id", Str Sample.chart_id)]) "ad.zip" Sample.start_page) in
  let p' := snd (App.render_network Sample.plainURL Sample.plainHTML Sample.doc_chart_id p) in
  holder (p_meta p) = Some "" /\
  holder (p_network p') = Some "" /\
  p_netChart p' = holder (p_meta p') /\ p_netChart p' <> Some "".
Proof.
  intros p p'.
  split; [vm_compute; reflexivity|]. split.
  - destruct (network_all_or_nothing Sample.plainURL Sample.plainHTML Sample.doc_chart_id p)
      as [[e H]|[H|(l & nrows & bars & _ & _ & _ & _ & _ & _ & _ & _ & _ & H)]].
    + vm_compute in H. discriminate H.
    + vm_compute in H. discriminate H.
    + fold p' in H. rewrite H; [reflexivity|]. left. vm_compute. discriminate.
  - split; [vm_compute; reflexivity|]. vm_compute. discriminate.
Defined.

(** X16. [renderAll] fills the sections in the order meta, archive, matrix,
    network, each one whole; when it throws, the sections before the throw
    are shown and the others are as they were; when it returns, the first
    three are shown. *)
Theorem renderAll_in_order (parseURL : string -> option URL)
    (parseHTML : string -> option string) (data : value) (name : string)
    (p : page) :
  Terms.stage parseHTML p (fst (App.renderAll parseURL parseHTML data name p))
                (snd (App.renderAll parseURL parseHTML data name p)).
Proof. apply StageLaws.renderAll_stage. Qed.

(** X17. [renderAll] never shows a notification and never touches the drop
    zone and the file input, whatever the document and whether it throws or
    not. *)
Theorem renderAll_sections_only (parseURL : string -> option URL)
    (parseHTML : string -> option string) (data : value) (name : string)
    (p : page) :
  let p' := snd (App.renderAll parseURL parseHTML data name p) in
  p_drop p' = p_drop p /\ p_file p' = p_file p /\ alerts p' = alerts p.
Proof.
  exact (StageLaws.stage_frame _ _ _ _
           (StageLaws.renderAll_stage parseURL parseHTML data name p)).
Qed.

(** X18. [renderAll] reads six fields of the document and no other: a
    field of any other name changes nothing of what it does. *)
Theorem renderAll_reads_six_fields (parseURL : string -> option URL)
    (parseHTML : string -> option string)
    (o : list (string * value)) (k : string) (v : value) (name : string) (p : page) :
  ~ In k ["run_id"; "metadata"; "archive"; "thumbnails"; "results"; "runtime"] ->
  App.renderAll parseURL parseHTML (Obj ((k, v) :: o)) name p
  = App.renderAll parseURL parseHTML (Obj o) name p.
Proof.
  intros Hk.
  assert (G : forall k', In k' ["run_id"; "metadata"; "archive"; "thumbnails"; "results";
                                "runtime"] ->
                         JS.get (Obj ((k, v) :: o)) k' = JS.get (Obj o) k').
  { intros k' Hin. apply FieldLaws.get_other. intros ->. now apply Hk. }
  set (d1 := Obj o) in *. set (d2 := Obj ((k, v) :: o)) in *.
  assert (Hm : forall btn q, App.render_meta parseHTML btn d2 name q
                             = App.render_meta parseHTML btn d1 name q).
  { intros btn q. unfold App.render_meta. rewrite G by (cbn; tauto). reflexivity. }
  assert (Ha : forall q, App.render_archive parseHTML d2 q
                         = App.render_archive parseHTML d1 q).
  { intros q. unfold App.render_archive. rewrite G by (cbn; tauto). reflexivity. }
  assert (Hc : forall run q, App.render_checks parseHTML run d2 q
                             = App.render_checks parseHTML run d1 q).
  { intros run q. unfold App.render_checks. rewrite !G by (cbn; tauto). reflexivity. }
  assert (Hn : forall q, App.render_network parseURL parseHTML d2 q
                         = App.render_network parseURL parseHTML d1 q).
  { intros q. unfold App.render_network, App.network_requests.
    rewrite !G by (cbn; tauto). reflexivity. }
  unfold App.renderAll. rewrite G by (cbn; tauto).
  unfold bind, lift.
  destruct (JS.get d1 "run_id") as [run|e]; [|reflexivity].
  destruct (App.previewBtn_markup run) as [btn|e]; [|reflexivity].
  rewrite Hm. destruct (App.render_meta parseHTML btn d1 name p) as [[[]|e] q1]; [|reflexivity].
  rewrite Ha. destruct (App.render_archive parseHTML d1 q1) as [[[]|e] q2]; [|reflexivity].
  rewrite Hc. destruct (App.render_checks parseHTML run d1 q2) as [[[]|e] q3]; [|reflexivity].
  apply Hn.
Qed.

Lemma renderAll_reads_six_fields_witness :
  App.renderAll Sample.plainURL Sample.plainHTML
    (Obj [("error", Str ""); ("run_id", Str "r1")]) "ad.zip" Sample.start_page
  = App.renderAll Sample.plainURL Sample.plainHTML (Obj [("run_id", Str "r1")]) "ad.zip"
      Sample.start_page.
Proof.
  apply (renderAll_reads_six_fields Sample.plainURL Sample.plainHTML [("run_id", Str "r1")]
           "error" (Str "")).
  cbn. intros [H|[H|[H|[H|[H|[H|[]]]]]]]; discriminate H.
Defined.



(** X20. A document without metadata (the field is absent or falsy) is
    rendered exactly as the same document with the default metadata: scan
    type "Web scan", API version "v1", creative type "HTML5 Zip", the name
    of the uploaded file, device "Desktop", language "en-US". *)
Theorem missing_metadata (parseURL : string -> option URL)
    (parseHTML : string -> option string) (o : list (string * value))
    (name : string) (p : page) :
  match JS.lookup "metadata" o with Some m => JS.truthy m = false | None => True end ->
  App.renderAll parseURL parseHTML (Obj (("metadata", Terms.default_metadata name) :: o)) name p
  = App.renderAll parseURL parseHTML (Obj o) name p.
Proof.
  intros H.
  set (d1 := Obj o). set (d2 := Obj (("metadata", Terms.default_metadata name) :: o)).
  assert (Hm : forall btn q, App.render_meta parseHTML btn d2 name q
                             = App.render_meta parseHTML btn d1 name q).
  { intros btn q. unfold App.render_meta, bind, lift. subst d1 d2.
    cbn [JS.get JS.lookup String.eqb Ascii.eqb Bool.eqb cbind].
    replace (JS.Object_assign
               (JS.or match JS.lookup "metadata" o with Some x => x | None => Undefined end
                      (Obj [])))
      with (JS.Object_assign (Obj [])).
    - change (JS.or (Terms.default_metadata name) (Obj [])) with (Terms.default_metadata name).
      now rewrite <- MetaLaws.meta_markup_default.
    - destruct (JS.lookup "metadata" o) as [m|]; [|reflexivity]. unfold JS.or. now rewrite H. }
  assert (Ha : App.render_archive parseHTML d2 = App.render_archive parseHTML d1) by reflexivity.
  assert (Hc : forall run, App.render_checks parseHTML run d2
                           = App.render_checks parseHTML run d1) by reflexivity.
  assert (Hn : App.render_network parseURL parseHTML d2
               = App.render_network parseURL parseHTML d1) by reflexivity.
  unfold App.renderAll. rewrite Ha, Hn.
  change (JS.get d2 "run_id") with (JS.get d1 "run_id").
  unfold bind, lift.
  destruct (JS.get d1 "run_id") as [run|e]; [|reflexivity].
  destruct (App.previewBtn_markup run) as [btn|e]; [|reflexivity].
  rewrite Hm, Hc. reflexivity.
Qed.

Lemma missing_metadata_witness :
  App.renderAll Sample.plainURL Sample.plainHTML
    (Obj [("metadata", Terms.default_metadata "ad.zip"); ("run_id", Str "r1")]) "ad.zip"
    Sample.start_page
  = App.renderAll Sample.plainURL Sample.plainHTML (Obj [("run_id", Str "r1")]) "ad.zip"
      Sample.start_page.
Proof.
  exact (missing_metadata Sample.plainURL Sample.plainHTML [("run_id", Str "r1")] "ad.zip"
           Sample.start_page I).
Defined.


(** X21. The outcome of an upload, for every answer of the server. The
    four section containers are cleared and hidden first. When the request
    fails, or the body is not JSON, [upload] throws and nothing else
    happens. When the [error] field of the body cannot be read (the body is
    [null]), it throws as well. When the status is a failure or the [error]
    field is truthy, the message (the field when it is truthy, "Upload
    failed" when not) is shown in one notification, or [upload] throws
    without a notification when the message cannot be converted to a
    string; nothing is rendered. In the remaining case, a success status
    with a falsy [error] field, the page is what [renderAll] makes of the
    body on the cleared page. So an upload shows at most one notification,
    and when it shows one the four containers are hidden and empty. *)
Theorem upload_outcomes (parseURL : string -> option URL)
    (parseHTML : string -> option string) (f : string) (r : response) (p : page) :
  (let p' := snd (App.upload parseURL parseHTML f r p) in
   alerts p' = alerts p \/
   exists msg, alerts p' = (alerts p ++ [msg])%list /\
               p_meta p' = Props.hidden /\ p_archive p' = Props.hidden /\
               p_matrix p' = Props.hidden /\ p_network p' = Props.hidden) /\
  App.upload parseURL parseHTML f r p
  = match r with
    | NetworkFailure => (Throw TypeError, Props.clear_sections p)
    | NotJson _ => (Throw SyntaxError, Props.clear_sections p)
    | Json ok data =>
        match JS.get data "error" with
        | Throw err => (Throw err, Props.clear_sections p)
        | Ok e =>
            if negb ok || JS.truthy e then
              match JS.ToString (JS.or e (Str "Upload failed")) with
              | Ok msg => (Ok tt, Props.notify msg (Props.clear_sections p))
              | Throw err => (Throw err, Props.clear_sections p)
              end
            else App.renderAll parseURL parseHTML data f (Props.clear_sections p)
        end
    end.
Proof.
  split; [|apply UploadFacts.upload_result].
  cbv zeta. rewrite UploadFacts.upload_result.
  destruct r as [|ok|ok data]; try (left; reflexivity).
  destruct (JS.get data "error") as [e|e]; [|left; reflexivity].
  destruct (negb ok || JS.truthy e).
  - destruct (JS.ToString _) as [msg|err]; [|left; reflexivity].
    right. exists msg. repeat split.
  - left.
    exact (proj2 (proj2 (StageLaws.stage_frame _ _ _ _
                           (StageLaws.renderAll_stage parseURL parseHTML data f
                              (Props.clear_sections p))))).
Qed.

(* ===================================================================== *)
(** * Further properties: the listeners *)
(* ===================================================================== *)

Module EventLaws.
Import Str JS Dom App Props Events.

Lemma substring_all (t : string) : substring 0 (String.length t) t = t.
Proof. induction t as [|c t IH]; cbn; [reflexivity | now rewrite IH]. Qed.

Lemma substring_skip (a t : string) :
  substring (String.length a) (String.length t) (a ++ t) = t.
Proof. induction a as [|c a IH]; cbn; [apply substring_all | exact IH]. Qed.

Lemma split_at (n : nat) (s : string) :
  (n <= String.length s)%nat ->
  s = substring 0 n s ++ substring n (String.length s - n) s.
Proof.
  revert s. induction n as [|n IH]; intros s H.
  - cbn. rewrite Nat.sub_0_r. destruct s; cbn; [reflexivity|]. now rewrite substring_all.
  - destruct s as [|c s]; cbn in H; [lia|]. cbn. f_equal. apply IH. lia.
Qed.

(** [endsWith] holds exactly of the texts that are something followed by
    the suffix. *)
Lemma endsWith_spec (s t : string) :
  endsWith s t = true <-> exists a, s = a ++ t.
Proof.
  unfold endsWith. split.
  - destruct (Nat.ltb_spec (String.length s) (String.length t)) as [H|H]; [discriminate|].
    intros E. apply String.eqb_eq in E.
    exists (substring 0 (String.length s - String.length t) s).
    pose proof (split_at (String.length s - String.length t) s ltac:(lia)) as S.
    replace (String.length s - (String.length s - String.length t))%nat
      with (String.length t) in S by lia.
    rewrite E in S. exact S.
  - intros [a ->]. rewrite EscLaws.length_app.
    destruct (Nat.ltb_spec (String.length a + String.length t) (String.length t)) as [H|H];
      [lia|].
    replace (String.length a + String.length t - String.length t)%nat
      with (String.length a) by lia.
    rewrite substring_skip. apply String.eqb_refl.
Qed.

Lemma find_first {A} (f : A -> bool) (l : list A) (x : A) :
  find f l = Some x ->
  exists before after, l = (before ++ x :: after)%list /\ f x = true /\
                       forallb (fun y => negb (f y)) before = true.
Proof.
  induction l as [|a l IH]; [discriminate|]. cbn [find].
  destruct (f a) eqn:E.
  - intros [= <-]. exists [], l. repeat split. exact E.
  - intros H. destruct (IH H) as (b & c & -> & Hx & Hb).
    exists (a :: b), c. repeat split; [exact Hx|]. cbn. now rewrite E, Hb.
Qed.

Lemma add_In (t : string) (l : list string) : In t (add t l).
Proof.
  unfold add. destruct (existsb (String.eqb t) l) eqn:E.
  - apply existsb_exists in E as (x & Hx & Ex). apply String.eqb_eq in Ex. now subst.
  - apply in_or_app. right. now left.
Qed.

Lemma add_other (t c : string) (l : list string) : c <> t -> In c (add t l) <-> In c l.
Proof.
  intros H. unfold add. destruct (existsb (String.eqb t) l); [tauto|].
  rewrite in_app_iff. cbn. intuition congruence.
Qed.

Lemma add_NoDup (t : string) (l : list string) : NoDup l -> NoDup (add t l).
Proof.
  intros H. unfold add. destruct (existsb (String.eqb t) l) eqn:E; [exact H|].
  apply NoDup_app; [exact H | repeat constructor; intros [] |].
  intros x Hx [<-|[]].
  assert (existsb (String.eqb t) l = true); [|congruence].
  apply existsb_exists. exists t. split; [exact Hx | apply String.eqb_refl].
Qed.

Lemma remove_In (t : string) (l : list string) : ~ In t (remove t l).
Proof.
  unfold remove. intros H. apply filter_In in H as [_ H].
  rewrite String.eqb_refl in H. discriminate H.
Qed.

Lemma remove_other (t c : string) (l : list string) : c <> t -> In c (remove t l) <-> In c l.
Proof.
  intros H. unfold remove. rewrite filter_In. split; [tauto|]. intros Hc. split; [exact Hc|].
  apply negb_true_iff. apply String.eqb_neq. congruence.
Qed.

Lemma remove_NoDup (t : string) (l : list string) : NoDup l -> NoDup (remove t l).
Proof. apply NoDup_filter. Qed.

Section Laws.
Variable parseURL : string -> option URL.
Variable parseHTML : string -> option string.

(** The four outcomes of an event. *)
Lemma dispatch_cases (e : event) (r : response) (s : ui) :
  let s0 := {| classList := classList s; prevented := false; doc := doc s |} in
  dispatch parseURL parseHTML e r s =
    if drag_in e then drag_on e r s0
    else if node_eqb (target e) drop && String.eqb (type e) "dragleave" then drag_off e r s0
    else if node_eqb (target e) drop && String.eqb (type e) "drop"
         then drop_zip parseURL parseHTML e r (drag_off e r s0)
    else if node_eqb (target e) file && String.eqb (type e) "change"
         then choose_file parseURL parseHTML e r s0
    else s0.
Proof.
  unfold dispatch, drag_in, listeners. cbn [map app fold_left].
  destruct e as [n t fs]. cbn [target type files].
  destruct n; cbn [node_eqb andb];
    try (destruct (String.eqb_spec "change" t) as [<-|Hc]; reflexivity).
  - destruct (String.eqb_spec "dragenter" t) as [<-|H1]; [reflexivity|].
    destruct (String.eqb_spec "dragover" t) as [<-|H2]; [reflexivity|].
    destruct (String.eqb_spec "dragleave" t) as [<-|H3]; [reflexivity|].
    destruct (String.eqb_spec "drop" t) as [<-|H4]; [reflexivity|].
    rewrite !(proj2 (String.eqb_neq _ _)) by congruence. reflexivity.
  - destruct (String.eqb_spec "change" t) as [<-|Hc]; [reflexivity|].
    rewrite !(proj2 (String.eqb_neq _ _)) by congruence. reflexivity.
Qed.

Lemma drag_in_out (e : event) : drag_in e = true -> drag_out e = false.
Proof.
  unfold drag_in, drag_out. destruct (node_eqb (target e) drop); [|reflexivity].
  cbn [andb]. intros H. apply orb_true_iff in H as [H|H]; apply String.eqb_eq in H;
    rewrite H; reflexivity.
Qed.

(** What one event does to the class list and to the event itself. *)
Lemma dispatch_classes (e : event) (r : response) (s : ui) :
  let s' := dispatch parseURL parseHTML e r s in
  (drag_in e = true ->
   classList s' = add "drag" (classList s) /\ prevented s' = true) /\
  (drag_out e = true ->
   classList s' = remove "drag" (classList s) /\ prevented s' = true) /\
  (drag_in e = false -> drag_out e = false ->
   classList s' = classList s /\ prevented s' = false).
Proof.
  cbv zeta. rewrite dispatch_cases.
  destruct (drag_in e) eqn:Hin.
  - split; [intros _; split; reflexivity|]. split; [|discriminate].
    intros Hout. rewrite (drag_in_out e Hin) in Hout. discriminate Hout.
  - split; [discriminate|]. unfold drag_out.
    destruct (node_eqb (target e) drop); cbn [andb].
    + destruct (String.eqb (type e) "dragleave") eqn:E1; cbn [orb].
      * split; [intros _; split; reflexivity | discriminate].
      * destruct (String.eqb (type e) "drop") eqn:E2.
        -- split; [|discriminate]. intros _. unfold drop_zip.
           destruct (find _ (files e)); split; reflexivity.
        -- split; [discriminate|]. intros _ _.
           destruct (node_eqb (target e) file && String.eqb (type e) "change");
             [|split; reflexivity].
           unfold choose_file. destruct (files e); split; reflexivity.
    + split; [discriminate|]. intros _ _.
      destruct (node_eqb (target e) file && String.eqb (type e) "change");
        [|split; reflexivity].
      unfold choose_file. destruct (files e); split; reflexivity.
Qed.

Lemma dispatch_other (e : event) (r : response) (s : ui) (c : string) :
  c <> "drag" -> In c (classList (dispatch parseURL parseHTML e r s)) <-> In c (classList s).
Proof.
  intros Hc. destruct (dispatch_classes e r s) as (H1 & H2 & H3).
  destruct (drag_in e) eqn:Hin.
  - destruct (H1 eq_refl) as [-> _]. now apply add_other.
  - destruct (drag_out e) eqn:Hout.
    + destruct (H2 eq_refl) as [-> _]. now apply remove_other.
    + destruct (H3 eq_refl eq_refl) as [-> _]. tauto.
Qed.

Lemma dispatch_NoDup (e : event) (r : response) (s : ui) :
  NoDup (classList s) -> NoDup (classList (dispatch parseURL parseHTML e r s)).
Proof.
  intros Hn. destruct (dispatch_classes e r s) as (H1 & H2 & H3).
  destruct (drag_in e) eqn:Hin.
  - destruct (H1 eq_refl) as [-> _]. now apply add_NoDup.
  - destruct (drag_out e) eqn:Hout.
    + destruct (H2 eq_refl) as [-> _]. now apply remove_NoDup.
    + destruct (H3 eq_refl eq_refl) as [-> _]. exact Hn.
Qed.

Lemma run_app (es es' : list (event * response)) (s : ui) :
  run parseURL parseHTML (es ++ es') s = run parseURL parseHTML es' (run parseURL parseHTML es s).
Proof. unfold run. apply fold_left_app. Qed.

Lemma run_invariants (es : list (event * response)) (s : ui) :
  (forall c, c <> "drag" ->
             In c (classList (run parseURL parseHTML es s)) <-> In c (classList s)) /\
  (NoDup (classList s) -> NoDup (classList (run parseURL parseHTML es s))).
Proof.
  revert s. induction es as [|[e r] es IH]; intros s; [split; [tauto | auto]|].
  change (run parseURL parseHTML ((e, r) :: es) s)
    with (run parseURL parseHTML es (dispatch parseURL parseHTML e r s)).
  destruct (IH (dispatch parseURL parseHTML e r s)) as [I1 I2]. split.
  - intros c Hc. rewrite (I1 c Hc). now apply dispatch_other.
  - intros Hn. apply I2. now apply dispatch_NoDup.
Qed.

(** The highlight of the drop zone after a succession of events is decided
    by the last of them. *)
Lemma run_last (es : list (event * response)) (e : event) (r : response) (s : ui) :
  let s' := run parseURL parseHTML (es ++ [(e, r)]) s in
  (drag_in e = true -> In "drag" (classList s') /\ prevented s' = true) /\
  (drag_out e = true -> ~ In "drag" (classList s') /\ prevented s' = true) /\
  (drag_in e = false -> drag_out e = false ->
   classList s' = classList (run parseURL parseHTML es s) /\ prevented s' = false).
Proof.
  cbv zeta. rewrite run_app.
  change (run parseURL parseHTML [(e, r)] (run parseURL parseHTML es s))
    with (dispatch parseURL parseHTML e r (run parseURL parseHTML es s)).
  destruct (dispatch_classes e r (run parseURL parseHTML es s)) as (H1 & H2 & H3).
  split; [|split].
  - intros H. destruct (H1 H) as [-> ->]. split; [apply add_In | reflexivity].
  - intros H. destruct (H2 H) as [-> ->]. split; [apply remove_In | reflexivity].
  - intros Ha Hb. exact (H3 Ha Hb).
Qed.

Lemma find_zip_none (fs : list string) :
  Forall (fun x => ~ ends_zip x) fs -> find (fun x => endsWith x ".zip") fs = None.
Proof.
  induction 1 as [|x fs Hx _ IH]; [reflexivity|]. cbn [find].
  destruct (endsWith x ".zip") eqn:E; [|exact IH].
  apply endsWith_spec in E. contradiction.
Qed.

Lemma find_zip_first (before after : list string) (stem : string) :
  Forall (fun x => ~ ends_zip x) before ->
  find (fun x => endsWith x ".zip") (before ++ (stem ++ ".zip") :: after)
  = Some (stem ++ ".zip").
Proof.
  induction 1 as [|x fs Hx _ IH]; cbn [app find].
  - rewrite (proj2 (endsWith_spec _ _)); [reflexivity | now exists stem].
  - destruct (endsWith x ".zip") eqn:E; [|exact IH].
    apply endsWith_spec in E. contradiction.
Qed.

(** Which file an event uploads. *)
Lemma dispatch_drop (fs : list string) (r : response) (s : ui) :
  let s' := dispatch parseURL parseHTML {| target := drop; type := "drop"; files := fs |} r s in
  prevented s' = true /\
  (forall (before : list string) (stem : string) (after : list string),
     fs = (before ++ (stem ++ ".zip")%string :: after)%list ->
     Forall (fun x => ~ ends_zip x) before ->
     doc s' = snd (upload parseURL parseHTML (stem ++ ".zip") r (doc s))) /\
  (Forall (fun x => ~ ends_zip x) fs -> doc s' = doc s).
Proof.
  cbv zeta. rewrite dispatch_cases. cbn [drag_in target type files node_eqb andb orb String.eqb
                                         Ascii.eqb Bool.eqb].
  unfold drop_zip. cbn [files]. split; [destruct (find _ fs); reflexivity|]. split.
  - intros before stem after -> Hb. rewrite (find_zip_first before after stem Hb). reflexivity.
  - intros Hn. rewrite (find_zip_none fs Hn). reflexivity.
Qed.

Lemma dispatch_change (fs : list string) (r : response) (s : ui) :
  let s' := dispatch parseURL parseHTML {| target := file; type := "change"; files := fs |} r s in
  prevented s' = false /\ classList s' = classList s /\
  doc s' = match fs with
           | f :: _ => snd (upload parseURL parseHTML f r (doc s))
           | [] => doc s
           end.
Proof.
  cbv zeta. rewrite dispatch_cases. cbn. destruct fs; repeat split.
Qed.

End Laws.
End EventLaws.

(** X23. The highlight of the drop zone follows the last event: after any
    succession of events the class [drag] is on the drop zone when the last
    one is a [dragenter] or [dragover] on it, off when it is a [dragleave]
    or [drop] on it (and [preventDefault] is called on these four), and as
    it was before the last event otherwise. No other class is ever
    added or removed, and no class is ever listed twice. *)
Theorem highlight_follows_events (parseURL : string -> option URL)
    (parseHTML : string -> option string)
    (es : list (Events.event * response)) (e : Events.event) (r : response) (s : Events.ui) :
  let s' := Events.run parseURL parseHTML (es ++ [(e, r)]) s in
  (Events.drag_in e = true ->
   In "drag" (Events.classList s') /\ Events.prevented s' = true) /\
  (Events.drag_out e = true ->
   ~ In "drag" (Events.classList s') /\ Events.prevented s' = true) /\
  (Events.drag_in e = false -> Events.drag_out e = false ->
   Events.classList s' = Events.classList (Events.run parseURL parseHTML es s) /\
   Events.prevented s' = false) /\
  (forall c, c <> "drag" -> (In c (Events.classList s') <-> In c (Events.classList s))) /\
  (NoDup (Events.classList s) -> NoDup (Events.classList s')).
Proof.
  cbv zeta.
  destruct (EventLaws.run_last parseURL parseHTML es e r s) as (H1 & H2 & H3).
  destruct (EventLaws.run_invariants parseURL parseHTML (es ++ [(e, r)]) s) as (H4 & H5).
  split; [exact H1|]. split; [exact H2|]. split; [exact H3|]. split; [exact H4 | exact H5].
Qed.

Lemma highlight_follows_events_witness :
  let zone := {| Events.classList := ["zone"]; Events.prevented := false;
                 Events.doc := Sample.start_page |} in
  let enter := {| Events.target := drop; Events.type := "dragenter"; Events.files := [] |} in
  In "drag" (Events.classList (Events.run Sample.plainURL Sample.plainHTML
                                 [(enter, NetworkFailure)] zone)) /\
  NoDup (Events.classList (Events.run Sample.plainURL Sample.plainHTML
                             [(enter, NetworkFailure)] zone)).
Proof.
  intros zone enter.
  destruct (highlight_follows_events Sample.plainURL Sample.plainHTML [] enter NetworkFailure zone)
    as (H1 & _ & _ & _ & H5).
  split; [exact (proj1 (H1 eq_refl))|].
  apply H5. repeat constructor. intros [].
Defined.

(** X24. Which file is uploaded. A drop on the drop zone uploads the first
    dropped file whose name ends with [.zip], uploads nothing when there is
    none, and in both cases calls [preventDefault] and takes the highlight
    off. A change of the file input uploads the first chosen
    file whatever its name, and nothing when no file is chosen. *)
Theorem uploaded_file (parseURL : string -> option URL)
    (parseHTML : string -> option string) (fs : list string) (r : response)
    (s : Events.ui) :
  (let s' := Events.dispatch parseURL parseHTML
               {| Events.target := drop; Events.type := "drop"; Events.files := fs |} r s in
   Events.prevented s' = true /\ ~ In "drag" (Events.classList s') /\
   (forall (before : list string) (stem : string) (after : list string),
      fs = (before ++ (stem ++ ".zip")%string :: after)%list ->
      Forall (fun x => ~ Events.ends_zip x) before ->
      Events.doc s' = snd (App.upload parseURL parseHTML (stem ++ ".zip") r (Events.doc s))) /\
   (Forall (fun x => ~ Events.ends_zip x) fs -> Events.doc s' = Events.doc s)) /\
  (let s' := Events.dispatch parseURL parseHTML
               {| Events.target := file; Events.type := "change"; Events.files := fs |} r s in
   Events.prevented s' = false /\ Events.classList s' = Events.classList s /\
   Events.doc s' = match fs with
                   | f :: _ => snd (App.upload parseURL parseHTML f r (Events.doc s))
                   | [] => Events.doc s
                   end).
Proof.
  split; [|apply EventLaws.dispatch_change].
  cbv zeta.
  destruct (EventLaws.dispatch_drop parseURL parseHTML fs r s) as (H1 & H2 & H3).
  destruct (EventLaws.dispatch_classes parseURL parseHTML
              {| Events.target := drop; Events.type := "drop"; Events.files := fs |} r s)
    as (_ & Hout & _).
  destruct (Hout eq_refl) as [Hc _].
  split; [exact H1|]. split; [rewrite Hc; apply EventLaws.remove_In|].
  split; [exact H2 | exact H3].
Qed.

Lemma uploaded_file_witness :
  let s := {| Events.classList := ["drag"]; Events.prevented := false;
              Events.doc := Sample.start_page |} in
  Events.doc (Events.dispatch Sample.plainURL Sample.plainHTML
                {| Events.target := drop; Events.type := "drop";
                   Events.files := ["readme.txt"; "ad.zip"] |} NetworkFailure s)
  = snd (App.upload Sample.plainURL Sample.plainHTML "ad.zip" NetworkFailure Sample.start_page).
Proof.
  intros s.
  destruct (uploaded_file Sample.plainURL Sample.plainHTML ["readme.txt"; "ad.zip"]
              NetworkFailure s)
    as ((_ & _ & H & _) & _).
  apply (H ["readme.txt"] "ad" []); [reflexivity|].
  constructor; [|constructor].
  intros Hz. apply EventLaws.endsWith_spec in Hz. discriminate Hz.
Defined.
